(** * PRISM climate downloader: acquisition and Zarr materialization

    A shallow embedding of the acquisition scripts
    ([download_daily_all_2001_2024.py], [prism_bulk_download.py]), of the
    raster decoder ([process_prism_data.py]) and of the Zarr converter
    ([prism_to_zarr.py]), with the properties of the design document
    stated and settled against the embedded code. *)

From Stdlib Require Import ZArith List String Ascii Bool Lia.
From Corelib Require Import PrimFloat SpecFloat FloatOps.
From Stdlib Require Import DecimalString.
From Stdlib.Strings Require Import Byte.
From stdpp Require Import base option list sorting strings gmap.
Import ListNotations.

Set Warnings "-inexact-float".
Local Open Scope string_scope.
Local Open Scope list_scope.

(** ** Python strings *)

Module Py.

(** [sub in s] *)
Definition str_in (sub s : string) : bool :=
  match String.index 0 sub s with Some _ => true | None => false end.

(** [str(n)] for a non-negative integer *)
Definition str_nat (n : nat) : string :=
  NilEmpty.string_of_uint (Nat.to_uint n).

(** [str(n)] for an integer *)
Definition str_Z (n : Z) : string :=
  match n with
  | Zneg p => "-" +:+ str_nat (Pos.to_nat p)
  | _ => str_nat (Z.to_nat n)
  end.

(** [s.split(sep)] for a one-character separator: never empty. *)
Fixpoint split (sep : ascii) (s : string) : list string :=
  match s with
  | EmptyString => [EmptyString]
  | String c rest =>
      if Ascii.eqb c sep then EmptyString :: split sep rest
      else match split sep rest with
           | [] => [String c EmptyString]
           | tok :: toks => String c tok :: toks
           end
  end.

(** [s.replace('.bil', '')]: every occurrence, scanning left to right. *)
Fixpoint remove_dot_bil (s : string) : string :=
  match s with
  | String "." (String "b" (String "i" (String "l" rest))) =>
      remove_dot_bil rest
  | String c rest => String c (remove_dot_bil rest)
  | EmptyString => EmptyString
  end.

(** [s[a:b]] for [0 <= a <= b] *)
Definition slice (a b : nat) (s : string) : string :=
  String.substring a (b - a) s.

(** [range(0, stop, step)] for [stop >= 0]: empty for a negative step (a
    zero step raises, which is left to the caller). *)
Definition range_step (stop : nat) (step : Z) : list nat :=
  if (0 <? step)%Z
  then map (fun k => k * Z.to_nat step)
         (seq 0 ((stop + Z.to_nat step - 1) / Z.to_nat step))
  else [].

(** [s.rfind(c)], counting positions from [i]. *)
Fixpoint rfind_from (c : ascii) (s : string) (i : nat) : option nat :=
  match s with
  | EmptyString => None
  | String x rest =>
      match rfind_from c rest (S i) with
      | Some j => Some j
      | None => if Ascii.eqb x c then Some i else None
      end
  end.

Definition rfind (c : ascii) (s : string) : option nat := rfind_from c s 0.

(** [s[i:]] *)
Definition drop (i : nat) (s : string) : string :=
  String.substring i (String.length s - i) s.

(** [int(s)] on an ASCII string: surrounding white space is stripped, one
    sign is allowed, the rest must be decimal digits.  (The tokens this is
    applied to come out of [split('_')], so no digit-group underscore can
    occur.) *)
Definition is_space (c : ascii) : bool :=
  let n := nat_of_ascii c in
  ((9 <=? n)%nat && (n <=? 13)%nat) || ((28 <=? n)%nat && (n <=? 32)%nat).

Definition digit_of (c : ascii) : option Z :=
  let n := nat_of_ascii c in
  if (48 <=? n)%nat && (n <=? 57)%nat then Some (Z.of_nat (n - 48)) else None.

Fixpoint lstrip (s : string) : string :=
  match s with
  | String c rest => if is_space c then lstrip rest else s
  | EmptyString => EmptyString
  end.

Fixpoint digits (acc : Z) (s : string) : option Z :=
  match s with
  | EmptyString => Some acc
  | String c rest =>
      if is_space c
      then (if String.eqb (lstrip rest) "" then Some acc else None)
      else match digit_of c with
           | Some d => digits (10 * acc + d) rest
           | None => None
           end
  end.

Definition unsigned (s : string) : option Z :=
  match s with
  | String c _ => match digit_of c with Some _ => digits 0 s | None => None end
  | EmptyString => None
  end.

Definition int (s : string) : option Z :=
  match lstrip s with
  | String "+" rest => unsigned rest
  | String "-" rest => Z.opp <$> unsigned rest
  | t => unsigned t
  end.

End Py.

(** ** [pathlib.PurePath] on slash-separated strings *)

Module Path.

Definition name (p : string) : string :=
  match Py.rfind "/" p with
  | Some i => Py.drop (S i) p
  | None => p
  end.

Definition parent (p : string) : string :=
  match Py.rfind "/" p with
  | Some i => Py.slice 0 i p
  | None => "."
  end.

(** [suffix]: from the last dot of the name on, unless that dot opens or
    closes the name. *)
Definition suffix (p : string) : string :=
  let n := name p in
  match Py.rfind "." n with
  | Some i => if (0 <? i)%nat && (i <? String.length n - 1)%nat then Py.drop i n else ""
  | None => ""
  end.

Definition stem (p : string) : string :=
  let n := name p in
  match Py.rfind "." n with
  | Some i => if (0 <? i)%nat && (i <? String.length n - 1)%nat then Py.slice 0 i n else n
  | None => n
  end.

Definition join (dir file : string) : string := dir +:+ "/" +:+ file.

Definition with_suffix (p suf : string) : string :=
  Py.slice 0 (String.length p - String.length (suffix p)) p +:+ suf.

End Path.

(** ** Acquisition: the daily downloaders

    [download_daily_all_2001_2024.py]; the two 1981-2000 scripts carry the
    same [download_file] and [download_date_variable] verbatim. *)

Module Daily.

(** What one [urlopen(url, timeout=30)] followed by [response.read()] and
    the write of the body does.  A request that fails leaves the
    destination as it was. *)
Inductive response :=
| Body (size : Z)            (* the body arrived; [size] bytes are written *)
| HTTPError (code : Z)       (* [urllib.error.HTTPError] with [e.code] *)
| OtherError (msg : string). (* any other exception, [str(e) = msg] *)

Inductive event :=
| Request (url : string)
| Sleep (seconds : Z)
| WriteFile (path : string) (size : Z).

(** The output tree (path to size in bytes) and what has been done so far. *)
Record world := World { fs : gmap string Z; trace : list event }.

Definition emit (e : event) (w : world) : world :=
  World (fs w) (trace w ++ [e]).

Definition write_file (path : string) (size : Z) (w : world) : world :=
  World (<[path := size]> (fs w)) (trace w ++ [WriteFile path size]).

(** [output_path.exists()] and [st_size > 1000] *)
Definition already_downloaded (files : gmap string Z) (path : string) : bool :=
  match files !! path with
  | Some size => (1000 <? size)%Z
  | None => false
  end.

Section DownloadFile.
(** [net url k] is what the remote end does at the request made in
    iteration [k] of the retry loop for [url]. *)
Variable net : string -> nat -> response.
Variables (url output_path : string) (max_retries : nat).

(** The body of [for attempt in range(max_retries)], iterated over the
    remaining values of [attempt]. *)
Fixpoint attempts (todo : list nat) (w : world) : (bool * string) * world :=
  match todo with
  | [] => ((false, "Max retries exceeded"), w)
  | attempt :: rest =>
      if already_downloaded (fs w) output_path
      then ((true, "Already downloaded"), w)
      else
        let w1 := emit (Request url) w in
        match net url attempt with
        | Body size => ((true, "Success"), write_file output_path size w1)
        | HTTPError code =>
            if (code =? 404)%Z then ((false, "File not found (404)"), w1)
            else if (attempt =? max_retries - 1)%nat
                 then ((false, "HTTP Error " +:+ Py.str_Z code), w1)
                 else attempts rest (emit (Sleep (2 ^ Z.of_nat attempt)) w1)
        | OtherError msg =>
            if (attempt =? max_retries - 1)%nat then ((false, msg), w1)
            else attempts rest (emit (Sleep (2 ^ Z.of_nat attempt)) w1)
        end
  end.

Definition download_file (w : world) : (bool * string) * world :=
  attempts (seq 0 max_retries) w.
End DownloadFile.

(** A calendar day as the scripts use it: [strftime("%Y%m%d")] and [.year]. *)
Record date := Date { year : nat; month : nat; day : nat }.

Definition pad (width : nat) (s : string) : string :=
  String.concat "" (repeat "0" (width - String.length s)) +:+ s.

Definition date_str (d : date) : string :=
  pad 4 (Py.str_nat (year d)) +:+ pad 2 (Py.str_nat (month d))
    +:+ pad 2 (Py.str_nat (day d)).

Definition base_url : string := "https://services.nacse.org/prism/data/public/4km".
Definition ftp_base : string := "ftp://prism.oregonstate.edu/daily".

Definition filename_of (variable : string) (d : date) : string :=
  "PRISM_" +:+ variable +:+ "_stable_4kmD2_" +:+ date_str d +:+ "_bil.zip".

Definition build_url (variable : string) (d : date) (use_ftp : bool) : string :=
  if use_ftp
  then ftp_base +:+ "/" +:+ variable +:+ "/" +:+ Py.str_nat (year d) +:+ "/"
         +:+ filename_of variable d
  else base_url +:+ "/" +:+ variable +:+ "/" +:+ date_str d.

Record fetch_result := FetchResult {
  r_date : string;
  r_variable : string;
  success : bool;
  message : string;
  path : option string
}.

Section Task.
Variable net : string -> nat -> response.
Variable output_dir : string.

Definition output_path_of (d : date) (variable : string) : string :=
  output_dir +:+ "/" +:+ variable +:+ "/" +:+ filename_of variable d.

Definition download_date_variable (d : date) (variable : string) (w : world)
  : fetch_result * world :=
  let output_path := output_path_of d variable in
  let '((success1, message1), w1) :=
    download_file net (build_url variable d false) output_path 3 w in
  let '((success2, message2), w2) :=
    if negb success1 && Py.str_in "404" message1
    then download_file net (build_url variable d true) output_path 3 w1
    else ((success1, message1), w1) in
  (FetchResult (date_str d) variable success2 message2
     (if success2 then Some output_path else None), w2).

(** [download_range] from the enumerated [dates] on: tasks are submitted
    date-major, variable-minor; each task owns its destination path, so
    the pool is run here one task after the other. *)
Definition tasks_of (dates : list date) (variables : list string)
  : list (date * string) :=
  flat_map (fun d => map (fun v => (d, v)) variables) dates.

Fixpoint run_tasks (tasks : list (date * string)) (w : world)
  : list fetch_result * world :=
  match tasks with
  | [] => ([], w)
  | (d, v) :: rest =>
      let '(r, w1) := download_date_variable d v w in
      let '(rs, w2) := run_tasks rest w1 in
      (r :: rs, w2)
  end.

Definition download_range (dates : list date) (variables : list string)
  (w : world) : list fetch_result * world :=
  run_tasks (tasks_of dates variables) w.

(** The summary's classification of one result. *)
Definition is_skipped (r : fetch_result) : bool :=
  success r && Py.str_in "Already" (message r).
Definition is_failed (r : fetch_result) : bool := negb (success r).
Definition is_new_download (r : fetch_result) : bool :=
  success r && negb (Py.str_in "Already" (message r)).
End Task.

Definition requests_to (url : string) (tr : list event) : nat :=
  length (List.filter (fun e => match e with Request u => String.eqb u url | _ => false end) tr).

Definition requests (tr : list event) : nat :=
  length (List.filter (fun e => match e with Request _ => true | _ => false end) tr).

Definition sleeps (tr : list event) : list Z :=
  omap (fun e => match e with Sleep s => Some s | _ => None end) tr.

End Daily.

(** ** Acquisition: the bulk downloader ([prism_bulk_download.py]) *)

Module Bulk.

(** What one [urllib.request.urlretrieve(url, output_path)] does. *)
Inductive response :=
| Retrieved (size : Z)  (* the file was written, [size] bytes *)
| URLError              (* [urllib.error.URLError], which covers HTTP errors *)
| Unexpected.           (* any other exception *)

Inductive event :=
| Request (url : string)
| Sleep (seconds : Z)
| WriteFile (path : string) (size : Z)
| ExtractZip (path : string).

Record world := World { fs : gmap string Z; trace : list event }.

Definition emit (e : event) (w : world) : world :=
  World (fs w) (trace w ++ [e]).

Section DownloadFile.
Variable net : string -> nat -> response.
Variables (url output_path : string) (retries : nat).

(** [download_file]: the loop falls through to an implicit [None] when
    [retries] is zero, which the caller reads as a failure. *)
Fixpoint attempts (todo : list nat) (w : world) : bool * world :=
  match todo with
  | [] => (false, w)
  | attempt :: rest =>
      let w1 := emit (Request url) w in
      match net url attempt with
      | Retrieved size =>
          (true, World (<[output_path := size]> (fs w1))
                   (trace w1 ++ [WriteFile output_path size]))
      | URLError =>
          if (attempt <? retries - 1)%nat
          then attempts rest (emit (Sleep (2 ^ Z.of_nat attempt)) w1)
          else (false, w1)
      | Unexpected => (false, w1)
      end
  end.

Definition download_file (w : world) : bool * world :=
  attempts (seq 0 retries) w.
End DownloadFile.

Section Batch.
Variable net : string -> nat -> response.
Variables (output_dir temporal : string).

Definition output_path_of (variable filename : string) : string :=
  Path.join (Path.join (Path.join output_dir variable) temporal) filename.

(** The submission loop of [download_batch]: a file that exists is listed
    as downloaded and never submitted.  [filename.split('_')[1]] raises an
    [IndexError] on a name without underscore, which ends the call
    ([None]). *)
Fixpoint submit (urls : list (string * string)) (files : gmap string Z)
  : option (list string * list (string * string)) :=
  match urls with
  | [] => Some ([], [])
  | (url, filename) :: rest =>
      match Py.split "_" filename with
      | _ :: variable :: _ =>
          let output_path := output_path_of variable filename in
          '(downloaded, futures) ← submit rest files;
          match files !! output_path with
          | Some _ => Some (filename :: downloaded, futures)
          | None => Some (downloaded, (url, output_path) :: futures)
          end
      | _ => None
      end
  end.

(** The collection loop, one future after the other. *)
Fixpoint collect (futures : list (string * string)) (w : world)
  : (list string * list string) * world :=
  match futures with
  | [] => (([], []), w)
  | (url, output_path) :: rest =>
      let '(ok, w1) := download_file net url output_path 3 w in
      let w2 :=
        if ok && String.eqb (Path.suffix output_path) ".zip"
        then emit (ExtractZip output_path) w1 else w1 in
      let '((downloaded, failed), w3) := collect rest w2 in
      if ok then ((Path.name output_path :: downloaded, failed), w3)
      else ((downloaded, Path.name output_path :: failed), w3)
  end.

Definition download_batch (urls : list (string * string)) (w : world)
  : option ((list string * list string) * world) :=
  '(skipped, futures) ← submit urls (fs w);
  let '((downloaded, failed), w') := collect futures w in
  Some ((skipped ++ downloaded, failed), w').
End Batch.

Definition requests (tr : list event) : nat :=
  length (List.filter (fun e => match e with Request _ => true | _ => false end) tr).

End Bulk.

(** ** Python exceptions as results *)

Inductive exn :=
| ValueError (msg : string)
| TypeError
| FileNotFoundError
| BadZipFile.

Inductive result (A : Type) :=
| Ok (a : A)
| Raise (e : exn).
Arguments Ok {A} a.
Arguments Raise {A} e.

#[global] Instance result_bind : MBind result := fun A B k r =>
  match r with Ok a => k a | Raise e => Raise e end.

Definition is_ok {A} (r : result A) : bool :=
  match r with Ok _ => true | Raise _ => false end.

(** ** The raster decoder ([process_prism_data.py]) *)

Module Decoder.

Record GridSpec := {
  ncols : Z;
  nrows : Z;
  xllcorner : float;
  yllcorner : float;
  cellsize : float;
  nodata_value : float
}.

(** The keys of [GRID_SPECS]; any other resolution is a [KeyError] in
    [__init__]. *)
Inductive resolution := Res4km | Res800m.

Definition GRID_SPECS (r : resolution) : GridSpec :=
  match r with
  | Res4km =>
      {| ncols := 1405; nrows := 621;
         xllcorner := -125.0208333; yllcorner := 24.0625;
         cellsize := 0.04166666666667; nodata_value := -9999.0 |}
  | Res800m =>
      {| ncols := 7025; nrows := 3105;
         xllcorner := -125.0208333; yllcorner := 24.0625;
         cellsize := 0.00833333333333; nodata_value := -9999.0 |}
  end.

(** *** Files *)

(** A file on disk: its bytes and, when [zipfile.ZipFile] can open it, the
    members [namelist()] gives with their contents. *)
Record file := File {
  bytes : list byte;
  members : option (list (string * list byte))
}.

Definition plain (b : list byte) : file := File b None.

(** *** float32 cells *)

(** A float32 as its 32 bits. *)
Definition f32 := Z.

Definition le32 (b0 b1 b2 b3 : byte) : f32 :=
  Z.lor (Z.of_N (Byte.to_N b0))
    (Z.lor (Z.shiftl (Z.of_N (Byte.to_N b1)) 8)
       (Z.lor (Z.shiftl (Z.of_N (Byte.to_N b2)) 16)
          (Z.shiftl (Z.of_N (Byte.to_N b3)) 24))).

(** [np.fromfile(f, dtype='<f4')]: whole items only; up to three trailing
    bytes are left unread. *)
Fixpoint fromfile (payload : list byte) : list f32 :=
  match payload with
  | b0 :: b1 :: b2 :: b3 :: rest => le32 b0 b1 b2 b3 :: fromfile rest
  | _ => []
  end.

(** The value a float32 bit pattern stands for. *)
Definition f32_value (w : f32) : spec_float :=
  let s := Z.testbit w 31 in
  let e := Z.land (Z.shiftr w 23) 255 in
  let m := Z.land w (2 ^ 23 - 1) in
  if (e =? 255)%Z then (if (m =? 0)%Z then S754_infinity s else S754_nan)
  else if (e =? 0)%Z
       then match m with Zpos p => S754_finite s p (-149) | _ => S754_zero s end
       else match (m + 2 ^ 23)%Z with
            | Zpos p => S754_finite s p (e - 150)
            | _ => S754_zero s
            end.

(** A value of the sidecar header, as [read_bil_header] types it, or of the
    grid table. *)
Inductive hval :=
| HInt (n : Z)
| HFloat (x : float)
| HStr (s : string).

(** The scalar compared with a float32 array is first cast to float32
    (round to nearest, ties to even); a string compares unequal to every
    cell. *)
Definition to_float32 (x : spec_float) : spec_float :=
  match x with
  | S754_finite s m e => binary_round 24 128 s m e
  | _ => x
  end.

Definition scalar32 (v : hval) : option spec_float :=
  match v with
  | HInt n => Some (binary_normalize 24 128 n 0 false)
  | HFloat x => Some (to_float32 (Prim2SF x))
  | HStr _ => None
  end.

(** [cell == nodata] for one cell *)
Definition cell_equals (nodata : hval) (w : f32) : bool :=
  match scalar32 nodata with
  | Some x => SFeqb (f32_value w) x
  | None => false
  end.

(** *** Arrays *)

(** A two-dimensional masked array: shape, row-major buffer, row-major
    mask ([true] marks a missing cell). *)
Record masked_array := {
  shape : Z * Z;
  values : list f32;
  mask : list bool
}.

Definition cell (a : masked_array) (i j : nat) : option f32 :=
  values a !! (i * Z.to_nat (snd (shape a)) + j)%nat.

Definition masked (a : masked_array) (i j : nat) : option bool :=
  mask a !! (i * Z.to_nat (snd (shape a)) + j)%nat.

(** [data.reshape((nrows, ncols))]: dimensions must be integers; a negative
    one is inferred from the size, at most one of them. *)
Definition reshape (size : Z) (nrows ncols : hval) : result (Z * Z) :=
  match nrows, ncols with
  | HInt r, HInt c =>
      if (r <? 0)%Z && (c <? 0)%Z
      then Raise (ValueError "can only specify one unknown dimension")
      else if (r <? 0)%Z
      then (if (c =? 0)%Z || negb (size mod c =? 0)%Z
            then Raise (ValueError "cannot reshape array")
            else Ok ((size / c)%Z, c))
      else if (c <? 0)%Z
      then (if (r =? 0)%Z || negb (size mod r =? 0)%Z
            then Raise (ValueError "cannot reshape array")
            else Ok (r, (size / r)%Z))
      else if (size =? r * c)%Z then Ok (r, c)
      else Raise (ValueError "cannot reshape array")
  | _, _ => Raise TypeError
  end.

Section Processor.
(** [read_bil_header], which types the lines of the sidecar text file. *)
Variable read_bil_header : list byte -> gmap string hval.
Variable specs : GridSpec.

(** The first half of [read_bil_data]: column count, row count and nodata
    value, from the sidecar header when there is one. *)
Definition grid_params (disk : gmap string file) (bil_path : string)
  : hval * hval * hval :=
  let hdr_path := Path.with_suffix bil_path ".hdr" in
  match disk !! hdr_path with
  | Some hdr =>
      let header := read_bil_header (bytes hdr) in
      (default (HInt (ncols specs)) (header !! "ncols"),
       default (HInt (nrows specs)) (header !! "nrows"),
       default (HFloat (nodata_value specs)) (header !! "nodata_value"))
  | None =>
      (HInt (ncols specs), HInt (nrows specs), HFloat (nodata_value specs))
  end.

Definition read_bil_data (disk : gmap string file) (bil_path : string)
  : result masked_array :=
  let '(ncols, nrows, nodata) := grid_params disk bil_path in
  match disk !! bil_path with
  | None => Raise FileNotFoundError
  | Some f =>
      let data := fromfile (bytes f) in
      shp ← reshape (Z.of_nat (length data)) nrows ncols;
      Ok {| shape := shp; values := data;
            mask := map (cell_equals nodata) data |}
  end.

(** *** File names *)

Record metadata := {
  md_source : option string;
  md_variable : option string;
  md_stability : option string;
  md_resolution : option string;
  md_date_str : option string;
  md_temporal : option string;
  md_year : option Z;
  md_month : option Z;
  md_day : option Z;
  md_grid : option GridSpec
}.

Definition no_metadata : metadata :=
  {| md_source := None; md_variable := None; md_stability := None;
     md_resolution := None; md_date_str := None; md_temporal := None;
     md_year := None; md_month := None; md_day := None; md_grid := None |}.

Definition py_int (s : string) : result Z :=
  match Py.int s with
  | Some n => Ok n
  | None => Raise (ValueError "invalid literal for int() with base 10")
  end.

Definition parse_filename (filename : string) : result metadata :=
  let parts := Py.split "_" (Py.remove_dot_bil filename) in
  match parts with
  | p0 :: p1 :: p2 :: p3 :: date_str :: _ =>
      let md temporal year month day :=
        {| md_source := Some p0; md_variable := Some p1;
           md_stability := Some p2; md_resolution := Some p3;
           md_date_str := Some date_str; md_temporal := temporal;
           md_year := year; md_month := month; md_day := day;
           md_grid := None |} in
      if (String.length date_str =? 6)%nat then
        y ← py_int (Py.slice 0 4 date_str);
        m ← py_int (Py.slice 4 6 date_str);
        Ok (md (Some "monthly") (Some y) (Some m) None)
      else if (String.length date_str =? 8)%nat then
        y ← py_int (Py.slice 0 4 date_str);
        m ← py_int (Py.slice 4 6 date_str);
        d ← py_int (Py.slice 6 8 date_str);
        Ok (md (Some "daily") (Some y) (Some m) (Some d))
      else if (String.length date_str =? 4)%nat then
        y ← py_int date_str;
        Ok (md (Some "annual") (Some y) None None)
      else Ok (md None None None None)
  | _ => Ok no_metadata
  end.

(** *** Datasets *)

(** [extract_zip] with the default target [zip_path.parent / zip_path.stem]:
    every member is written below it, in [namelist()] order. *)
Definition extract_zip (disk : gmap string file) (zip_path : string)
  : result (list string * gmap string file) :=
  match disk !! zip_path with
  | None => Raise FileNotFoundError
  | Some f =>
      match members f with
      | None => Raise BadZipFile
      | Some ms =>
          let extract_to := Path.join (Path.parent zip_path) (Path.stem zip_path) in
          Ok (map (fun m => Path.join extract_to (fst m)) ms,
              foldl (fun d m => <[Path.join extract_to (fst m) := plain (snd m)]> d)
                disk ms)
      end
  end.

Record dataset := {
  data : masked_array;
  meta : metadata;
  file_path : string
}.

Definition with_grid (md : metadata) : metadata :=
  {| md_source := md_source md; md_variable := md_variable md;
     md_stability := md_stability md; md_resolution := md_resolution md;
     md_date_str := md_date_str md; md_temporal := md_temporal md;
     md_year := md_year md; md_month := md_month md; md_day := md_day md;
     md_grid := Some specs |}.

Definition read_prism_dataset (disk : gmap string file) (path : string)
  : result dataset * gmap string file :=
  let located : result string * gmap string file :=
    if String.eqb (Path.suffix path) ".zip" then
      match extract_zip disk path with
      | Raise e => (Raise e, disk)
      | Ok (extracted, disk') =>
          match List.filter (fun f => String.eqb (Path.suffix f) ".bil") extracted with
          | [] => (Raise (ValueError "No .bil file found"), disk')
          | bil_path :: _ => (Ok bil_path, disk')
          end
      end
    else if String.eqb (Path.suffix path) ".bil" then (Ok path, disk)
    else (Raise (ValueError "Unsupported file format"), disk) in
  let '(found, disk') := located in
  (bil_path ← found;
   d ← read_bil_data disk' bil_path;
   md ← parse_filename (Path.name bil_path);
   Ok {| data := d; meta := with_grid md; file_path := bil_path |},
   disk').

End Processor.

End Decoder.

(** ** The Zarr converter ([prism_to_zarr.py]) *)

Module Zarr.
Import Decoder.

(** *** [datetime(year, month, day)]

    A midnight timestamp, held as its proleptic Gregorian ordinal
    ([toordinal()]); timestamps compare as their ordinals do. *)
Definition datetime := Z.

Definition is_leap (y : Z) : bool :=
  ((y mod 4 =? 0) && (negb (y mod 100 =? 0) || (y mod 400 =? 0)))%Z.

Definition days_in_month (y m : Z) : Z :=
  if (m =? 2)%Z then (if is_leap y then 29 else 28)%Z
  else if ((m =? 4) || (m =? 6) || (m =? 9) || (m =? 11))%Z then 30%Z
  else 31%Z.

Definition days_before_year (y : Z) : Z :=
  let y1 := (y - 1)%Z in
  (y1 * 365 + y1 / 4 - y1 / 100 + y1 / 400)%Z.

Definition days_before_month (y m : Z) : Z :=
  foldr Z.add 0%Z
    (map (fun k => days_in_month y (Z.of_nat k)) (seq 1 (Z.to_nat m - 1))).

Definition mk_datetime (y m d : Z) : result datetime :=
  if ((1 <=? y) && (y <=? 9999) && (1 <=? m) && (m <=? 12)
      && (1 <=? d) && (d <=? days_in_month y m))%Z
  then Ok (days_before_year y + days_before_month y m + d)%Z
  else Raise (ValueError "date value out of range").

(** *** Coordinate arrays *)

Fixpoint float_of_nat (n : nat) : float :=
  match n with
  | O => 0%float
  | S k => (float_of_nat k + 1)%float
  end.

(** The length [ceil(v)] of an [arange], counted up from [k] and capped at
    [n]: the number of integers [k, k+1, ...] below [v]. *)
Fixpoint capped_len (n : nat) (k v : float) : nat :=
  match n with
  | O => O
  | S n' => if (k <? v)%float then S (capped_len n' (k + 1)%float v) else O
  end.

(** numpy fills an [arange] from its first two items: item [i] is
    [start + i * delta] with [delta = (start + step) - start]. *)
Fixpoint arange_fill (start delta i : float) (count : nat) : list float :=
  match count with
  | O => []
  | S c => (start + i * delta)%float :: arange_fill start delta (i + 1)%float c
  end.

(** [np.arange(start, stop, step)[:n]] *)
Definition arange_prefix (n : nat) (start stop step : float) : list float :=
  let len := capped_len n 0%float ((stop - start) / step)%float in
  let next := (start + step)%float in
  let delta := (next - start)%float in
  take len (start :: next :: arange_fill start delta 2%float (len - 2)).

Definition axis (corner cellsize : float) (count : Z) : list float :=
  arange_prefix (Z.to_nat count) corner
    (corner + float_of_nat (Z.to_nat count) * cellsize)%float cellsize.

Inductive chunk_strategy := time_optimized | space_optimized | balanced.

(** [CHUNK_CONFIGS]: (time, lat, lon) *)
Definition CHUNK_CONFIGS (s : chunk_strategy) : Z * Z * Z :=
  match s with
  | time_optimized => (365, 621, 1405)%Z
  | space_optimized => (-1, 155, 351)%Z
  | balanced => (30, 207, 468)%Z
  end.

(** *** The store *)

Inductive write_mode := ModeW | ModeA.

Inductive zevent :=
| ToZarr (mode : write_mode) (chunks : Z * Z * Z) (times : list datetime)
| Consolidate.

(** The time coordinate of the store at [output_zarr]; [None] when the
    path does not exist.  [to_zarr(mode='w')] replaces the store;
    [to_zarr(mode='a', append_dim='time')] writes the batch after what is
    there, and creates the store when there is none. *)
Definition to_zarr (mode : write_mode) (batch : list datetime)
  (store : option (list datetime)) : option (list datetime) :=
  match mode, store with
  | ModeA, Some old => Some (old ++ batch)
  | _, _ => Some batch
  end.

Section Converter.
Variable read_bil_header : list byte -> gmap string hval.
Variable resolution : Decoder.resolution.
Variable strategy : chunk_strategy.

Definition specs : GridSpec := GRID_SPECS resolution.
Definition chunk_config : Z * Z * Z := CHUNK_CONFIGS strategy.

(** [self.lon], and [self.lat] after [self.lat[::-1]] *)
Definition lon : list float :=
  axis (xllcorner specs) (cellsize specs) (ncols specs).

Definition lat : list float :=
  rev (axis (yllcorner specs) (cellsize specs) (nrows specs)).

Definition read_bil_file (disk : gmap string file) (path : string)
  : result (masked_array * metadata) * gmap string file :=
  let '(r, disk') := read_prism_dataset read_bil_header specs disk path in
  (dataset ← r; Ok (data dataset, meta dataset), disk').

(** [create_xarray_dataset]: one time step over the [lat] and [lon]
    coordinates; xarray refuses data whose shape does not fit them.  Of
    the dataset the time coordinate is kept. *)
Definition create_xarray_dataset (d : masked_array) (md : metadata)
  (time_stamp : datetime) : result (list datetime) :=
  if ((fst (shape d) =? Z.of_nat (length lat))
      && (snd (shape d) =? Z.of_nat (length lon)))%Z
  then Ok [time_stamp]
  else Raise (ValueError "conflicting sizes for dimension").

(** The date filter of [process_time_series]: the body of the [try]; an
    exception is logged and the file is passed over. *)
Definition file_date (start_date end_date : datetime) (name : string)
  : option datetime :=
  match parse_filename name with
  | Raise _ => None
  | Ok md =>
      match md_year md, md_month md, md_day md with
      | Some y, Some m, Some d =>
          match mk_datetime y m d with
          | Ok t => if ((start_date <=? t) && (t <=? end_date))%Z
                    then Some t else None
          | Raise _ => None
          end
      | _, _, _ => None
      end
  end.

Definition select_files (input_dir : string) (start_date end_date : datetime)
  (all_files : list string) : list (string * datetime) :=
  omap (fun name =>
          t ← file_date start_date end_date name;
          Some (Path.join input_dir name, t)) all_files.

(** The inner loop: the datasets of one batch, files that fail to read or
    to fit being passed over. *)
Fixpoint read_batch (batch : list (string * datetime)) (disk : gmap string file)
  : list (list datetime) * gmap string file :=
  match batch with
  | [] => ([], disk)
  | (path, file_date) :: rest =>
      let '(r, disk1) := read_bil_file disk path in
      let '(datasets, disk2) := read_batch rest disk1 in
      match (p ← r; create_xarray_dataset (fst p) (snd p) file_date) with
      | Ok ds => (ds :: datasets, disk2)
      | Raise _ => (datasets, disk2)
      end
  end.

Record run_state := {
  disk : gmap string file;
  store : option (list datetime);
  events : list zevent;
  data_written : bool
}.

(** One iteration of [for i in range(0, len(files_to_process), batch_days)] *)
Definition process_batch (files : list (string * datetime)) (batch_days : nat)
  (append_mode : bool) (st : run_state) (i : nat) : run_state :=
  let batch := take batch_days (drop i files) in
  let '(datasets, disk') := read_batch batch (disk st) in
  match datasets with
  | [] => {| disk := disk'; store := store st; events := events st;
             data_written := data_written st |}
  | _ =>
      let batch_ds := merge_sort Z.le (concat datasets) in
      let '(ctime, clat, clon) := chunk_config in
      let chunks := (Z.min ctime (Z.of_nat (length batch_ds)), clat, clon) in
      let mode := if (i =? 0)%nat && negb append_mode then ModeW else ModeA in
      {| disk := disk';
         store := to_zarr mode batch_ds (store st);
         events := events st ++ [ToZarr mode chunks batch_ds];
         data_written := true |}
  end.

Definition process_time_series (input_dir : string) (all_files : list string)
  (start_date end_date : datetime) (batch_days : Z) (st : run_state)
  : result run_state :=
  let append_mode := bool_decide (is_Some (store st)) in
  match all_files with
  | [] => Ok st
  | _ =>
      let files_to_process :=
        select_files input_dir start_date end_date all_files in
      match files_to_process with
      | [] => Ok st
      | _ =>
          if (batch_days =? 0)%Z
          then Raise (ValueError "range() arg 3 must not be zero")
          else
            let st1 :=
              foldl (process_batch files_to_process (Z.to_nat batch_days)
                       append_mode)
                {| disk := disk st; store := store st; events := events st;
                   data_written := false |}
                (Py.range_step (length files_to_process) batch_days) in
            if data_written st1
            then Ok {| disk := disk st1; store := store st1;
                       events := events st1 ++ [Consolidate];
                       data_written := true |}
            else Ok st1
      end
  end.

End Converter.

Definition writes (evs : list zevent) : nat :=
  length (List.filter (fun e => match e with ToZarr _ _ _ => true | _ => false end) evs).

Definition consolidations (evs : list zevent) : nat :=
  length (List.filter (fun e => match e with Consolidate => true | _ => false end) evs).

End Zarr.

(** * Properties *)

(** ** The retry loop of the daily downloaders *)

Section RetryLoop.
Import Daily.
Variable net : string -> nat -> response.
Variables (url output_path : string) (max_retries : nat).

(** The message with which the response [r] to attempt [i] ends the loop
    as a failure, if it does. *)
Definition failure_at (i : nat) (r : response) : option string :=
  match r with
  | Body _ => None
  | HTTPError code =>
      if (code =? 404)%Z then Some "File not found (404)"
      else if (i =? max_retries - 1)%nat
           then Some ("HTTP Error " +:+ Py.str_Z code) else None
  | OtherError msg => if (i =? max_retries - 1)%nat then Some msg else None
  end.

(** The response [r] to attempt [i] is followed by a sleep and a retry. *)
Definition retried_at (i : nat) (r : response) : Prop :=
  failure_at i r = None /\ forall size, r <> Body size.

(** [k] rounds of request and back-off, starting at attempt [a]. *)
Definition backoff (a k : nat) : list event :=
  flat_map (fun i => [Request url; Sleep (2 ^ Z.of_nat i)]) (seq a k).

Lemma backoff_S a k :
  backoff a (S k) = Request url :: Sleep (2 ^ Z.of_nat a) :: backoff (S a) k.
Proof. reflexivity. Qed.

Lemma attempts_already todo w :
  already_downloaded (fs w) output_path = true -> todo <> [] ->
  attempts net url output_path max_retries todo w
  = ((true, "Already downloaded"), w).
Proof.
  intros Hv Hne. destruct todo as [|i rest]; [congruence|].
  simpl. now rewrite Hv.
Qed.

(** What the loop does on a file that is not there yet: some rounds of
    back-off, then one of three endings. *)
Inductive ending (a n k : nat) (w : world) (r : (bool * string) * world) : Prop :=
| Exhausted :
    k = n ->
    fst r = (false, "Max retries exceeded") ->
    fs (snd r) = fs w ->
    trace (snd r) = trace w ++ backoff a k ->
    ending a n k w r
| Failed msg :
    k < n -> failure_at (a + k) (net url (a + k)) = Some msg ->
    fst r = (false, msg) ->
    fs (snd r) = fs w ->
    trace (snd r) = trace w ++ backoff a k ++ [Request url] ->
    ending a n k w r
| Fetched size :
    k < n -> net url (a + k) = Body size ->
    fst r = (true, "Success") ->
    fs (snd r) = <[output_path := size]> (fs w) ->
    trace (snd r)
    = trace w ++ backoff a k ++ [Request url; WriteFile output_path size] ->
    ending a n k w r.

Lemma ending_retry a n k w w1 r :
  fs w1 = fs w ->
  trace w1 = trace w ++ [Request url; Sleep (2 ^ Z.of_nat a)] ->
  ending (S a) n k w1 r -> ending a (S n) (S k) w r.
Proof.
  intros Hfs Htr He.
  assert (Happ : forall tl, trace w1 ++ backoff (S a) k ++ tl
                            = trace w ++ backoff a (S k) ++ tl).
  { intros tl. rewrite Htr, backoff_S, <- app_assoc. reflexivity. }
  destruct He as [Hk Hr Hf Ht|msg Hk Hm Hr Hf Ht|size Hk Hb Hr Hf Ht].
  - apply Exhausted; [lia|exact Hr|congruence|].
    rewrite Ht. specialize (Happ []). now rewrite !app_nil_r in Happ.
  - apply (Failed _ _ _ _ _ msg); [lia| |exact Hr|congruence|].
    + now replace (a + S k) with (S a + k) by lia.
    + rewrite Ht. apply Happ.
  - apply (Fetched _ _ _ _ _ size); [lia| |exact Hr| |].
    + now replace (a + S k) with (S a + k) by lia.
    + now rewrite Hf, Hfs.
    + rewrite Ht. apply Happ.
Qed.

Lemma attempts_ending n : forall a w,
  already_downloaded (fs w) output_path = false ->
  exists k,
    (forall i, a <= i < a + k -> retried_at i (net url i)) /\
    ending a n k w (attempts net url output_path max_retries (seq a n) w).
Proof.
  induction n as [|n IH]; intros a w Hnv.
  - exists 0. split; [intros i Hi; lia|].
    apply Exhausted; simpl; auto. now rewrite app_nil_r.
  - assert (Hret : failure_at a (net url a) = None ->
              (forall size, net url a <> Body size) ->
              exists k,
                (forall i, a <= i < a + k -> retried_at i (net url i)) /\
                ending a (S n) k w
                  (attempts net url output_path max_retries (seq (S a) n)
                     (emit (Sleep (2 ^ Z.of_nat a)) (emit (Request url) w)))).
    { intros Hf Hb.
      destruct (IH (S a) (emit (Sleep (2 ^ Z.of_nat a)) (emit (Request url) w)))
        as (k & Hk & He); [exact Hnv|].
      exists (S k). split.
      - intros i Hi. destruct (decide (i = a)) as [->|]; [now split|].
        apply Hk. lia.
      - eapply ending_retry; [| |exact He]; simpl; [reflexivity|].
        now rewrite <- app_assoc. }
    simpl. rewrite Hnv.
    destruct (net url a) as [size|code|msg] eqn:Hnet.
    + exists 0. split; [intros i Hi; lia|].
      apply (Fetched _ _ _ _ _ size); simpl; auto; try lia.
      * now rewrite Nat.add_0_r.
      * now rewrite <- app_assoc.
    + destruct (code =? 404)%Z eqn:H404.
      * exists 0. split; [intros i Hi; lia|].
        eapply Failed; simpl; eauto; try lia.
        rewrite Nat.add_0_r, Hnet. simpl. now rewrite H404.
      * destruct (a =? max_retries - 1)%nat eqn:Hlast.
        -- exists 0. split; [intros i Hi; lia|].
           eapply Failed; simpl; eauto; try lia.
           rewrite Nat.add_0_r, Hnet. simpl. now rewrite H404, Hlast.
        -- apply Hret; simpl; [now rewrite H404, Hlast|congruence].
    + destruct (a =? max_retries - 1)%nat eqn:Hlast.
      * exists 0. split; [intros i Hi; lia|].
        eapply Failed; simpl; eauto; try lia.
        rewrite Nat.add_0_r, Hnet. simpl. now rewrite Hlast.
      * apply Hret; simpl; [now rewrite Hlast|congruence].
Qed.

End RetryLoop.

(** ** One URL, three attempts *)

Section DownloadFile.
Import Daily.

(** A transient error: any exception other than an HTTP 404. *)
Definition transient (r : response) : Prop :=
  match r with
  | Body _ => False
  | HTTPError code => code <> 404%Z
  | OtherError _ => True
  end.

Lemma retried_transient mr i r : retried_at mr i r -> transient r.
Proof.
  intros [Hf Hb]. destruct r as [size|code|msg]; simpl in *; auto.
  - now apply (Hb size).
  - destruct (code =? 404)%Z eqn:E; [discriminate|]. now apply Z.eqb_neq.
Qed.

Lemma transient_retried mr i r :
  transient r -> i <> mr - 1 -> retried_at mr i r.
Proof.
  intros Ht Hi. apply Nat.eqb_neq in Hi.
  destruct r as [size|code|msg]; simpl in *; [easy| |].
  - apply Z.eqb_neq in Ht. split; [|congruence].
    simpl. now rewrite Ht, Hi.
  - split; [|congruence]. simpl. now rewrite Hi.
Qed.

Lemma last_not_retried mr r : ~ retried_at mr (mr - 1) r.
Proof.
  intros [Hf Hb]. destruct r as [size|code|msg]; simpl in *.
  - now apply (Hb size).
  - rewrite Nat.eqb_refl in Hf. now destruct (code =? 404)%Z.
  - now rewrite Nat.eqb_refl in Hf.
Qed.

Lemma requests_app l1 l2 : requests (l1 ++ l2) = requests l1 + requests l2.
Proof. unfold requests. now rewrite List.filter_app, length_app. Qed.

Lemma sleeps_app l1 l2 : sleeps (l1 ++ l2) = sleeps l1 ++ sleeps l2.
Proof. unfold sleeps. apply omap_app. Qed.

Lemma requests_backoff url k : forall a, requests (backoff url a k) = k.
Proof.
  induction k as [|k IH]; intros a; [reflexivity|].
  rewrite backoff_S. unfold requests in *. simpl. now rewrite IH.
Qed.

Lemma sleeps_backoff url k : forall a,
  sleeps (backoff url a k) = map (fun i => (2 ^ Z.of_nat i)%Z) (seq a k).
Proof.
  induction k as [|k IH]; intros a; [reflexivity|].
  rewrite backoff_S. unfold sleeps in *. simpl. now rewrite IH.
Qed.

(** With at least one attempt allowed, the loop never falls through: it
    ends on a failure or on a fetched file, after [k] retries. *)
Lemma download_file_ending net url output_path mr w :
  0 < mr ->
  already_downloaded (fs w) output_path = false ->
  exists k,
    k < mr /\
    (forall i, i < k -> retried_at mr i (net url i)) /\
    ending net url output_path mr 0 mr k w
      (download_file net url output_path mr w).
Proof.
  intros Hmr Hnv.
  destruct (attempts_ending net url output_path mr mr 0 w Hnv) as (k & Hk & He).
  assert (Hlt : k < mr).
  { destruct (decide (k < mr)) as [|Hge]; [assumption|exfalso].
    apply (last_not_retried mr (net url (mr - 1))). apply Hk.
    destruct He; lia. }
  exists k. split; [exact Hlt|]. split; [|exact He].
  intros i Hi. apply Hk. lia.
Qed.

End DownloadFile.

Section RetryPolicy.
Import Daily.

(** C4.  A single-URL fetch of a file that is not there yet makes at most
    three requests; the pauses between them are 1 then 2 seconds (each the
    double of the one before); every attempt before the last one made met
    a transient error; two transient errors followed by a body end in
    [(True, "Success")]; and a 404 answered to an attempt that was made is
    the last request to that URL. *)
Theorem retry_policy net url output_path w res w' :
  already_downloaded (fs w) output_path = false ->
  download_file net url output_path 3 w = (res, w') ->
  exists new k,
    trace w' = trace w ++ new /\
    requests new = S k /\ k <= 2 /\
    sleeps new = map (fun i => (2 ^ Z.of_nat i)%Z) (seq 0 k) /\
    (forall i, i < k -> transient (net url i)) /\
    (transient (net url 0) -> transient (net url 1) ->
     forall size, net url 2 = Body size ->
       res = (true, "Success") /\
       new = [Request url; Sleep 1; Request url; Sleep 2; Request url;
              WriteFile output_path size]) /\
    (forall i, i <= k -> net url i = HTTPError 404 ->
       i = k /\ res = (false, "File not found (404)")).
Proof.
  intros Hnv Hrun.
  destruct (download_file_ending net url output_path 3 w) as (k & Hk & Hret & He);
    [lia|exact Hnv|].
  rewrite Hrun in He. simpl in He.
  assert (Htr : forall i, i < k -> transient (net url i)).
  { intros i Hi. eapply retried_transient. now apply Hret. }
  assert (H404 : forall i, i < k -> net url i <> HTTPError 404).
  { intros i Hi Heq. specialize (Htr i Hi). rewrite Heq in Htr. now apply Htr. }
  destruct He as [Hkn _ _ _|msg _ Hmsg Hres _ Htrace|size _ Hbody Hres _ Htrace];
    [lia| |].
  - (* the last request failed *)
    exists (backoff url 0 k ++ [Request url]), k.
    split; [exact Htrace|]. split.
    { rewrite requests_app, requests_backoff. unfold requests. simpl. lia. }
    split; [lia|]. split.
    { rewrite sleeps_app, sleeps_backoff. unfold sleeps. simpl. now rewrite app_nil_r. }
    split; [exact Htr|]. split.
    + intros H0 H1 size H2.
      assert (k = 2) as ->.
      { destruct k as [|[|[|k]]]; try lia; exfalso; simpl in Hmsg.
        - destruct (net url 0) as [?|code|?]; simpl in *; try easy.
          apply Z.eqb_neq in H0. now rewrite H0 in Hmsg.
        - destruct (net url 1) as [?|code|?]; simpl in *; try easy.
          apply Z.eqb_neq in H1. now rewrite H1 in Hmsg. }
      simpl in Hmsg. rewrite H2 in Hmsg. discriminate.
    + intros i Hi Heq.
      assert (i = k) as -> by (destruct (decide (i = k)); [assumption|];
                               exfalso; apply (H404 i); [lia|exact Heq]).
      split; [reflexivity|]. simpl in Hmsg. rewrite Heq in Hmsg. simpl in Hmsg.
      destruct res as [ok m]. simpl in Hres. congruence.
  - (* the last request brought the file *)
    exists (backoff url 0 k ++ [Request url; WriteFile output_path size]), k.
    split; [exact Htrace|]. split.
    { rewrite requests_app, requests_backoff. unfold requests. simpl. lia. }
    split; [lia|]. split.
    { rewrite sleeps_app, sleeps_backoff. unfold sleeps. simpl. now rewrite app_nil_r. }
    split; [exact Htr|]. split.
    + intros H0 H1 size' H2.
      assert (k = 2) as ->.
      { destruct k as [|[|[|k]]]; try lia; exfalso; simpl in Hbody.
        - now rewrite Hbody in H0.
        - now rewrite Hbody in H1. }
      simpl in Hbody. rewrite H2 in Hbody. injection Hbody as <-.
      destruct res as [ok m]. simpl in Hres. split; [congruence|reflexivity].
    + intros i Hi Heq.
      assert (i = k) as -> by (destruct (decide (i = k)); [assumption|];
                               exfalso; apply (H404 i); [lia|exact Heq]).
      simpl in Hbody. congruence.
Qed.

(** A server that answers 503 twice and then sends 2048 bytes. *)
Definition flaky_net (url : string) (attempt : nat) : response :=
  if (attempt <? 2)%nat then HTTPError 503 else Body 2048.

Definition empty_world : world := World ∅ [].

Lemma retry_policy_witness :
  already_downloaded (fs empty_world) "out/tmin/f.zip" = false /\
  download_file flaky_net "u" "out/tmin/f.zip" 3 empty_world
  = ((true, "Success"),
     World {["out/tmin/f.zip" := 2048%Z]}
       [Request "u"; Sleep 1; Request "u"; Sleep 2; Request "u";
        WriteFile "out/tmin/f.zip" 2048]) /\
  exists new k,
    trace (World {["out/tmin/f.zip" := 2048%Z]}
       [Request "u"; Sleep 1; Request "u"; Sleep 2; Request "u";
        WriteFile "out/tmin/f.zip" 2048]) = trace empty_world ++ new /\
    requests new = S k /\ k <= 2 /\
    sleeps new = map (fun i => (2 ^ Z.of_nat i)%Z) (seq 0 k) /\
    (forall i, i < k -> transient (flaky_net "u" i)) /\
    (transient (flaky_net "u" 0) -> transient (flaky_net "u" 1) ->
     forall size, flaky_net "u" 2 = Body size ->
       (true, "Success") = (true, "Success") /\
       new = [Request "u"; Sleep 1; Request "u"; Sleep 2; Request "u";
              WriteFile "out/tmin/f.zip" size]) /\
    (forall i, i <= k -> flaky_net "u" i = HTTPError 404 ->
       i = k /\ (true, "Success") = (false, "File not found (404)")).
Proof.
  split; [reflexivity|]. split; [reflexivity|].
  apply (retry_policy flaky_net "u" "out/tmin/f.zip" empty_world);
    reflexivity.
Defined.

End RetryPolicy.

(** ** One task: primary URL, then the archive URL after a 404 *)

Section Task.
Import Daily.
Variable net : string -> nat -> response.
Variable output_dir : string.

Definition result_of (d : date) (variable : string) (res : bool * string)
  : fetch_result :=
  FetchResult (date_str d) variable (fst res) (snd res)
    (if fst res then Some (output_path_of output_dir d variable) else None).

(** Every way [download_date_variable] can go, with the requests it makes. *)
Inductive task_outcome (d : date) (v : string) (w : world)
  : fetch_result * world -> Prop :=
| Skipped :
    already_downloaded (fs w) (output_path_of output_dir d v) = true ->
    task_outcome d v w (result_of d v (true, "Already downloaded"), w)
| PrimaryFetched k size :
    already_downloaded (fs w) (output_path_of output_dir d v) = false ->
    k < 3 -> net (build_url v d false) k = Body size ->
    task_outcome d v w
      (result_of d v (true, "Success"),
       World (<[output_path_of output_dir d v := size]> (fs w))
         (trace w ++ backoff (build_url v d false) 0 k
            ++ [Request (build_url v d false);
                WriteFile (output_path_of output_dir d v) size]))
| PrimaryFailed k msg :
    already_downloaded (fs w) (output_path_of output_dir d v) = false ->
    k < 3 -> failure_at 3 k (net (build_url v d false) k) = Some msg ->
    Py.str_in "404" msg = false ->
    task_outcome d v w
      (result_of d v (false, msg),
       World (fs w)
         (trace w ++ backoff (build_url v d false) 0 k
            ++ [Request (build_url v d false)]))
| FallbackFetched k msg k' size :
    already_downloaded (fs w) (output_path_of output_dir d v) = false ->
    k < 3 -> failure_at 3 k (net (build_url v d false) k) = Some msg ->
    Py.str_in "404" msg = true ->
    k' < 3 -> net (build_url v d true) k' = Body size ->
    task_outcome d v w
      (result_of d v (true, "Success"),
       World (<[output_path_of output_dir d v := size]> (fs w))
         (trace w ++ backoff (build_url v d false) 0 k
            ++ [Request (build_url v d false)]
            ++ backoff (build_url v d true) 0 k'
            ++ [Request (build_url v d true);
                WriteFile (output_path_of output_dir d v) size]))
| FallbackFailed k msg k' msg' :
    already_downloaded (fs w) (output_path_of output_dir d v) = false ->
    k < 3 -> failure_at 3 k (net (build_url v d false) k) = Some msg ->
    Py.str_in "404" msg = true ->
    k' < 3 -> failure_at 3 k' (net (build_url v d true) k') = Some msg' ->
    task_outcome d v w
      (result_of d v (false, msg'),
       World (fs w)
         (trace w ++ backoff (build_url v d false) 0 k
            ++ [Request (build_url v d false)]
            ++ backoff (build_url v d true) 0 k'
            ++ [Request (build_url v d true)])).

Lemma world_eta (w : world) f t : fs w = f -> trace w = t -> w = World f t.
Proof. destruct w. simpl. now intros -> ->. Qed.

Lemma download_date_variable_outcome d v w :
  task_outcome d v w (download_date_variable net output_dir d v w).
Proof.
  unfold download_date_variable.
  destruct (already_downloaded (fs w) (output_path_of output_dir d v)) eqn:Hnv.
  - unfold download_file at 1.
    rewrite attempts_already by (simpl; congruence). cbn [negb andb fst snd].
    now apply Skipped.
  - destruct (download_file_ending net (build_url v d false)
                (output_path_of output_dir d v) 3 w) as (k & Hk & _ & He);
      [lia|exact Hnv|].
    destruct (download_file net (build_url v d false) _ 3 w) as [[ok1 m1] w1].
    destruct He as [Hkn _ _ _|msg _ Hmsg Hres Hfs Htr|size _ Hb Hres Hfs Htr];
      [lia| |]; simpl in Hres, Hfs, Htr; injection Hres as -> ->.
    + cbn [negb andb fst snd]. destruct (Py.str_in "404" msg) eqn:H404.
      * assert (Hnv1 : already_downloaded (fs w1) (output_path_of output_dir d v) = false)
          by now rewrite Hfs.
        destruct (download_file_ending net (build_url v d true)
                    (output_path_of output_dir d v) 3 w1) as (k' & Hk' & _ & He');
          [lia|exact Hnv1|].
        destruct (download_file net (build_url v d true) _ 3 w1) as [[ok2 m2] w2].
        destruct He' as [Hkn _ _ _|msg' _ Hmsg' Hres' Hfs' Htr'
                        |size _ Hb' Hres' Hfs' Htr'];
          [lia| |]; simpl in Hres', Hfs', Htr'; injection Hres' as -> ->.
        -- cbn [negb andb fst snd]. rewrite (world_eta w2 _ _ (eq_trans Hfs' Hfs)
                      (eq_trans Htr' (f_equal (fun t => t ++ _) Htr))).
           rewrite <- !app_assoc.
           now apply (FallbackFailed d v w k msg k' msg').
        -- cbn [negb andb fst snd]. rewrite (world_eta w2 _ _ (eq_trans Hfs' (f_equal _ Hfs))
                      (eq_trans Htr' (f_equal (fun t => t ++ _) Htr))).
           rewrite <- !app_assoc.
           now apply (FallbackFetched d v w k msg k' size).
      * cbn [negb andb fst snd]. rewrite (world_eta w1 _ _ Hfs Htr).
        now apply (PrimaryFailed d v w k msg).
    + cbn [negb andb fst snd]. rewrite (world_eta w1 _ _ Hfs Htr).
      now apply (PrimaryFetched d v w k size).
Qed.

End Task.

Section TaskFacts.
Import Daily.
Variable net : string -> nat -> response.
Variable output_dir : string.

Lemma urls_differ v d : build_url v d false <> build_url v d true.
Proof.
  intros H. apply (f_equal (String.get 0)) in H.
  unfold build_url, base_url, ftp_base in H. cbn in H. discriminate.
Qed.

Lemma requests_to_app url l1 l2 :
  requests_to url (l1 ++ l2) = requests_to url l1 + requests_to url l2.
Proof. unfold requests_to. now rewrite List.filter_app, length_app. Qed.

Lemma requests_to_backoff_other url other k : forall a,
  other <> url -> requests_to url (backoff other a k) = 0.
Proof.
  induction k as [|k IH]; intros a Hne; [reflexivity|].
  rewrite backoff_S. unfold requests_to in *. simpl.
  rewrite (proj2 (String.eqb_neq other url) Hne). simpl. now apply IH.
Qed.

Lemma requests_to_single_other url other :
  other <> url -> requests_to url [Request other] = 0.
Proof.
  intros Hne. unfold requests_to. simpl.
  now rewrite (proj2 (String.eqb_neq other url) Hne).
Qed.

Lemma requests_to_primary_only v d k tr :
  requests_to (build_url v d true)
    (tr ++ backoff (build_url v d false) 0 k ++ [Request (build_url v d false)])
  = requests_to (build_url v d true) tr.
Proof.
  rewrite !requests_to_app, requests_to_backoff_other by apply urls_differ.
  rewrite requests_to_single_other by apply urls_differ. lia.
Qed.

Lemma download_already d v w :
  already_downloaded (fs w) (output_path_of output_dir d v) = true ->
  download_date_variable net output_dir d v w
  = (result_of output_dir d v (true, "Already downloaded"), w).
Proof.
  intros Hv. unfold download_date_variable, download_file.
  rewrite attempts_already by (simpl; congruence). reflexivity.
Qed.

(** A failure message without "404" in it can only come from the third
    attempt. *)
Lemma failure_without_404 k r msg :
  failure_at 3 k r = Some msg -> Py.str_in "404" msg = false -> k = 2.
Proof.
  intros Hf Hm. destruct r as [size|code|m]; simpl in Hf; [discriminate| |].
  - destruct (code =? 404)%Z.
    + injection Hf as <-. discriminate.
    + destruct (k =? 2)%nat eqn:E; [now apply Nat.eqb_eq|discriminate].
  - destruct (k =? 2)%nat eqn:E; [now apply Nat.eqb_eq|discriminate].
Qed.

(** C2 (amended).  A task is reported failed in one of two ways.  Either
    the primary URL failed on its third attempt with a message that does
    not mention 404, and then the archive URL is not requested at all; or
    the primary URL failed with a message that mentions 404 (a 404 answer,
    on whichever attempt, or a third-attempt error whose text contains
    "404") and the archive URL was tried next and failed as well, by a 404
    of its own or on its third attempt. *)
Theorem task_failure_paths d v w r w' :
  download_date_variable net output_dir d v w = (r, w') ->
  success r = false ->
  (exists msg,
     failure_at 3 2 (net (build_url v d false) 2) = Some msg /\
     Py.str_in "404" msg = false /\ message r = msg /\
     trace w' = trace w ++ backoff (build_url v d false) 0 2
                  ++ [Request (build_url v d false)] /\
     requests_to (build_url v d true) (trace w')
     = requests_to (build_url v d true) (trace w))
  \/
  (exists k msg k' msg',
     k < 3 /\ k' < 3 /\
     failure_at 3 k (net (build_url v d false) k) = Some msg /\
     Py.str_in "404" msg = true /\
     failure_at 3 k' (net (build_url v d true) k') = Some msg' /\
     message r = msg' /\
     trace w' = trace w ++ backoff (build_url v d false) 0 k
                  ++ [Request (build_url v d false)]
                  ++ backoff (build_url v d true) 0 k'
                  ++ [Request (build_url v d true)]).
Proof.
  intros Hrun Hfail.
  pose proof (download_date_variable_outcome net output_dir d v w) as Hout.
  rewrite Hrun in Hout.
  inversion Hout as [Hv|k size Hnv Hk Hb|k msg Hnv Hk Hmsg H404
                    |k msg k' size Hnv Hk Hmsg H404 Hk' Hb
                    |k msg k' msg' Hnv Hk Hmsg H404 Hk' Hmsg'];
    subst r w'; simpl in Hfail; try discriminate.
  - left. exists msg.
    assert (k = 2) as -> by (eapply failure_without_404; eassumption).
    split; [exact Hmsg|]. split; [exact H404|].
    split; [reflexivity|]. split; [reflexivity|].
    apply requests_to_primary_only.
  - right. exists k, msg, k', msg'. repeat split; assumption.
Qed.

(** C10.  The [path] of a result is set exactly when [success] is true --
    and is then the destination path; a failed result has no path and
    carries as its message the reason the last URL tried gave up. *)
Theorem result_path_iff_success d v w :
  (is_Some (path (fst (download_date_variable net output_dir d v w)))
   <-> success (fst (download_date_variable net output_dir d v w)) = true) /\
  (success (fst (download_date_variable net output_dir d v w)) = true ->
   path (fst (download_date_variable net output_dir d v w))
   = Some (output_path_of output_dir d v)) /\
  (success (fst (download_date_variable net output_dir d v w)) = false ->
   path (fst (download_date_variable net output_dir d v w)) = None /\
   exists use_ftp k,
     k < 3 /\
     failure_at 3 k (net (build_url v d use_ftp) k)
     = Some (message (fst (download_date_variable net output_dir d v w)))).
Proof.
  pose proof (download_date_variable_outcome net output_dir d v w) as Hout.
  destruct (download_date_variable net output_dir d v w) as [r w'].
  inversion Hout as [Hv|k size Hnv Hk Hb|k msg Hnv Hk Hmsg H404
                    |k msg k' size Hnv Hk Hmsg H404 Hk' Hb
                    |k msg k' msg' Hnv Hk Hmsg H404 Hk' Hmsg'];
    subst r w'; simpl; (split; [split|split]);
    try discriminate; try reflexivity; try (intros [x Hx]; discriminate);
    try (intros _; now eexists); intros _; (split; [reflexivity|]).
  - exists false, k. now split.
  - exists true, k'. now split.
Qed.

End TaskFacts.

Section TaskExamples.
Import Daily.

(** A remote end that answers every request with HTTP 500. *)
Definition net_500 (url : string) (attempt : nat) : response := HTTPError 500.

Definition jan1 : date := Date 2001 1 1.

(** C2, as first stated, fails: after three HTTP 500 answers from the
    primary URL the task is reported failed and the archive URL has not
    been requested once. *)
Lemma fallback_not_attempted :
  (forall k, transient (net_500 (build_url "tmin" jan1 false) k)) /\
  success (fst (download_date_variable net_500 "out" jan1 "tmin" empty_world))
  = false /\
  message (fst (download_date_variable net_500 "out" jan1 "tmin" empty_world))
  = "HTTP Error 500" /\
  trace (snd (download_date_variable net_500 "out" jan1 "tmin" empty_world))
  = [Request "https://services.nacse.org/prism/data/public/4km/tmin/20010101";
     Sleep 1;
     Request "https://services.nacse.org/prism/data/public/4km/tmin/20010101";
     Sleep 2;
     Request "https://services.nacse.org/prism/data/public/4km/tmin/20010101"] /\
  build_url "tmin" jan1 true
  = "ftp://prism.oregonstate.edu/daily/tmin/2001/PRISM_tmin_stable_4kmD2_20010101_bil.zip" /\
  requests_to (build_url "tmin" jan1 true)
    (trace (snd (download_date_variable net_500 "out" jan1 "tmin" empty_world)))
  = 0.
Proof.
  split; [intros k; simpl; lia|].
  repeat split; vm_compute; reflexivity.
Qed.

(** A remote end without the file: 404 on both URLs. *)
Definition net_404 (url : string) (attempt : nat) : response := HTTPError 404.

Lemma task_failure_paths_witness :
  download_date_variable net_404 "out" jan1 "tmin" empty_world
  = (FetchResult "20010101" "tmin" false "File not found (404)" None,
     World ∅ [Request (build_url "tmin" jan1 false);
              Request (build_url "tmin" jan1 true)]) /\
  success (FetchResult "20010101" "tmin" false "File not found (404)" None)
  = false /\
  ((exists msg,
     failure_at 3 2 (net_404 (build_url "tmin" jan1 false) 2) = Some msg /\
     Py.str_in "404" msg = false /\
     message (FetchResult "20010101" "tmin" false "File not found (404)" None)
     = msg /\
     trace (World ∅ [Request (build_url "tmin" jan1 false);
                     Request (build_url "tmin" jan1 true)])
     = trace empty_world ++ backoff (build_url "tmin" jan1 false) 0 2
         ++ [Request (build_url "tmin" jan1 false)] /\
     requests_to (build_url "tmin" jan1 true)
       (trace (World ∅ [Request (build_url "tmin" jan1 false);
                        Request (build_url "tmin" jan1 true)]))
     = requests_to (build_url "tmin" jan1 true) (trace empty_world))
  \/
  (exists k msg k' msg',
     k < 3 /\ k' < 3 /\
     failure_at 3 k (net_404 (build_url "tmin" jan1 false) k) = Some msg /\
     Py.str_in "404" msg = true /\
     failure_at 3 k' (net_404 (build_url "tmin" jan1 true) k') = Some msg' /\
     message (FetchResult "20010101" "tmin" false "File not found (404)" None)
     = msg' /\
     trace (World ∅ [Request (build_url "tmin" jan1 false);
                     Request (build_url "tmin" jan1 true)])
     = trace empty_world ++ backoff (build_url "tmin" jan1 false) 0 k
         ++ [Request (build_url "tmin" jan1 false)]
         ++ backoff (build_url "tmin" jan1 true) 0 k'
         ++ [Request (build_url "tmin" jan1 true)])).
Proof.
  split; [vm_compute; reflexivity|]. split; [reflexivity|].
  apply (task_failure_paths net_404 "out" jan1 "tmin" empty_world);
    [vm_compute; reflexivity|reflexivity].
Defined.

End TaskExamples.

(** ** Skipping what is already there *)

Section Resume.
Import Daily.

Lemma already_downloaded_spec files p :
  already_downloaded files p = true
  <-> exists size, files !! p = Some size /\ (1000 < size)%Z.
Proof.
  unfold already_downloaded. split.
  - destruct (files !! p) as [size|]; [|discriminate].
    intros H. exists size. split; [reflexivity|]. now apply Z.ltb_lt.
  - intros (size & -> & H). now apply Z.ltb_lt.
Qed.

Lemma skipped_iff_already net output_dir d v w :
  is_skipped (fst (download_date_variable net output_dir d v w)) = true
  <-> already_downloaded (fs w) (output_path_of output_dir d v) = true.
Proof.
  pose proof (download_date_variable_outcome net output_dir d v w) as Hout.
  destruct (download_date_variable net output_dir d v w) as [r w'].
  inversion Hout; subst r w'; unfold is_skipped; simpl; split; intros Hs;
    try assumption; try reflexivity; try discriminate; congruence.
Qed.

Lemma run_tasks_already net output_dir tasks w :
  Forall (fun t => already_downloaded (fs w)
                     (output_path_of output_dir (fst t) (snd t)) = true) tasks ->
  run_tasks net output_dir tasks w
  = (map (fun t => result_of output_dir (fst t) (snd t)
                     (true, "Already downloaded")) tasks, w).
Proof.
  induction 1 as [|[d v] rest Hv _ IH]; [reflexivity|].
  simpl in *. rewrite (download_already net output_dir d v w Hv), IH.
  reflexivity.
Qed.

End Resume.

Section BulkResume.
Import Bulk.
Variable net : string -> nat -> response.
Variables (output_dir temporal : string).

Lemma bulk_first_request url output_path retries w :
  0 < retries ->
  exists tl,
    trace (snd (download_file net url output_path retries w))
    = trace w ++ Request url :: tl.
Proof.
  intros Hr. unfold download_file.
  destruct retries as [|n]; [lia|]. simpl.
  assert (Hgrow : forall todo w0, exists tl,
            trace (snd (attempts net url output_path (S n) todo w0))
            = trace w0 ++ tl).
  { induction todo as [|i rest IH]; intros w0; simpl.
    - exists []. now rewrite app_nil_r.
    - destruct (net url i); simpl.
      + eexists. now rewrite <- app_assoc.
      + destruct (i <? n - 0)%nat; simpl; [|now eexists].
        destruct (IH (emit (Sleep (2 ^ Z.of_nat i)) (emit (Request url) w0)))
          as [tl Htl].
        rewrite Htl. simpl. eexists. now rewrite <- !app_assoc.
      + now eexists. }
  destruct (net url 0); simpl.
  - eexists. now rewrite <- app_assoc.
  - destruct (0 <? n - 0)%nat; simpl; [|now eexists].
    destruct (Hgrow (seq 1 n) (emit (Sleep (2 ^ Z.of_nat 0)) (emit (Request url) w)))
      as [tl Htl].
    rewrite Htl. simpl. eexists. rewrite <- !app_assoc. reflexivity.
  - now eexists.
Qed.

(** In [download_batch] a task is passed over exactly when its destination
    exists, whatever its size. *)
Lemma bulk_skip_iff_exists url filename tok variable toks w :
  Py.split "_" filename = tok :: variable :: toks ->
  (forall size,
     fs w !! output_path_of output_dir temporal variable filename = Some size ->
     download_batch net output_dir temporal [(url, filename)] w
     = Some (([filename], []), w)) /\
  (fs w !! output_path_of output_dir temporal variable filename = None ->
   exists res w' tl,
     download_batch net output_dir temporal [(url, filename)] w = Some (res, w')
     /\ trace w' = trace w ++ Request url :: tl).
Proof.
  intros Hsplit. unfold download_batch. simpl. rewrite Hsplit. simpl. split.
  - intros size Hsome. rewrite Hsome. reflexivity.
  - intros Hnone. rewrite Hnone. simpl.
    destruct (bulk_first_request url
                (output_path_of output_dir temporal variable filename) 3 w)
      as [tl Htl]; [lia|].
    destruct (download_file net url _ 3 w) as [ok w1]. simpl in Htl.
    destruct ok; simpl.
    + destruct (String.eqb _ ".zip"); simpl.
      * do 3 eexists. split; [reflexivity|]. simpl. rewrite Htl.
        now rewrite <- app_assoc.
      * do 3 eexists. split; [reflexivity|]. exact Htl.
    + do 3 eexists. split; [reflexivity|]. exact Htl.
Qed.

End BulkResume.

Section SkipIfPresent.

(** C3 (amended).  In the daily downloaders a task is classified as
    already fetched exactly when its destination exists with more than
    1000 bytes, and then nothing is requested or written; so a run over a
    tree in which every destination is such a file leaves the world as it
    was and reports every task as skipped.  In the bulk downloader's
    [download_batch] a task is passed over exactly when its destination
    exists, whatever its size; otherwise a request is made. *)
Theorem skip_if_present :
  (forall net output_dir d v w,
     (Daily.is_skipped (fst (Daily.download_date_variable net output_dir d v w))
      = true
      <-> exists size,
            Daily.fs w !! Daily.output_path_of output_dir d v = Some size
            /\ (1000 < size)%Z) /\
     (Daily.is_skipped (fst (Daily.download_date_variable net output_dir d v w))
      = true ->
      snd (Daily.download_date_variable net output_dir d v w) = w)) /\
  (forall net output_dir dates variables w,
     Forall (fun t => exists size,
               Daily.fs w !! Daily.output_path_of output_dir (fst t) (snd t)
               = Some size /\ (1000 < size)%Z)
       (Daily.tasks_of dates variables) ->
     snd (Daily.download_range net output_dir dates variables w) = w /\
     Forall (fun r => Daily.is_skipped r = true)
       (fst (Daily.download_range net output_dir dates variables w))) /\
  (forall net output_dir temporal url filename tok variable toks w,
     Py.split "_" filename = tok :: variable :: toks ->
     (forall size,
        Bulk.fs w !! Bulk.output_path_of output_dir temporal variable filename
        = Some size ->
        Bulk.download_batch net output_dir temporal [(url, filename)] w
        = Some (([filename], []), w)) /\
     (Bulk.fs w !! Bulk.output_path_of output_dir temporal variable filename
      = None ->
      exists res w' tl,
        Bulk.download_batch net output_dir temporal [(url, filename)] w
        = Some (res, w')
        /\ Bulk.trace w' = Bulk.trace w ++ Bulk.Request url :: tl)).
Proof.
  split; [|split].
  - intros net output_dir d v w. split.
    + rewrite skipped_iff_already. apply already_downloaded_spec.
    + rewrite skipped_iff_already. intros Hv.
      now rewrite (download_already net output_dir d v w Hv).
  - intros net output_dir dates variables w Hall.
    unfold Daily.download_range. rewrite run_tasks_already.
    + split; [reflexivity|]. simpl. apply Forall_map.
      apply Forall_forall. intros t _. reflexivity.
    + eapply Forall_impl; [exact Hall|].
      intros t Ht. now apply already_downloaded_spec.
  - intros net output_dir temporal url filename tok variable toks w Hsplit.
    now apply (bulk_skip_iff_exists net output_dir temporal url filename
                 tok variable toks w).
Qed.

(** A remote end the bulk downloader cannot reach. *)
Definition bulk_offline (url : string) (attempt : nat) : Bulk.response :=
  Bulk.URLError.

Definition truncated_tree : Bulk.world :=
  Bulk.World {["out/tmin/daily/PRISM_tmin_4km_daily_20010101.zip" := 0%Z]} [].

(** C3, as first stated, fails in the bulk downloader: a destination of
    zero bytes, left by an interrupted run, is listed as downloaded and no
    request is made for it. *)
Lemma bulk_skips_empty_file :
  Bulk.fs truncated_tree
    !! Bulk.output_path_of "out" "daily" "tmin" "PRISM_tmin_4km_daily_20010101.zip"
  = Some 0%Z /\
  Bulk.download_batch bulk_offline "out" "daily"
    [("https://services.nacse.org/prism/data/public/4km/tmin/20010101",
      "PRISM_tmin_4km_daily_20010101.zip")] truncated_tree
  = Some ((["PRISM_tmin_4km_daily_20010101.zip"], []), truncated_tree) /\
  Bulk.requests (Bulk.trace truncated_tree) = 0.
Proof. repeat split; vm_compute; reflexivity. Qed.

End SkipIfPresent.

(** ** Decoding a flat-binary payload *)

Section Payload.
Import Decoder.

Lemma list_ind4 {A} (P : list A -> Prop) :
  (forall l, length l < 4 -> P l) ->
  (forall a b c d l, P l -> P (a :: b :: c :: d :: l)) ->
  forall l, P l.
Proof.
  intros Hshort Hstep. fix IH 1.
  intros [|a [|b [|c [|d l]]]]; try (apply Hshort; simpl; lia).
  apply Hstep, IH.
Qed.

Lemma fromfile_short (l : list byte) : length l < 4 -> fromfile l = [].
Proof.
  destruct l as [|a [|b [|c [|d l]]]]; simpl; try reflexivity; lia.
Qed.

Lemma fromfile_length (l : list byte) :
  length (fromfile l) = length l / 4.
Proof.
  induction l as [l Hl|a b c d l IH] using list_ind4.
  - rewrite fromfile_short, Nat.div_small by assumption. reflexivity.
  - simpl fromfile. simpl length. rewrite IH.
    change (S (S (S (S (length l))))) with (4 + length l).
    replace (4 + length l) with (length l + 1 * 4) by lia.
    rewrite Nat.div_add by lia. lia.
Qed.

(** Item [n] of the decoded buffer is made of bytes [4n .. 4n+3], least
    significant first. *)
Lemma fromfile_lookup (l : list byte) : forall n,
  n < length l / 4 ->
  exists b0 b1 b2 b3,
    l !! (4 * n) = Some b0 /\ l !! (4 * n + 1) = Some b1 /\
    l !! (4 * n + 2) = Some b2 /\ l !! (4 * n + 3) = Some b3 /\
    fromfile l !! n = Some (le32 b0 b1 b2 b3).
Proof.
  induction l as [l Hl|a b c d l IH] using list_ind4; intros n Hn.
  - rewrite Nat.div_small in Hn by assumption. lia.
  - destruct n as [|n].
    + exists a, b, c, d. repeat split.
    + assert (Hn' : n < length l / 4).
      { simpl length in Hn.
        change (S (S (S (S (length l))))) with (4 + length l) in Hn.
        replace (4 + length l) with (length l + 1 * 4) in Hn by lia.
        rewrite Nat.div_add in Hn by lia. lia. }
      destruct (IH n Hn') as (b0 & b1 & b2 & b3 & H0 & H1 & H2 & H3 & Hw).
      exists b0, b1, b2, b3.
      replace (4 * S n) with (S (S (S (S (4 * n))))) by lia.
      simpl. repeat split; assumption.
Qed.

Lemma reshape_counts size rows cols :
  (0 <= rows)%Z -> (0 <= cols)%Z ->
  reshape size (HInt rows) (HInt cols)
  = if (size =? rows * cols)%Z then Ok (rows, cols)
    else Raise (ValueError "cannot reshape array").
Proof.
  intros Hr Hc. unfold reshape.
  rewrite (proj2 (Z.ltb_ge rows 0) Hr), (proj2 (Z.ltb_ge cols 0) Hc).
  reflexivity.
Qed.

(** A NaN cell is never equal to the nodata value. *)
Lemma nan_not_nodata nodata w :
  f32_value w = S754_nan -> cell_equals nodata w = false.
Proof.
  intros Hnan. unfold cell_equals. rewrite Hnan.
  now destruct (scalar32 nodata).
Qed.

Section Read.
Variable read_bil_header : list byte -> gmap string hval.
Variable specs : GridSpec.

(** What [read_bil_data] returns when the counts are plain non-negative
    integers. *)
Lemma read_bil_data_counts disk p f rows cols nodata :
  grid_params read_bil_header specs disk p = (HInt cols, HInt rows, nodata) ->
  (0 <= rows)%Z -> (0 <= cols)%Z ->
  disk !! p = Some f ->
  read_bil_data read_bil_header specs disk p
  = if (Z.of_nat (length (bytes f) / 4) =? rows * cols)%Z
    then Ok {| shape := (rows, cols); values := fromfile (bytes f);
               mask := map (cell_equals nodata) (fromfile (bytes f)) |}
    else Raise (ValueError "cannot reshape array").
Proof.
  intros Hg Hr Hc Hf. unfold read_bil_data. rewrite Hg, Hf.
  rewrite reshape_counts, fromfile_length by assumption.
  now destruct (Z.of_nat (length (bytes f) / 4) =? rows * cols)%Z.
Qed.

End Read.
End Payload.

Section ReadBilData.
Import Decoder.
Variable read_bil_header : list byte -> gmap string hval.
Variable specs : GridSpec.


End ReadBilData.

Section ReadBilDataExample.
Import Decoder.

(** One 4 km raster on disk, every cell zero, no sidecar header. *)
Definition blank_payload : list byte := repeat x00 (Z.to_nat 3490020).

Definition no_header (hdr : list byte) : gmap string hval := ∅.

Definition one_raster : gmap string file :=
  {[ "d/PRISM_tmin_stable_4kmD2_20010101_bil.bil" := plain blank_payload ]}.

Lemma blank_payload_length : Z.of_nat (length blank_payload) = 3490020%Z.
Proof. unfold blank_payload. rewrite repeat_length. now rewrite Z2Nat.id. Qed.


End ReadBilDataExample.

(** ** Archives *)

Section Archive.
Import Decoder.

(** Where [extract_zip] puts the members, and the [.bil] files among them. *)
Definition extract_dir (zip_path : string) : string :=
  Path.join (Path.parent zip_path) (Path.stem zip_path).

Definition candidates (zip_path : string) (ms : list (string * list byte))
  : list string :=
  List.filter (fun f => String.eqb (Path.suffix f) ".bil")
    (map (fun m => Path.join (extract_dir zip_path) (fst m)) ms).

Definition extracted (disk : gmap string file) (zip_path : string)
  (ms : list (string * list byte)) : gmap string file :=
  foldl (fun d m => <[Path.join (extract_dir zip_path) (fst m) := plain (snd m)]> d)
    disk ms.

Section Processor.
Variable read_bil_header : list byte -> gmap string hval.
Variable specs : GridSpec.

(** The rest of [read_prism_dataset] once the payload is located. *)
Definition decode_at (disk : gmap string file) (bil_path : string)
  : result dataset :=
  d ← read_bil_data read_bil_header specs disk bil_path;
  md ← parse_filename (Path.name bil_path);
  Ok {| data := d; meta := with_grid specs md; file_path := bil_path |}.

Lemma read_prism_dataset_zip disk path f ms :
  Path.suffix path = ".zip" ->
  disk !! path = Some f -> members f = Some ms ->
  read_prism_dataset read_bil_header specs disk path
  = (match candidates path ms with
     | [] => Raise (ValueError "No .bil file found")
     | bil_path :: _ => decode_at (extracted disk path ms) bil_path
     end, extracted disk path ms).
Proof.
  intros Hsuf Hf Hms. unfold read_prism_dataset, extract_zip.
  rewrite Hsuf, Hf, Hms. simpl String.eqb. cbv iota.
  fold (extract_dir path). fold (extracted disk path ms).
  fold (candidates path ms).
  now destruct (candidates path ms).
Qed.

(** C6 (amended).  For an archive whose extracted members hold no [.bil]
    file the decoder raises [ValueError]; when they hold one or more, the
    first one in archive order is decoded and the others are not looked
    at: the outcome is that of decoding the first candidate alone. *)
Theorem archive_payload_choice disk path f ms :
  Path.suffix path = ".zip" ->
  disk !! path = Some f -> members f = Some ms ->
  (candidates path ms = [] ->
   fst (read_prism_dataset read_bil_header specs disk path)
   = Raise (ValueError "No .bil file found")) /\
  (forall bil_path others,
     candidates path ms = bil_path :: others ->
     fst (read_prism_dataset read_bil_header specs disk path)
     = decode_at (extracted disk path ms) bil_path).
Proof.
  intros Hsuf Hf Hms.
  rewrite (read_prism_dataset_zip disk path f ms Hsuf Hf Hms). split.
  - intros Hnone. now rewrite Hnone.
  - intros bil_path others Hsome. now rewrite Hsome.
Qed.

End Processor.

(** An archive with nothing but a text file in it. *)
Definition readme_disk : gmap string file :=
  {[ "in/PRISM_tmin_stable_4kmD2_20010101_bil.zip"
     := File [] (Some [("readme.txt", [])]) ]}.

Lemma archive_payload_choice_witness :
  Path.suffix "in/PRISM_tmin_stable_4kmD2_20010101_bil.zip" = ".zip" /\
  readme_disk !! "in/PRISM_tmin_stable_4kmD2_20010101_bil.zip"
  = Some (File [] (Some [("readme.txt", [])])) /\
  members (File [] (Some [("readme.txt", [])])) = Some [("readme.txt", [])] /\
  candidates "in/PRISM_tmin_stable_4kmD2_20010101_bil.zip" [("readme.txt", [])]
  = [] /\
  (candidates "in/PRISM_tmin_stable_4kmD2_20010101_bil.zip" [("readme.txt", [])]
   = [] ->
   fst (read_prism_dataset no_header (GRID_SPECS Res4km) readme_disk
          "in/PRISM_tmin_stable_4kmD2_20010101_bil.zip")
   = Raise (ValueError "No .bil file found")) /\
  (forall bil_path others,
     candidates "in/PRISM_tmin_stable_4kmD2_20010101_bil.zip" [("readme.txt", [])]
     = bil_path :: others ->
     fst (read_prism_dataset no_header (GRID_SPECS Res4km) readme_disk
            "in/PRISM_tmin_stable_4kmD2_20010101_bil.zip")
     = decode_at no_header (GRID_SPECS Res4km)
         (extracted readme_disk "in/PRISM_tmin_stable_4kmD2_20010101_bil.zip"
            [("readme.txt", [])]) bil_path).
Proof.
  split; [reflexivity|]. split; [reflexivity|]. split; [reflexivity|].
  split; [reflexivity|].
  apply (archive_payload_choice no_header (GRID_SPECS Res4km) readme_disk
           "in/PRISM_tmin_stable_4kmD2_20010101_bil.zip"
           (File [] (Some [("readme.txt", [])])) [("readme.txt", [])]);
    reflexivity.
Defined.

(** An archive with two rasters in it, both holding [payload]. *)
Definition two_rasters (payload : list byte) : list (string * list byte) :=
  [("PRISM_tmin_stable_4kmD2_20010101_bil.bil", payload);
   ("PRISM_tmin_stable_4kmD2_20010102_bil.bil", payload)].

Definition two_raster_disk (payload : list byte) : gmap string file :=
  {[ "in/PRISM_tmin_stable_4kmD2_20010101_bil.zip"
     := File [] (Some (two_rasters payload)) ]}.

Lemma two_rasters_decode payload :
  Z.of_nat (length payload) = 3490020%Z ->
  is_ok (fst (read_prism_dataset no_header (GRID_SPECS Res4km)
                (two_raster_disk payload)
                "in/PRISM_tmin_stable_4kmD2_20010101_bil.zip")) = true.
Proof.
  intros Hlen.
  rewrite (read_prism_dataset_zip no_header (GRID_SPECS Res4km)
             (two_raster_disk payload)
             "in/PRISM_tmin_stable_4kmD2_20010101_bil.zip"
             (File [] (Some (two_rasters payload))) (two_rasters payload))
    by reflexivity.
  change (candidates _ _)
    with ["in/PRISM_tmin_stable_4kmD2_20010101_bil/PRISM_tmin_stable_4kmD2_20010101_bil.bil";
          "in/PRISM_tmin_stable_4kmD2_20010101_bil/PRISM_tmin_stable_4kmD2_20010102_bil.bil"].
  cbv iota. cbn [fst]. unfold decode_at.
  rewrite (read_bil_data_counts no_header (GRID_SPECS Res4km) _ _
             (plain payload) 621 1405 (HFloat (-9999.0)%float));
    [|vm_compute; reflexivity|lia|lia|vm_compute; reflexivity].
  cbn [bytes plain]. rewrite Nat2Z.inj_div, Hlen. reflexivity.
Qed.

(** C6, as first stated, fails: this archive holds two [.bil] payloads
    and the decoder returns a dataset, that of the first one. *)
Lemma two_payloads_decode :
  length (candidates "in/PRISM_tmin_stable_4kmD2_20010101_bil.zip"
            (two_rasters blank_payload)) = 2 /\
  is_ok (fst (read_prism_dataset no_header (GRID_SPECS Res4km)
                (two_raster_disk blank_payload)
                "in/PRISM_tmin_stable_4kmD2_20010101_bil.zip")) = true.
Proof.
  split; [reflexivity|].
  apply two_rasters_decode, blank_payload_length.
Qed.

End Archive.

(** ** File names *)

Section FileNames.
Import Decoder Zarr.

(** The token grammar in the design document's words:
    [<source>_<variable>_<stability>_<resolutionTag>_<dateToken>[_suffix]]
    with a date token of 4, 6 or 8 characters. *)
Definition in_grammar (filename : string) : bool :=
  match Py.split "_" (Py.remove_dot_bil filename) with
  | _ :: _ :: _ :: _ :: date_token :: _ =>
      (String.length date_token =? 4)%nat
      || (String.length date_token =? 6)%nat
      || (String.length date_token =? 8)%nat
  | _ => false
  end.

Lemma outside_grammar_parses filename :
  in_grammar filename = false ->
  exists md,
    parse_filename filename = Ok md /\
    md_year md = None /\ md_month md = None /\ md_day md = None.
Proof.
  unfold in_grammar, parse_filename.
  destruct (Py.split "_" (Py.remove_dot_bil filename))
    as [|p0 [|p1 [|p2 [|p3 [|date_token rest]]]]];
    try (intros _; eexists; repeat split; reflexivity).
  intros Hout. apply orb_false_iff in Hout as [Hout H8].
  apply orb_false_iff in Hout as [H4 H6].
  rewrite H4, H6, H8. eexists. repeat split; reflexivity.
Qed.

Lemma select_files_app dir s e l1 l2 :
  select_files dir s e (l1 ++ l2)
  = select_files dir s e l1 ++ select_files dir s e l2.
Proof. unfold select_files. apply omap_app. Qed.

(** C7 (amended).  A name outside the token grammar does not make
    [parse_filename] raise: it returns metadata without year, month and
    day.  An exception is raised only by [int()] on a date token of 4, 6
    or 8 characters.  Either way the date filter of [process_time_series]
    leaves the file out, and the other files are selected as if it were
    not there. *)
Theorem malformed_names_dropped :
  (forall filename,
     in_grammar filename = false ->
     exists md,
       parse_filename filename = Ok md /\
       md_year md = None /\ md_month md = None /\ md_day md = None) /\
  (forall filename e,
     parse_filename filename = Raise e ->
     in_grammar filename = true /\
     e = ValueError "invalid literal for int() with base 10") /\
  (forall filename start_date end_date,
     in_grammar filename = false \/ is_ok (parse_filename filename) = false ->
     file_date start_date end_date filename = None) /\
  (forall input_dir start_date end_date before filename after,
     file_date start_date end_date filename = None ->
     select_files input_dir start_date end_date (before ++ filename :: after)
     = select_files input_dir start_date end_date before
       ++ select_files input_dir start_date end_date after).
Proof.
  split; [exact outside_grammar_parses|]. split; [|split].
  - intros filename e Hraise. split.
    + destruct (in_grammar filename) eqn:Hg; [reflexivity|].
      destruct (outside_grammar_parses filename Hg) as (md & Hok & _).
      congruence.
    + revert Hraise. unfold parse_filename, py_int.
      destruct (Py.split "_" (Py.remove_dot_bil filename))
        as [|p0 [|p1 [|p2 [|p3 [|date_token rest]]]]]; try discriminate.
      repeat (match goal with
              | |- context [if ?b then _ else _] => destruct b
              | |- context [match Py.int ?s with _ => _ end] =>
                  destruct (Py.int s)
              end; simpl); congruence.
  - intros filename start_date end_date [Hout|Hraise]; unfold file_date.
    + destruct (outside_grammar_parses filename Hout) as (md & -> & -> & _).
      reflexivity.
    + now destruct (parse_filename filename).
  - intros input_dir start_date end_date before filename after Hnone.
    rewrite select_files_app. f_equal.
    unfold select_files. simpl. now rewrite Hnone.
Qed.

(** C7, as first stated, fails: this name matches the converter's glob
    [PRISM_tmin_stable_4km*_bil.zip], has no date token, and is parsed
    without any exception. *)
Lemma no_parse_error :
  in_grammar "PRISM_tmin_stable_4km_bil.zip" = false /\
  parse_filename "PRISM_tmin_stable_4km_bil.zip"
  = Ok {| md_source := Some "PRISM"; md_variable := Some "tmin";
          md_stability := Some "stable"; md_resolution := Some "4km";
          md_date_str := Some "bil.zip"; md_temporal := None;
          md_year := None; md_month := None; md_day := None;
          md_grid := None |} /\
  in_grammar "notes.txt" = false /\
  parse_filename "notes.txt" = Ok no_metadata.
Proof. repeat split; reflexivity. Qed.

End FileNames.

(** ** Coordinates *)

Section Coordinates.
Import Decoder Zarr.

Fixpoint strictly_ascending (l : list float) : bool :=
  match l with
  | a :: (b :: _) as rest => (a <? b)%float && strictly_ascending rest
  | _ => true
  end.

Fixpoint strictly_descending (l : list float) : bool :=
  match l with
  | a :: (b :: _) as rest => (b <? a)%float && strictly_descending rest
  | _ => true
  end.

Lemma read_bil_file_data read_bil_header res disk path d md :
  fst (read_bil_file read_bil_header res disk path) = Ok (d, md) ->
  exists bil_path disk',
    read_bil_data read_bil_header (GRID_SPECS res) disk' bil_path = Ok d.
Proof.
  unfold read_bil_file, read_prism_dataset, Zarr.specs.
  set (located := if String.eqb (Path.suffix path) ".zip" then _ else _).
  destruct located as [[bil_path|e] disk']; simpl; [|discriminate].
  destruct (read_bil_data read_bil_header (GRID_SPECS res) disk' bil_path)
    as [a|e] eqn:Hread; simpl; [|discriminate].
  destruct (parse_filename (Path.name bil_path)); simpl; [|discriminate].
  intros [= <- _]. now exists bil_path, disk'.
Qed.


End Coordinates.

(** ** Materialization *)

Section Materialize.
Import Decoder Zarr.
Variable read_bil_header : list byte -> gmap string hval.
Variable res : Decoder.resolution.
Variable strategy : chunk_strategy.

(** The time coordinate of a store; a store that is not there has none. *)
Definition times (s : option (list datetime)) : list datetime := default [] s.

(** The time steps the [to_zarr] calls of a trace wrote, in order. *)
Definition written_times (evs : list zevent) : list datetime :=
  concat (omap (fun e => match e with
                         | ToZarr _ _ ts => Some ts
                         | Consolidate => None
                         end) evs).

Definition ascending_blocks (evs : list zevent) : Prop :=
  Forall (fun e => match e with
                   | ToZarr _ _ ts => Sorted Z.le ts
                   | Consolidate => True
                   end) evs.

Lemma written_times_app l1 l2 :
  written_times (l1 ++ l2) = written_times l1 ++ written_times l2.
Proof. unfold written_times. now rewrite omap_app, concat_app. Qed.

Lemma writes_app l1 l2 : writes (l1 ++ l2) = writes l1 + writes l2.
Proof. unfold writes. now rewrite List.filter_app, length_app. Qed.

Lemma consolidations_app l1 l2 :
  consolidations (l1 ++ l2) = consolidations l1 + consolidations l2.
Proof. unfold consolidations. now rewrite List.filter_app, length_app. Qed.

(** The datasets of a batch carry, in order, dates of the batch. *)
Lemma read_batch_sublist batch : forall disk,
  concat (fst (read_batch read_bil_header res batch disk))
    `sublist_of` map snd batch.
Proof.
  induction batch as [|[path t] rest IH]; intros disk; simpl; [constructor|].
  destruct (read_bil_file read_bil_header res disk path) as [r disk1].
  specialize (IH disk1).
  destruct (read_batch read_bil_header res rest disk1) as [datasets disk2].
  simpl in IH.
  destruct r as [[d md]|e]; simpl.
  - unfold create_xarray_dataset. destruct (_ && _)%bool; simpl.
    + now constructor.
    + now constructor.
  - now constructor.
Qed.

Lemma sorted_sublist (l1 l2 : list Z) :
  l1 `sublist_of` l2 -> StronglySorted Z.lt l2 -> StronglySorted Z.lt l1.
Proof.
  induction 1 as [|x l1 l2 Hsub IH|x l1 l2 Hsub IH]; intros Hs.
  - constructor.
  - apply StronglySorted_inv in Hs as [Hs Hall]. constructor; [auto|].
    apply Forall_forall. intros y Hy.
    apply (proj1 (Forall_forall _ _) Hall).
    eapply elem_of_sublist; eassumption.
  - apply StronglySorted_inv in Hs as [Hs _]. auto.
Qed.

Lemma merge_sort_sorted (l : list Z) :
  StronglySorted Z.lt l -> merge_sort Z.le l = l.
Proof.
  intros Hs. apply (Sorted_unique Z.le).
  - apply Sorted_merge_sort. intros x y. lia.
  - apply StronglySorted_Sorted.
    induction Hs as [|x l' _ IH Hall]; constructor; [exact IH|].
    eapply Forall_impl; [exact Hall|]. intros y. simpl. lia.
  - apply merge_sort_Permutation.
Qed.

End Materialize.

Section BatchLoop.
Import Decoder Zarr.
Variable read_bil_header : list byte -> gmap string hval.
Variable res : Decoder.resolution.
Variable strategy : chunk_strategy.
Variable files : list (string * datetime).
Variable batch_days : nat.
Variable append_mode : bool.
Hypothesis batch_days_pos : 0 < batch_days.

Lemma sublist_map {A B} (f : A -> B) (l1 l2 : list A) :
  l1 `sublist_of` l2 -> map f l1 `sublist_of` map f l2.
Proof. intros Hsub. now apply (fmap_sublist f). Qed.

(** What a stretch of the batch loop, from batch number [first] on, adds
    to the trace and to the store. *)
Record stretch (first : nat) (st st' : run_state) (new : list zevent) : Prop := {
  st_events : events st' = events st ++ new;
  st_no_consolidate : consolidations new = 0;
  st_written : data_written st' = data_written st || (0 <? writes new)%nat;
  st_times : times (store st') = times (store st) ++ written_times new;
  st_kept : new = [] -> store st' = store st;
  st_blocks : ascending_blocks new;
  st_order :
    StronglySorted Z.lt (map snd files) ->
    written_times new `sublist_of` map snd (drop (first * batch_days) files)
}.

Lemma process_batch_stretch a st :
  (a = 0 -> append_mode = false -> store st = None) ->
  exists new,
    stretch a st
      (process_batch read_bil_header res strategy files batch_days append_mode
         st (a * batch_days)) new /\
    (StronglySorted Z.lt (map snd files) ->
     written_times new
       `sublist_of` map snd (take batch_days (drop (a * batch_days) files))).
Proof.
  intros Hfresh. unfold process_batch.
  pose proof (read_batch_sublist read_bil_header res
                (take batch_days (drop (a * batch_days) files)) (disk st))
    as Hsub.
  destruct (read_batch read_bil_header res _ (disk st)) as [datasets disk'].
  simpl in Hsub.
  assert (Hslice : StronglySorted Z.lt (map snd files) ->
            StronglySorted Z.lt
              (map snd (take batch_days (drop (a * batch_days) files)))).
  { intros Hs. eapply sorted_sublist; [|exact Hs].
    apply sublist_map. etrans; [apply sublist_take|apply sublist_drop]. }
  destruct datasets as [|ds rest].
  - exists []. split.
    + split; simpl; auto; try (now rewrite ?app_nil_r, ?orb_false_r);
        try constructor.
      intros _. apply sublist_nil_l.
    + intros _. apply sublist_nil_l.
  - set (blk := concat (ds :: rest)) in *.
    destruct (chunk_config strategy) as [[ctime clat] clon].
    match goal with
    | |- context [ToZarr ?m ?c _] => set (mode := m); set (chunks := c)
    end.
    assert (Hwt : written_times [ToZarr mode chunks (merge_sort Z.le blk)]
                  = merge_sort Z.le blk).
    { unfold written_times. simpl. apply app_nil_r. }
    assert (Hkeep : StronglySorted Z.lt (map snd files) ->
                    merge_sort Z.le blk = blk).
    { intros Hs. apply merge_sort_sorted.
      eapply sorted_sublist; [exact Hsub|]. now apply Hslice. }
    exists [ToZarr mode chunks (merge_sort Z.le blk)]. split.
    + split; simpl; auto.
      * now rewrite orb_true_r.
      * rewrite Hwt. unfold to_zarr. subst mode.
        destruct (a * batch_days =? 0)%nat eqn:Hi, append_mode eqn:Ham; simpl.
        -- now destruct (store st).
        -- rewrite Hfresh; [reflexivity| |reflexivity].
           apply Nat.eqb_eq in Hi. nia.
        -- now destruct (store st).
        -- now destruct (store st).
      * discriminate.
      * constructor; [|constructor]. apply Sorted_merge_sort.
        intros x y. lia.
      * intros Hs. rewrite Hwt, (Hkeep Hs).
        etrans; [exact Hsub|]. apply sublist_map, sublist_take.
    + intros Hs. rewrite Hwt, (Hkeep Hs). exact Hsub.
Qed.

(** The loop over batches [first], [first + 1], ... *)
Lemma batch_loop_stretch count : forall first st,
  (first = 0 -> append_mode = false -> store st = None) ->
  exists new,
    stretch first st
      (foldl (process_batch read_bil_header res strategy files batch_days
                append_mode) st
         (map (fun k => k * batch_days) (seq first count))) new.
Proof.
  induction count as [|count IH]; intros first st Hfresh.
  - exists []. split; simpl; auto; try (now rewrite ?app_nil_r, ?orb_false_r);
      try constructor.
    intros _. apply sublist_nil_l.
  - destruct (process_batch_stretch first st Hfresh) as (new1 & H1 & Hsub1).
    simpl.
    destruct (IH (S first)
                (process_batch read_bil_header res strategy files batch_days
                   append_mode st (first * batch_days)))
      as (new2 & H2); [lia|].
    exists (new1 ++ new2). destruct H1, H2. split.
    + rewrite st_events1, st_events0. now rewrite <- app_assoc.
    + rewrite consolidations_app. lia.
    + rewrite st_written1, st_written0, writes_app.
      destruct (data_written st), (writes new1), (writes new2); reflexivity.
    + rewrite st_times1, st_times0, written_times_app. now rewrite <- app_assoc.
    + intros Hnil. apply app_eq_nil in Hnil as [-> ->].
      rewrite st_kept1, st_kept0; reflexivity.
    + now apply Forall_app.
    + intros Hs. rewrite written_times_app.
      rewrite <- (take_drop batch_days (drop (first * batch_days) files)).
      rewrite map_app. apply sublist_app; [now apply Hsub1|].
      rewrite drop_drop.
      replace (first * batch_days + batch_days) with (S first * batch_days)
        by lia.
      now apply st_order1.
Qed.

End BatchLoop.

Section Run.
Import Decoder Zarr.
Variable read_bil_header : list byte -> gmap string hval.
Variable res : Decoder.resolution.
Variable strategy : chunk_strategy.
Variables (input_dir : string) (all_files : list string).
Variables (start_date end_date : datetime) (batch_days : Z).

(** A call of [process_time_series] that returns: its [to_zarr] calls
    [ws], followed by one consolidation when there was a call. *)
Lemma run_effect st st' :
  process_time_series read_bil_header res strategy input_dir all_files
    start_date end_date batch_days st = Ok st' ->
  exists ws,
    consolidations ws = 0 /\
    events st'
    = events st ++ ws ++ (if (0 <? writes ws)%nat then [Consolidate] else []) /\
    times (store st') = times (store st) ++ written_times ws /\
    (ws = [] -> store st' = store st) /\
    ascending_blocks ws /\
    (StronglySorted Z.lt
       (map snd (select_files input_dir start_date end_date all_files)) ->
     written_times ws
       `sublist_of` map snd (select_files input_dir start_date end_date all_files)).
Proof.
  unfold process_time_series.
  assert (Hskip : Ok st = Ok st' ->
            exists ws,
              consolidations ws = 0 /\
              events st' = events st ++ ws
                             ++ (if (0 <? writes ws)%nat then [Consolidate] else []) /\
              times (store st') = times (store st) ++ written_times ws /\
              (ws = [] -> store st' = store st) /\
              ascending_blocks ws /\
              (StronglySorted Z.lt
                 (map snd (select_files input_dir start_date end_date all_files)) ->
               written_times ws
                 `sublist_of` map snd (select_files input_dir start_date end_date
                                         all_files))).
  { intros [= <-]. exists []. simpl. rewrite !app_nil_r.
    repeat split; try constructor. intros _. apply sublist_nil_l. }
  destruct all_files as [|f0 fs]; [exact Hskip|].
  set (files := select_files input_dir start_date end_date (f0 :: fs)) in *.
  destruct files as [|p0 ps] eqn:Hfiles; [exact Hskip|]. clear Hskip.
  rewrite <- Hfiles. clearbody files.
  destruct (batch_days =? 0)%Z eqn:Hb; [discriminate|].
  apply Z.eqb_neq in Hb.
  set (st0 := {| disk := disk st; store := store st; events := events st;
                 data_written := false |}).
  unfold Py.range_step.
  destruct (0 <? batch_days)%Z eqn:Hpos.
  2:{ simpl. intros [= <-]. exists []. simpl. rewrite !app_nil_r.
      repeat split; try constructor. intros _. apply sublist_nil_l. }
  apply Z.ltb_lt in Hpos.
  destruct (batch_loop_stretch read_bil_header res strategy files
              (Z.to_nat batch_days)
              (bool_decide (is_Some (store st))) ltac:(lia)
              ((length files + Z.to_nat batch_days - 1) / Z.to_nat batch_days)
              0 st0)
    as (ws & Hws).
  { intros _ Hfresh. apply bool_decide_eq_false in Hfresh.
    simpl. destruct (store st); [|reflexivity].
    exfalso. apply Hfresh. now eexists. }
  set (st1 := foldl _ st0 _) in *.
  destruct Hws as [Hev Hnc Hw Ht Hkept Hbl Hord]. simpl in Hev, Hw, Ht, Hkept.
  rewrite drop_0 in Hord.
  intros Hrun. exists ws. rewrite Hw in Hrun.
  destruct (0 <? writes ws)%nat; injection Hrun as <-; simpl.
  - rewrite Hev, <- app_assoc. repeat split; assumption.
  - rewrite Hev, app_nil_r. repeat split; assumption.
Qed.

End Run.

Section RunFacts.
Import Decoder Zarr.
Variable read_bil_header : list byte -> gmap string hval.
Variable res : Decoder.resolution.
Variable strategy : chunk_strategy.
Variables (input_dir : string) (all_files : list string).
Variables (start_date end_date : datetime) (batch_days : Z).

Lemma run_returns st :
  batch_days <> 0%Z ->
  exists st',
    process_time_series read_bil_header res strategy input_dir all_files
      start_date end_date batch_days st = Ok st'.
Proof.
  intros Hb. unfold process_time_series.
  destruct all_files; [now eexists|].
  destruct (select_files _ _ _ _); [now eexists|].
  apply Z.eqb_neq in Hb. rewrite Hb.
  destruct (data_written _); now eexists.
Qed.

Lemma no_events_no_writes ws :
  writes ws = 0 -> consolidations ws = 0 -> ws = [].
Proof.
  intros Hw Hc. destruct ws as [|[m c ts|] ws']; [reflexivity| |]; exfalso.
  - unfold writes in Hw. simpl in Hw. lia.
  - unfold consolidations in Hc. simpl in Hc. lia.
Qed.



End RunFacts.

(** ** A run over one raster *)

Section OneRaster.
Import Decoder Zarr.

Lemma axis_lengths res :
  Z.of_nat (length (lat res)) = nrows (GRID_SPECS res) /\
  Z.of_nat (length (lon res)) = ncols (GRID_SPECS res).
Proof. destruct res; split; vm_compute; reflexivity. Qed.

Definition zip_name : string := "PRISM_tmin_stable_4kmD2_20010101_bil.zip".
Definition zip_path : string := "in/PRISM_tmin_stable_4kmD2_20010101_bil.zip".
Definition bil_name : string := "PRISM_tmin_stable_4kmD2_20010101_bil.bil".
Definition bil_path : string :=
  "in/PRISM_tmin_stable_4kmD2_20010101_bil/PRISM_tmin_stable_4kmD2_20010101_bil.bil".
Definition hdr_path : string :=
  "in/PRISM_tmin_stable_4kmD2_20010101_bil/PRISM_tmin_stable_4kmD2_20010101_bil.hdr".

(** 1 January 2001 *)
Definition day1 : datetime := 730486%Z.

(** An input directory with one archive, one raster in it. *)
Definition archive_of (payload : list byte) : file :=
  File [] (Some [(bil_name, payload)]).

Definition input_tree (payload : list byte) : gmap string file :=
  {[ zip_path := archive_of payload ]}.

Section Payload.
Variable payload : list byte.
Hypothesis payload_size : Z.of_nat (length payload) = 3490020%Z.
Variable tree : gmap string file.
Hypothesis tree_archive : tree !! zip_path = Some (archive_of payload).
Hypothesis tree_no_header : tree !! hdr_path = None.

Lemma one_raster_read :
  exists a md,
    read_bil_file no_header Res4km tree zip_path
    = (Ok (a, md), <[bil_path := plain payload]> tree) /\
    shape a = (621, 1405)%Z.
Proof.
  unfold read_bil_file, Zarr.specs.
  rewrite (read_prism_dataset_zip no_header (GRID_SPECS Res4km) tree zip_path
             (archive_of payload) [(bil_name, payload)])
    by (reflexivity || exact tree_archive).
  change (candidates zip_path [(bil_name, payload)]) with [bil_path].
  change (extracted tree zip_path [(bil_name, payload)])
    with (<[bil_path := plain payload]> tree).
  cbv iota. unfold decode_at.
  rewrite (read_bil_data_counts no_header (GRID_SPECS Res4km) _ bil_path
             (plain payload) 621 1405 (HFloat (-9999.0)%float)).
  - cbn [bytes plain]. rewrite Nat2Z.inj_div, payload_size.
    change (3490020 `div` Z.of_nat 4 =? 621 * 1405)%Z with true. cbv iota.
    change (parse_filename (Path.name bil_path))
      with (Ok {| md_source := Some "PRISM"; md_variable := Some "tmin";
                  md_stability := Some "stable"; md_resolution := Some "4kmD2";
                  md_date_str := Some "20010101"; md_temporal := Some "daily";
                  md_year := Some 2001%Z; md_month := Some 1%Z;
                  md_day := Some 1%Z; md_grid := None |}).
    simpl. do 2 eexists. split; reflexivity.
  - unfold grid_params.
    change (Path.with_suffix bil_path ".hdr") with hdr_path.
    rewrite lookup_insert_ne by discriminate.
    now rewrite tree_no_header.
  - lia.
  - lia.
  - apply lookup_insert_eq.
Qed.

Lemma one_raster_batch :
  read_batch no_header Res4km [(zip_path, day1)] tree
  = ([[day1]], <[bil_path := plain payload]> tree).
Proof.
  destruct one_raster_read as (a & md & Hread & Hshape).
  simpl. rewrite Hread. simpl. unfold create_xarray_dataset.
  destruct (axis_lengths Res4km) as [-> ->]. rewrite Hshape. reflexivity.
Qed.

Lemma one_raster_process_batch old evs append_mode :
  process_batch no_header Res4km time_optimized [(zip_path, day1)] 365
    append_mode
    {| disk := tree; store := old; events := evs; data_written := false |} 0
  = {| disk := <[bil_path := plain payload]> tree;
       store := to_zarr (if negb append_mode then ModeW else ModeA) [day1] old;
       events := evs ++ [ToZarr (if negb append_mode then ModeW else ModeA)
                           (1, 621, 1405)%Z [day1]];
       data_written := true |}.
Proof.
  unfold process_batch.
  change (take 365 (drop 0 [(zip_path, day1)])) with [(zip_path, day1)].
  cbn [disk]. rewrite one_raster_batch. reflexivity.
Qed.

(** One call over that directory appends 1 January 2001 to whatever the
    store holds. *)
Lemma one_raster_run old evs written :
  process_time_series no_header Res4km time_optimized "in" [zip_name]
    day1 day1 365
    {| disk := tree; store := old; events := evs; data_written := written |}
  = Ok {| disk := <[bil_path := plain payload]> tree;
          store := Some (times old ++ [day1]);
          events := evs ++ [ToZarr (match old with
                                    | Some _ => ModeA
                                    | None => ModeW
                                    end)
                              (1, 621, 1405)%Z [day1]; Consolidate];
          data_written := true |}.
Proof.
  unfold process_time_series.
  change (select_files "in" day1 day1 [zip_name]) with [(zip_path, day1)].
  change (Py.range_step (length [(zip_path, day1)]) 365) with [0].
  cbv iota. change (365 =? 0)%Z with false. cbv iota.
  change (Z.to_nat 365) with 365.
  cbn [foldl disk store events]. rewrite one_raster_process_batch.
  cbn [data_written disk store events]. rewrite <- app_assoc.
  destruct old; reflexivity.
Qed.

End Payload.
End OneRaster.

Section RunExamples.
Import Decoder Zarr.

Definition fresh_state : run_state :=
  {| disk := input_tree blank_payload; store := None; events := [];
     data_written := false |}.

(** The state the first run over [fresh_state] leaves. *)
Definition after_first_run : run_state :=
  {| disk := <[bil_path := plain blank_payload]> (input_tree blank_payload);
     store := Some [day1];
     events := [ToZarr ModeW (1, 621, 1405)%Z [day1]; Consolidate];
     data_written := true |}.




End RunExamples.

(** * Further properties of the code *)

(** ** Strings built from tokens *)

Section Tokens.

(** [c not in s] *)
Fixpoint lacks (c : ascii) (s : string) : bool :=
  match s with
  | EmptyString => true
  | String x rest => negb (Ascii.eqb x c) && lacks c rest
  end.

Lemma lacks_app c a b : lacks c (a +:+ b) = lacks c a && lacks c b.
Proof.
  induction a as [|x a IH]; simpl; [reflexivity|].
  now rewrite IH, andb_assoc.
Qed.

Lemma split_lacks c a : lacks c a = true -> Py.split c a = [a].
Proof.
  induction a as [|x a IH]; simpl; [reflexivity|].
  intros [Hx Ha]%andb_true_iff. apply negb_true_iff in Hx.
  now rewrite Hx, (IH Ha).
Qed.

(** Splitting at the first separator. *)
Lemma split_app_sep c a b :
  lacks c a = true ->
  Py.split c (a +:+ String c b) = a :: Py.split c b.
Proof.
  induction a as [|x a IH]; simpl.
  - intros _. now rewrite Ascii.eqb_refl.
  - intros [Hx Ha]%andb_true_iff. apply negb_true_iff in Hx.
    now rewrite Hx, (IH Ha).
Qed.

Lemma remove_dot_bil_cons x s :
  Ascii.eqb x "." = false ->
  Py.remove_dot_bil (String x s) = String x (Py.remove_dot_bil s).
Proof.
  intros Hx.
  destruct x as [[] [] [] [] [] [] [] []]; try reflexivity; discriminate.
Qed.

Lemma remove_dot_bil_app a b :
  lacks "." a = true ->
  Py.remove_dot_bil (a +:+ b) = a +:+ Py.remove_dot_bil b.
Proof.
  induction a as [|x a IH]; [reflexivity|].
  intros [Hx Ha]%andb_true_iff. apply negb_true_iff in Hx.
  change (String x a +:+ b) with (String x (a +:+ b)).
  rewrite remove_dot_bil_cons by assumption. now rewrite (IH Ha).
Qed.

Lemma length_app_string a b :
  String.length (a +:+ b) = String.length a + String.length b.
Proof. induction a as [|x a IH]; simpl; [reflexivity|now rewrite IH]. Qed.

Lemma substring_app_l a b :
  String.substring 0 (String.length a) (a +:+ b) = a.
Proof.
  induction a as [|x a IH]; simpl.
  - now destruct b.
  - now rewrite IH.
Qed.

Lemma substring_app_skip a b n m :
  String.substring (String.length a + n) m (a +:+ b) = String.substring n m b.
Proof. induction a as [|x a IH]; simpl; [reflexivity|exact IH]. Qed.

End Tokens.

(** ** From the downloader's file names to the converter's dates *)

Section NameRoundTrip.
Import Decoder Zarr.

(** A zero-padded decimal of the given width: its length, its characters,
    and what [int()] reads back. *)
Definition padded_ok (width n : nat) : bool :=
  let s := Daily.pad width (Py.str_nat n) in
  (String.length s =? width)%nat && lacks "_" s && lacks "." s
  && match Py.int s with Some k => (k =? Z.of_nat n)%Z | None => false end.

Lemma padded_ok_spec width n :
  padded_ok width n = true ->
  String.length (Daily.pad width (Py.str_nat n)) = width /\
  lacks "_" (Daily.pad width (Py.str_nat n)) = true /\
  lacks "." (Daily.pad width (Py.str_nat n)) = true /\
  Py.int (Daily.pad width (Py.str_nat n)) = Some (Z.of_nat n).
Proof.
  unfold padded_ok. cbv zeta.
  intros [[[Hlen Hu]%andb_true_iff Hd]%andb_true_iff Hint]%andb_true_iff.
  apply Nat.eqb_eq in Hlen.
  destruct (Py.int _) as [k|]; [|discriminate].
  apply Z.eqb_eq in Hint. now subst k.
Qed.

Lemma padded4 n : (Z.of_nat n < 10000)%Z -> padded_ok 4 n = true.
Proof.
  intros Hn.
  assert (Hall : forallb (padded_ok 4) (seq 0 (Z.to_nat 10000)) = true)
    by (vm_compute; reflexivity).
  apply (proj1 (forallb_forall _ _) Hall). apply in_seq. lia.
Qed.

Lemma padded2 n : n < 100 -> padded_ok 2 n = true.
Proof.
  intros Hn.
  assert (Hall : forallb (padded_ok 2) (seq 0 100) = true)
    by (vm_compute; reflexivity).
  apply (proj1 (forallb_forall _ _) Hall). apply in_seq. lia.
Qed.

Lemma substring_all s : String.substring 0 (String.length s) s = s.
Proof. induction s as [|x s IH]; simpl; [reflexivity|now rewrite IH]. Qed.

Lemma date_str_facts d :
  (Z.of_nat (Daily.year d) < 10000)%Z ->
  Daily.month d < 100 -> Daily.day d < 100 ->
  String.length (Daily.date_str d) = 8 /\
  lacks "_" (Daily.date_str d) = true /\
  lacks "." (Daily.date_str d) = true /\
  Py.int (Py.slice 0 4 (Daily.date_str d)) = Some (Z.of_nat (Daily.year d)) /\
  Py.int (Py.slice 4 6 (Daily.date_str d)) = Some (Z.of_nat (Daily.month d)) /\
  Py.int (Py.slice 6 8 (Daily.date_str d)) = Some (Z.of_nat (Daily.day d)).
Proof.
  intros Hy Hm Hd. unfold Daily.date_str.
  destruct (padded_ok_spec 4 _ (padded4 _ Hy)) as (Ly & Uy & Dy & Iy).
  destruct (padded_ok_spec 2 _ (padded2 _ Hm)) as (Lm & Um & Dm & Im).
  destruct (padded_ok_spec 2 _ (padded2 _ Hd)) as (Ld & Ud & Dd & Id).
  set (Y := Daily.pad 4 _) in *. set (M := Daily.pad 2 (Py.str_nat (Daily.month d))) in *.
  set (D := Daily.pad 2 (Py.str_nat (Daily.day d))) in *.
  split; [rewrite !length_app_string; lia|].
  split; [now rewrite !lacks_app, Uy, Um, Ud|].
  split; [now rewrite !lacks_app, Dy, Dm, Dd|].
  unfold Py.slice. split; [|split].
  - change (4 - 0) with 4. rewrite <- Ly at 1.
    now rewrite substring_app_l.
  - change (6 - 4) with 2.
    replace 4 with (String.length Y + 0) by lia.
    rewrite substring_app_skip. rewrite <- Lm at 1.
    now rewrite substring_app_l.
  - change (8 - 6) with 2.
    replace 6 with (String.length Y + (String.length M + 0)) by lia.
    rewrite !substring_app_skip. rewrite <- Ld at 1.
    now rewrite substring_all.
Qed.

End NameRoundTrip.

Section DownloadedNames.
Import Decoder Zarr.

(** X1.  The file name the daily downloaders give to a raster is read
    back by [parse_filename] as a daily raster of that variable and that
    date, whenever the variable holds neither an underscore nor a dot and
    the year has four digits; the converter's date filter therefore keeps
    the file exactly when the date exists and lies in the range. *)
Theorem downloaded_name_parses v d :
  lacks "_" v = true -> lacks "." v = true ->
  (1000 <= Z.of_nat (Daily.year d) < 10000)%Z ->
  Daily.month d < 100 -> Daily.day d < 100 ->
  parse_filename (Daily.filename_of v d)
  = Ok {| md_source := Some "PRISM"; md_variable := Some v;
          md_stability := Some "stable"; md_resolution := Some "4kmD2";
          md_date_str := Some (Daily.date_str d);
          md_temporal := Some "daily";
          md_year := Some (Z.of_nat (Daily.year d));
          md_month := Some (Z.of_nat (Daily.month d));
          md_day := Some (Z.of_nat (Daily.day d));
          md_grid := None |} /\
  forall start_date end_date,
    file_date start_date end_date (Daily.filename_of v d)
    = match mk_datetime (Z.of_nat (Daily.year d)) (Z.of_nat (Daily.month d))
              (Z.of_nat (Daily.day d)) with
      | Ok t => if ((start_date <=? t) && (t <=? end_date))%Z
                then Some t else None
      | Raise _ => None
      end.
Proof.
  intros Hu Hdot Hy Hm Hd.
  destruct (date_str_facts d) as (Hlen & Hdu & Hdd & Iy & Im & Id);
    [lia|assumption|assumption|].
  assert (Hparse : parse_filename (Daily.filename_of v d)
                   = Ok {| md_source := Some "PRISM"; md_variable := Some v;
                           md_stability := Some "stable";
                           md_resolution := Some "4kmD2";
                           md_date_str := Some (Daily.date_str d);
                           md_temporal := Some "daily";
                           md_year := Some (Z.of_nat (Daily.year d));
                           md_month := Some (Z.of_nat (Daily.month d));
                           md_day := Some (Z.of_nat (Daily.day d));
                           md_grid := None |}).
  { unfold parse_filename, Daily.filename_of.
    change ("PRISM_" +:+ v +:+ "_stable_4kmD2_" +:+ Daily.date_str d +:+ "_bil.zip")
      with ("PRISM_" +:+ (v +:+ ("_stable_4kmD2_" +:+ (Daily.date_str d +:+ "_bil.zip")))).
    rewrite (remove_dot_bil_app "PRISM_") by reflexivity.
    rewrite (remove_dot_bil_app v) by assumption.
    rewrite (remove_dot_bil_app "_stable_4kmD2_") by reflexivity.
    rewrite (remove_dot_bil_app (Daily.date_str d)) by assumption.
    change (Py.remove_dot_bil "_bil.zip") with "_bil.zip".
    change ("PRISM_" +:+ (v +:+ ("_stable_4kmD2_" +:+ (Daily.date_str d +:+ "_bil.zip"))))
      with ("PRISM" +:+ String "_" (v +:+ String "_" ("stable" +:+ String "_"
              ("4kmD2" +:+ String "_" (Daily.date_str d +:+ String "_" "bil.zip"))))).
    rewrite (split_app_sep "_" "PRISM") by reflexivity.
    rewrite (split_app_sep "_" v) by assumption.
    rewrite (split_app_sep "_" "stable") by reflexivity.
    rewrite (split_app_sep "_" "4kmD2") by reflexivity.
    rewrite (split_app_sep "_" (Daily.date_str d)) by assumption.
    rewrite Hlen. cbn [Nat.eqb]. unfold py_int. rewrite Iy, Im, Id.
    reflexivity. }
  split; [exact Hparse|].
  intros start_date end_date. unfold file_date. now rewrite Hparse.
Qed.

Lemma downloaded_name_parses_witness :
  lacks "_" "tmin" = true /\ lacks "." "tmin" = true /\
  (1000 <= Z.of_nat (Daily.year jan1) < 10000)%Z /\
  Daily.month jan1 < 100 /\ Daily.day jan1 < 100 /\
  parse_filename (Daily.filename_of "tmin" jan1)
  = Ok {| md_source := Some "PRISM"; md_variable := Some "tmin";
          md_stability := Some "stable"; md_resolution := Some "4kmD2";
          md_date_str := Some (Daily.date_str jan1);
          md_temporal := Some "daily";
          md_year := Some (Z.of_nat (Daily.year jan1));
          md_month := Some (Z.of_nat (Daily.month jan1));
          md_day := Some (Z.of_nat (Daily.day jan1));
          md_grid := None |} /\
  forall start_date end_date,
    file_date start_date end_date (Daily.filename_of "tmin" jan1)
    = match mk_datetime (Z.of_nat (Daily.year jan1))
              (Z.of_nat (Daily.month jan1)) (Z.of_nat (Daily.day jan1)) with
      | Ok t => if ((start_date <=? t) && (t <=? end_date))%Z
                then Some t else None
      | Raise _ => None
      end.
Proof.
  split; [reflexivity|]. split; [reflexivity|]. split; [simpl; lia|].
  split; [simpl; lia|]. split; [simpl; lia|].
  apply (downloaded_name_parses "tmin" jan1); simpl; try reflexivity; lia.
Defined.

End DownloadedNames.

(** ** Calendar days ([datetime] comparison and [timedelta(days=1)]) *)

Module Calendar.
Import Daily Zarr.

(** The dates [datetime(year, month, day)] accepts. *)
Definition valid (d : date) : bool :=
  is_ok (mk_datetime (Z.of_nat (year d)) (Z.of_nat (month d)) (Z.of_nat (day d))).

(** [d.toordinal()] *)
Definition ordinal (d : date) : Z :=
  (days_before_year (Z.of_nat (year d))
   + days_before_month (Z.of_nat (year d)) (Z.of_nat (month d))
   + Z.of_nat (day d))%Z.

(** [d + timedelta(days=1)], for a date before 31 December 9999 (where
    Python raises [OverflowError]). *)
Definition next_day (d : date) : date :=
  if (Z.of_nat (day d) <? days_in_month (Z.of_nat (year d)) (Z.of_nat (month d)))%Z
  then Date (year d) (month d) (S (day d))
  else if (month d <? 12)%nat then Date (year d) (S (month d)) 1
       else Date (S (year d)) 1 1.

(** [a <= b] on midnight datetimes: year, then month, then day. *)
Definition date_leb (a b : date) : bool :=
  if (year a =? year b)%nat
  then if (month a =? month b)%nat then (day a <=? day b)%nat
       else (month a <? month b)%nat
  else (year a <? year b)%nat.

(** [while current <= end_date: dates.append(current); current += 1 day],
    run for at most [fuel] iterations. *)
Fixpoint date_loop (fuel : nat) (current end_date : date) : list date :=
  match fuel with
  | O => []
  | S fuel' =>
      if date_leb current end_date
      then current :: date_loop fuel' (next_day current) end_date
      else []
  end.

(** [generate_date_range]: the loop needs one iteration per day from
    [start_date] to [end_date]. *)
Definition generate_date_range (start_date end_date : date) : list date :=
  date_loop (Z.to_nat (ordinal end_date - ordinal start_date + 1))
    start_date end_date.

End Calendar.

Section CalendarFacts.
Import Daily Zarr Calendar.

Lemma days_before_month_table y m :
  (1 <= m <= 13)%Z ->
  days_before_month y m
  = ((if m =? 1 then 0 else if m =? 2 then 31 else if m =? 3 then 59
      else if m =? 4 then 90 else if m =? 5 then 120 else if m =? 6 then 151
      else if m =? 7 then 181 else if m =? 8 then 212 else if m =? 9 then 243
      else if m =? 10 then 273 else if m =? 11 then 304
      else if m =? 12 then 334 else 365)
     + (if (2 <? m) && is_leap y then 1 else 0))%Z.
Proof.
  intros Hm.
  assert (Hcases : (m = 1 \/ m = 2 \/ m = 3 \/ m = 4 \/ m = 5 \/ m = 6 \/ m = 7
                    \/ m = 8 \/ m = 9 \/ m = 10 \/ m = 11 \/ m = 12 \/ m = 13)%Z)
    by lia.
  unfold days_before_month, days_in_month.
  repeat (destruct Hcases as [->|Hcases]); try subst m;
    simpl; destruct (is_leap y); reflexivity.
Qed.

Lemma days_before_year_step y :
  (1 <= y)%Z ->
  days_before_year (y + 1)
  = (days_before_year y + 365 + (if is_leap y then 1 else 0))%Z.
Proof.
  intros Hy. unfold days_before_year, is_leap.
  replace (y + 1 - 1)%Z with y by lia.
  destruct (y mod 4 =? 0)%Z eqn:H4; destruct (y mod 100 =? 0)%Z eqn:H100;
    destruct (y mod 400 =? 0)%Z eqn:H400; simpl;
    rewrite ?Z.eqb_eq, ?Z.eqb_neq in *;
    Z.div_mod_to_equations; lia.
Qed.

End CalendarFacts.

Section CalendarOrder.
Import Daily Zarr Calendar.

Lemma valid_spec d :
  valid d = true <->
  (1 <= Z.of_nat (year d) <= 9999 /\ 1 <= Z.of_nat (month d) <= 12 /\
   1 <= Z.of_nat (day d)
   <= days_in_month (Z.of_nat (year d)) (Z.of_nat (month d)))%Z.
Proof.
  unfold valid, mk_datetime.
  destruct (_ && _)%bool eqn:Hc; simpl; split; try discriminate; lia.
Qed.

Lemma days_in_month_table y m :
  (1 <= m <= 12)%Z ->
  (days_before_month y m + days_in_month y m = days_before_month y (m + 1))%Z.
Proof.
  intros Hm. rewrite !days_before_month_table by lia.
  unfold days_in_month.
  assert (Hcases : (m = 1 \/ m = 2 \/ m = 3 \/ m = 4 \/ m = 5 \/ m = 6 \/ m = 7
                    \/ m = 8 \/ m = 9 \/ m = 10 \/ m = 11 \/ m = 12)%Z)
    by lia.
  repeat (destruct Hcases as [->|Hcases]); try subst m;
    simpl; destruct (is_leap y); reflexivity.
Qed.

Lemma days_before_month_mono y m m' :
  (1 <= m <= m')%Z -> (m' <= 13)%Z ->
  (days_before_month y m <= days_before_month y m')%Z.
Proof.
  intros Hm Hm'. rewrite !days_before_month_table by lia.
  destruct (is_leap y);
    repeat match goal with
           | |- context [(?a =? ?b)%Z] => destruct (Z.eqb_spec a b)
           | |- context [(?a <? ?b)%Z] => destruct (Z.ltb_spec a b)
           end; simpl; lia.
Qed.

Lemma days_before_year_mono y y' :
  (1 <= y <= y')%Z -> (days_before_year y <= days_before_year y')%Z.
Proof.
  intros Hy. unfold days_before_year. Z.div_mod_to_equations. lia.
Qed.

Lemma days_in_month_pos y m : (28 <= days_in_month y m <= 31)%Z.
Proof.
  unfold days_in_month.
  repeat match goal with
         | |- context [if ?c then _ else _] => destruct c
         end; lia.
Qed.

(** The day after has the next ordinal. *)
Lemma next_day_ordinal d :
  valid d = true -> ordinal (next_day d) = (ordinal d + 1)%Z.
Proof.
  intros Hv. apply valid_spec in Hv as (Hy & Hm & Hd).
  unfold next_day, ordinal.
  destruct (Z.ltb_spec (Z.of_nat (day d))
              (days_in_month (Z.of_nat (year d)) (Z.of_nat (month d))))
    as [Hlt|Hge]; simpl.
  - lia.
  - assert (Hlast : Z.of_nat (day d)
                    = days_in_month (Z.of_nat (year d)) (Z.of_nat (month d)))
      by lia.
    pose proof (days_in_month_table (Z.of_nat (year d)) (Z.of_nat (month d)) Hm)
      as Htab.
    destruct (Nat.ltb_spec (month d) 12) as [Hm12|Hm12]; simpl.
    + replace (Z.of_nat (S (month d))) with (Z.of_nat (month d) + 1)%Z by lia.
      lia.
    + assert (Hdec : Z.of_nat (month d) = 12%Z) by lia.
      rewrite Hdec in *.
      replace (Z.of_nat (S (year d))) with (Z.of_nat (year d) + 1)%Z by lia.
      rewrite days_before_year_step by lia.
      change (Z.of_nat 1) with 1%Z.
      change (days_before_month (Z.of_nat (year d) + 1) 1) with 0%Z.
      rewrite (days_before_month_table (Z.of_nat (year d)) (12 + 1)) in Htab
        by lia.
      simpl in Htab. destruct (is_leap (Z.of_nat (year d))); lia.
Qed.

Lemma next_day_valid d :
  valid d = true -> (Z.of_nat (year d) < 9999)%Z -> valid (next_day d) = true.
Proof.
  intros Hv Hy. apply valid_spec in Hv as (Hy' & Hm & Hd).
  apply valid_spec. unfold next_day.
  destruct (Z.ltb_spec (Z.of_nat (day d))
              (days_in_month (Z.of_nat (year d)) (Z.of_nat (month d))))
    as [Hlt|Hge]; simpl.
  - lia.
  - destruct (Nat.ltb_spec (month d) 12) as [Hm12|Hm12]; simpl.
    + pose proof (days_in_month_pos (Z.of_nat (year d)) (Z.of_nat (S (month d)))).
      lia.
    + pose proof (days_in_month_pos (Z.of_nat (S (year d))) (Z.of_nat 1)).
      lia.
Qed.

(** Dates compare as their ordinals do. *)
Lemma date_leb_ordinal a b :
  valid a = true -> valid b = true ->
  date_leb a b = true <-> (ordinal a <= ordinal b)%Z.
Proof.
  intros Ha Hb.
  apply valid_spec in Ha as (Hya & Hma & Hda).
  apply valid_spec in Hb as (Hyb & Hmb & Hdb).
  assert (Hin : forall y m dd, (1 <= m <= 12)%Z ->
            (1 <= dd <= days_in_month y m)%Z ->
            (days_before_month y m + 1 <= days_before_month y m + dd
             <= days_before_month y (m + 1))%Z).
  { intros y m dd Hm Hdd. rewrite <- days_in_month_table by lia. lia. }
  assert (Hyear : forall y m, (1 <= y)%Z -> (1 <= m <= 13)%Z ->
            (0 <= days_before_month y m
             <= 365 + (if is_leap y then 1 else 0))%Z).
  { intros y m Hy Hm. rewrite days_before_month_table by lia.
    destruct (is_leap y);
      repeat match goal with
             | |- context [(?a =? ?b)%Z] => destruct (Z.eqb_spec a b)
             | |- context [(?a <? ?b)%Z] => destruct (Z.ltb_spec a b)
             end; simpl; lia. }
  unfold date_leb, ordinal.
  pose proof (Hin _ _ _ Hma Hda) as Ia. pose proof (Hin _ _ _ Hmb Hdb) as Ib.
  pose proof (Hyear (Z.of_nat (year a)) (Z.of_nat (month a) + 1)%Z ltac:(lia) ltac:(lia)) as Ya.
  pose proof (Hyear (Z.of_nat (year b)) (Z.of_nat (month b) + 1)%Z ltac:(lia) ltac:(lia)) as Yb.
  pose proof (Hyear (Z.of_nat (year a)) (Z.of_nat (month a)) ltac:(lia) ltac:(lia)) as Ya0.
  pose proof (Hyear (Z.of_nat (year b)) (Z.of_nat (month b)) ltac:(lia) ltac:(lia)) as Yb0.
  destruct (Nat.eqb_spec (year a) (year b)) as [Hy|Hy].
  - rewrite Hy in *.
    destruct (Nat.eqb_spec (month a) (month b)) as [Hm|Hm].
    + rewrite Hm. rewrite Nat.leb_le. lia.
    + rewrite Nat.ltb_lt. split; intros H.
      * pose proof (days_before_month_mono (Z.of_nat (year b))
                      (Z.of_nat (month a) + 1) (Z.of_nat (month b))
                      ltac:(lia) ltac:(lia)). lia.
      * destruct (Nat.lt_ge_cases (month a) (month b)) as [|Hge]; [assumption|].
        exfalso.
        pose proof (days_before_month_mono (Z.of_nat (year b))
                      (Z.of_nat (month b) + 1) (Z.of_nat (month a))
                      ltac:(lia) ltac:(lia)). lia.
  - rewrite Nat.ltb_lt. split; intros H.
    + pose proof (days_before_year_mono (Z.of_nat (year a) + 1)
                    (Z.of_nat (year b)) ltac:(lia)) as Hmono.
      rewrite days_before_year_step in Hmono by lia. lia.
    + destruct (Nat.lt_ge_cases (year a) (year b)) as [|Hge]; [assumption|].
      exfalso.
      pose proof (days_before_year_mono (Z.of_nat (year b) + 1)
                    (Z.of_nat (year a)) ltac:(lia)) as Hmono.
      rewrite days_before_year_step in Hmono by lia. lia.
Qed.

End CalendarOrder.

Section DateRange.
Import Daily Zarr Calendar.

Lemma date_leb_year a b : date_leb a b = true -> year a <= year b.
Proof.
  unfold date_leb. destruct (Nat.eqb_spec (year a) (year b)); [lia|].
  rewrite Nat.ltb_lt. lia.
Qed.

Lemma date_loop_ordinals fuel : forall current end_date,
  valid current = true -> valid end_date = true ->
  (Z.of_nat (year end_date) < 9999)%Z ->
  (ordinal end_date - ordinal current + 1 <= Z.of_nat fuel)%Z ->
  map ordinal (date_loop fuel current end_date)
  = map (fun k => (ordinal current + Z.of_nat k)%Z)
      (seq 0 (Z.to_nat (ordinal end_date - ordinal current + 1))) /\
  Forall (fun d => valid d = true) (date_loop fuel current end_date).
Proof.
  induction fuel as [|fuel IH]; intros current end_date Hc He Hy Hfuel.
  - simpl. replace (Z.to_nat _) with 0 by lia. split; constructor.
  - simpl. destruct (date_leb current end_date) eqn:Hle.
    + pose proof (date_leb_year _ _ Hle) as Hyc.
      apply date_leb_ordinal in Hle; [|assumption..].
      pose proof (next_day_ordinal current Hc) as Hnext.
      destruct (IH (next_day current) end_date) as [Hmap Hall];
        [apply next_day_valid; [assumption|lia]|assumption|assumption|lia|].
      split; [|constructor; assumption].
      replace (Z.to_nat (ordinal end_date - ordinal current + 1))
        with (S (Z.to_nat (ordinal end_date - ordinal (next_day current) + 1)))
        by lia.
      simpl. rewrite Z.add_0_r. f_equal. rewrite Hmap, <- seq_shift, map_map.
      apply map_ext. intros k. lia.
    + apply not_true_iff_false in Hle.
      rewrite date_leb_ordinal in Hle by assumption.
      replace (Z.to_nat _) with 0 by lia. split; constructor.
Qed.

Lemma date_loop_more fuel : forall current end_date,
  valid current = true -> valid end_date = true ->
  (Z.of_nat (year end_date) < 9999)%Z ->
  (ordinal end_date - ordinal current + 1 <= Z.of_nat fuel)%Z ->
  date_loop (S fuel) current end_date = date_loop fuel current end_date.
Proof.
  induction fuel as [|fuel IH]; intros current end_date Hc He Hy Hfuel.
  - simpl. destruct (date_leb current end_date) eqn:Hle; [|reflexivity].
    apply date_leb_ordinal in Hle; [lia|assumption..].
  - change (date_loop (S (S fuel)) current end_date)
      with (if date_leb current end_date
            then current :: date_loop (S fuel) (next_day current) end_date
            else []).
    change (date_loop (S fuel) current end_date)
      with (if date_leb current end_date
            then current :: date_loop fuel (next_day current) end_date
            else []).
    destruct (date_leb current end_date) eqn:Hle; [|reflexivity].
    pose proof (date_leb_year _ _ Hle) as Hyc.
    pose proof (next_day_ordinal current Hc) as Hnext.
    rewrite IH; [reflexivity| | | |]; try assumption; try lia.
    apply next_day_valid; [assumption|lia].
Qed.

(** X2.  For valid dates, the end before the year 9999,
    [generate_date_range] returns the days from the start to the end, one
    per ordinal and all of them valid -- none when the end precedes the
    start -- and the loop stops by itself: more iterations would add
    nothing. *)
Theorem generate_date_range_days start_date end_date :
  valid start_date = true -> valid end_date = true ->
  (Z.of_nat (year end_date) < 9999)%Z ->
  map ordinal (generate_date_range start_date end_date)
  = map (fun k => (ordinal start_date + Z.of_nat k)%Z)
      (seq 0 (Z.to_nat (ordinal end_date - ordinal start_date + 1))) /\
  Forall (fun d => valid d = true) (generate_date_range start_date end_date) /\
  forall extra,
    date_loop (Z.to_nat (ordinal end_date - ordinal start_date + 1) + extra)
      start_date end_date
    = generate_date_range start_date end_date.
Proof.
  intros Hs He Hy. unfold generate_date_range.
  destruct (date_loop_ordinals
              (Z.to_nat (ordinal end_date - ordinal start_date + 1))
              start_date end_date Hs He Hy ltac:(lia)) as [Hmap Hall].
  split; [exact Hmap|]. split; [exact Hall|].
  induction extra as [|extra IH].
  - now rewrite Nat.add_0_r.
  - rewrite Nat.add_succ_r, date_loop_more; [exact IH|assumption..|lia].
Qed.

Definition jan3 : date := Date 2001 1 3.

Lemma generate_date_range_days_witness :
  valid jan1 = true /\ valid jan3 = true /\
  (Z.of_nat (year jan3) < 9999)%Z /\
  map ordinal (generate_date_range jan1 jan3)
  = map (fun k => (ordinal jan1 + Z.of_nat k)%Z)
      (seq 0 (Z.to_nat (ordinal jan3 - ordinal jan1 + 1))) /\
  Forall (fun d => valid d = true) (generate_date_range jan1 jan3) /\
  forall extra,
    date_loop (Z.to_nat (ordinal jan3 - ordinal jan1 + 1) + extra) jan1 jan3
    = generate_date_range jan1 jan3.
Proof.
  split; [reflexivity|]. split; [reflexivity|]. split; [simpl; lia|].
  apply (generate_date_range_days jan1 jan3); [reflexivity|reflexivity|].
  simpl. lia.
Defined.

End DateRange.

(** ** What a run of the daily downloaders does to the output tree *)

Section RunEffects.
Import Daily.

Definition files_written (tr : list event) : nat :=
  length (List.filter
            (fun e => match e with WriteFile _ _ => true | _ => false end) tr).

(** Seconds spent in [time.sleep]. *)
Definition slept (tr : list event) : Z := fold_right Z.add 0%Z (sleeps tr).

(** The destination of a task. *)
Definition dest (output_dir : string) (t : date * string) : string :=
  output_path_of output_dir (fst t) (snd t).

(** An event a run may add when it starts from the tree [files]: a write
    goes to one of [paths], and not over a file that was complete. *)
Definition allowed (files : gmap string Z) (paths : list string) (e : event)
  : Prop :=
  match e with
  | WriteFile p _ => In p paths /\ already_downloaded files p = false
  | _ => True
  end.

Lemma files_written_app l1 l2 :
  files_written (l1 ++ l2) = files_written l1 + files_written l2.
Proof. unfold files_written. now rewrite List.filter_app, length_app. Qed.

Lemma slept_app l1 l2 : slept (l1 ++ l2) = (slept l1 + slept l2)%Z.
Proof.
  unfold slept. rewrite sleeps_app.
  induction (sleeps l1) as [|s l IH]; simpl; [reflexivity|]. rewrite IH. lia.
Qed.

Lemma files_written_backoff url k : forall a,
  files_written (backoff url a k) = 0.
Proof.
  induction k as [|k IH]; intros a; [reflexivity|].
  rewrite backoff_S. unfold files_written in *. simpl. apply IH.
Qed.

Lemma slept_backoff url k : forall a,
  slept (backoff url a k) = (2 ^ Z.of_nat (a + k) - 2 ^ Z.of_nat a)%Z.
Proof.
  induction k as [|k IH]; intros a.
  - rewrite Nat.add_0_r. unfold slept. simpl. lia.
  - rewrite backoff_S.
    change (slept (Request url :: Sleep (2 ^ Z.of_nat a) :: backoff url (S a) k))
      with (2 ^ Z.of_nat a + slept (backoff url (S a) k))%Z.
    rewrite IH. replace (a + S k) with (S a + k) by lia.
    replace (Z.of_nat (S a)) with (Z.of_nat a + 1)%Z by lia.
    rewrite Z.pow_add_r by lia. lia.
Qed.

Lemma requests_to_backoff_same url k : forall a,
  requests_to url (backoff url a k) = k.
Proof.
  induction k as [|k IH]; intros a; [reflexivity|].
  rewrite backoff_S. unfold requests_to in *. simpl.
  rewrite String.eqb_refl. simpl. now rewrite IH.
Qed.

Lemma requests_to_same url tl :
  requests_to url (Request url :: tl) = S (requests_to url tl).
Proof. unfold requests_to. simpl. now rewrite String.eqb_refl. Qed.

Lemma requests_to_other url other tl :
  other <> url -> requests_to url (Request other :: tl) = requests_to url tl.
Proof.
  intros Hne. unfold requests_to. simpl.
  now rewrite (proj2 (String.eqb_neq other url) Hne).
Qed.

Lemma allowed_backoff files paths url k : forall a,
  Forall (allowed files paths) (backoff url a k).
Proof.
  induction k as [|k IH]; intros a; [constructor|].
  rewrite backoff_S. repeat constructor. apply IH.
Qed.

Lemma allowed_weaken files files' paths paths' e :
  (forall p, In p paths -> In p paths') ->
  (forall p, already_downloaded files' p = true ->
             already_downloaded files p = true) ->
  allowed files paths e -> allowed files' paths' e.
Proof.
  intros Hp Hv. destruct e as [u|s|p size]; simpl; auto.
  intros [Hin Hnv]. split; [now apply Hp|].
  destruct (already_downloaded files' p) eqn:E; [|reflexivity].
  apply Hv in E. congruence.
Qed.

Lemma slept_backoff_bound url k :
  k < 3 -> (0 <= slept (backoff url 0 k) <= 3)%Z.
Proof.
  intros Hk. destruct k as [|[|[|k]]]; [| | |lia]; cbn; lia.
Qed.

Lemma slept_request url tl : slept (Request url :: tl) = slept tl.
Proof. reflexivity. Qed.

Lemma slept_write p size tl : slept (WriteFile p size :: tl) = slept tl.
Proof. reflexivity. Qed.

Lemma slept_nil : slept [] = 0%Z.
Proof. reflexivity. Qed.

Lemma requests_request url tl : requests (Request url :: tl) = S (requests tl).
Proof. reflexivity. Qed.

Lemma requests_write p size tl : requests (WriteFile p size :: tl) = requests tl.
Proof. reflexivity. Qed.

Lemma requests_nil : requests [] = 0.
Proof. reflexivity. Qed.

Ltac count_requests :=
  cbn [app];
  repeat (rewrite requests_app || rewrite requests_backoff
          || rewrite requests_request || rewrite requests_write
          || rewrite requests_nil);
  cbn [app].

Lemma files_written_request url tl :
  files_written (Request url :: tl) = files_written tl.
Proof. reflexivity. Qed.

Lemma files_written_write p size tl :
  files_written (WriteFile p size :: tl) = S (files_written tl).
Proof. reflexivity. Qed.

Ltac count_writes :=
  cbn [app];
  repeat (rewrite files_written_app || rewrite files_written_backoff
          || rewrite files_written_request || rewrite files_written_write);
  cbn [app].

Ltac slept_tail := rewrite ?slept_request, ?slept_write, ?slept_nil.

Variable net : string -> nat -> response.
Variable output_dir : string.

(** The effect of one task. *)
Lemma task_effect d v w :
  exists new,
    trace (snd (download_date_variable net output_dir d v w)) = trace w ++ new /\
    requests new <= 6 /\
    requests_to (build_url v d false) new <= 3 /\
    requests_to (build_url v d true) new <= 3 /\
    (0 <= slept new <= 6)%Z /\
    files_written new
    = (if is_new_download (fst (download_date_variable net output_dir d v w))
       then 1 else 0) /\
    Forall (allowed (fs w) [output_path_of output_dir d v]) new /\
    (forall p, p <> output_path_of output_dir d v ->
       fs (snd (download_date_variable net output_dir d v w)) !! p = fs w !! p) /\
    (forall p, is_Some (fs w !! p) ->
       is_Some (fs (snd (download_date_variable net output_dir d v w)) !! p)).
Proof.
  pose proof (download_date_variable_outcome net output_dir d v w) as Hout.
  pose proof (urls_differ v d) as Hne.
  assert (Hne' : build_url v d true <> build_url v d false) by congruence.
  destruct (download_date_variable net output_dir d v w) as [r w'].
  inversion Hout as [Hv|k size Hnv Hk Hb|k msg Hnv Hk Hmsg H404
                    |k msg k' size Hnv Hk Hmsg H404 Hk' Hb
                    |k msg k' msg' Hnv Hk Hmsg H404 Hk' Hmsg'];
    subst r w'; cbn [fst snd fs trace].
  - exists []. rewrite app_nil_r. repeat split; try (cbn; lia); auto.
  - eexists. split; [reflexivity|].
    pose proof (slept_backoff_bound (build_url v d false) k Hk).
    repeat split.
    + count_requests. lia.
    + rewrite requests_to_app, requests_to_backoff_same, requests_to_same.
      cbn. lia.
    + rewrite requests_to_app, requests_to_backoff_other, requests_to_other
        by assumption. cbn. lia.
    + rewrite slept_app. slept_tail. unfold build_url in *. lia.
    + rewrite slept_app. slept_tail. unfold build_url in *. lia.
    + count_writes. reflexivity.
    + apply Forall_app. split; [apply allowed_backoff|].
      repeat constructor. exact Hnv.
    + intros p Hp. now rewrite lookup_insert_ne.
    + intros p Hp. apply lookup_insert_is_Some'. now right.
  - eexists. split; [reflexivity|].
    pose proof (slept_backoff_bound (build_url v d false) k Hk).
    repeat split; auto.
    + count_requests. lia.
    + rewrite requests_to_app, requests_to_backoff_same, requests_to_same.
      cbn. lia.
    + rewrite requests_to_app, requests_to_backoff_other, requests_to_other
        by assumption. cbn. lia.
    + rewrite slept_app. slept_tail. unfold build_url in *. lia.
    + rewrite slept_app. slept_tail. unfold build_url in *. lia.
    + count_writes. reflexivity.
    + apply Forall_app. split; [apply allowed_backoff|]. repeat constructor.
  - eexists. split; [reflexivity|].
    pose proof (slept_backoff_bound (build_url v d false) k Hk).
    pose proof (slept_backoff_bound (build_url v d true) k' Hk').
    repeat split.
    + count_requests. count_requests. lia.
    + rewrite requests_to_app, requests_to_backoff_same. cbn [app].
      rewrite requests_to_same, requests_to_app,
        requests_to_backoff_other, requests_to_other by assumption.
      cbn. lia.
    + rewrite requests_to_app, requests_to_backoff_other by assumption.
      cbn [app]. rewrite requests_to_other by assumption.
      rewrite requests_to_app, requests_to_backoff_same, requests_to_same.
      cbn. lia.
    + rewrite !slept_app. cbn [app]. slept_tail. rewrite !slept_app.
      slept_tail. unfold build_url in *. lia.
    + rewrite !slept_app. cbn [app]. slept_tail. rewrite !slept_app.
      slept_tail. unfold build_url in *. lia.
    + count_writes. count_writes. reflexivity.
    + apply Forall_app. split; [apply allowed_backoff|].
      constructor; [exact I|].
      apply Forall_app. split; [apply allowed_backoff|].
      repeat constructor. exact Hnv.
    + intros p Hp. now rewrite lookup_insert_ne.
    + intros p Hp. apply lookup_insert_is_Some'. now right.
  - eexists. split; [reflexivity|].
    pose proof (slept_backoff_bound (build_url v d false) k Hk).
    pose proof (slept_backoff_bound (build_url v d true) k' Hk').
    repeat split; auto.
    + count_requests. count_requests. lia.
    + rewrite requests_to_app, requests_to_backoff_same. cbn [app].
      rewrite requests_to_same, requests_to_app,
        requests_to_backoff_other, requests_to_other by assumption.
      cbn. lia.
    + rewrite requests_to_app, requests_to_backoff_other by assumption.
      cbn [app]. rewrite requests_to_other by assumption.
      rewrite requests_to_app, requests_to_backoff_same, requests_to_same.
      cbn. lia.
    + rewrite !slept_app. cbn [app]. slept_tail. rewrite !slept_app.
      slept_tail. unfold build_url in *. lia.
    + rewrite !slept_app. cbn [app]. slept_tail. rewrite !slept_app.
      slept_tail. unfold build_url in *. lia.
    + count_writes. count_writes. reflexivity.
    + apply Forall_app. split; [apply allowed_backoff|].
      constructor; [exact I|].
      apply Forall_app. split; [apply allowed_backoff|].
      repeat constructor.
Qed.


Lemma task_keeps_complete d v w p :
  already_downloaded (fs w) p = true ->
  fs (snd (download_date_variable net output_dir d v w)) !! p = fs w !! p.
Proof.
  intros Hv. destruct (decide (p = output_path_of output_dir d v)) as [->|Hne].
  - now rewrite (download_already net output_dir d v w Hv).
  - destruct (task_effect d v w) as (new & _ & _ & _ & _ & _ & _ & _ & Hframe & _).
    now apply Hframe.
Qed.

Lemma already_downloaded_lookup files files' p :
  files' !! p = files !! p ->
  already_downloaded files' p = already_downloaded files p.
Proof. unfold already_downloaded. now intros ->. Qed.

(** The effect of a whole run. *)
Lemma run_tasks_effect tasks : forall w,
  exists new,
    trace (snd (run_tasks net output_dir tasks w)) = trace w ++ new /\
    length (fst (run_tasks net output_dir tasks w)) = length tasks /\
    requests new <= 6 * length tasks /\
    (0 <= slept new <= 6 * Z.of_nat (length tasks))%Z /\
    files_written new
    = length (List.filter is_new_download
                (fst (run_tasks net output_dir tasks w))) /\
    Forall (allowed (fs w) (map (dest output_dir) tasks)) new /\
    (forall p, already_downloaded (fs w) p = true ->
       fs (snd (run_tasks net output_dir tasks w)) !! p = fs w !! p) /\
    (forall p, ~ In p (map (dest output_dir) tasks) ->
       fs (snd (run_tasks net output_dir tasks w)) !! p = fs w !! p) /\
    (forall p, is_Some (fs w !! p) ->
       is_Some (fs (snd (run_tasks net output_dir tasks w)) !! p)).
Proof.
  induction tasks as [|[d v] rest IH]; intros w.
  - exists []. simpl. rewrite app_nil_r.
    repeat split; auto; try reflexivity; try lia.
  - cbn [run_tasks].
    destruct (task_effect d v w)
      as (new1 & Htr1 & Hreq1 & _ & _ & Hsl1 & Hwr1 & Hal1 & Hfr1 & Hkeep1).
    pose proof (task_keeps_complete d v w) as Hval1.
    destruct (download_date_variable net output_dir d v w) as [r w1].
    cbn [fst snd] in *.
    destruct (IH w1)
      as (new2 & Htr2 & Hlen2 & Hreq2 & Hsl2 & Hwr2 & Hal2 & Hval2 & Hfr2 & Hkeep2).
    destruct (run_tasks net output_dir rest w1) as [rs w2].
    cbn [fst snd] in *.
    exists (new1 ++ new2).
    assert (Hv1 : forall p, already_downloaded (fs w) p = true ->
                            already_downloaded (fs w1) p = true).
    { intros p Hp. rewrite <- Hp. apply already_downloaded_lookup.
      now apply Hval1. }
    split; [now rewrite Htr2, Htr1, <- app_assoc|].
    split; [simpl; lia|].
    split; [rewrite requests_app; simpl length; lia|].
    split; [rewrite slept_app; simpl length; lia|].
    split.
    { rewrite files_written_app, Hwr1, Hwr2. simpl.
      now destruct (is_new_download r). }
    split.
    { apply Forall_app. split.
      - eapply Forall_impl; [exact Hal1|]. intros e.
        apply allowed_weaken; [|auto].
        intros p [<-|[]]. now left.
      - eapply Forall_impl; [exact Hal2|]. intros e.
        apply allowed_weaken; [|exact Hv1].
        intros p Hp. now right. }
    split.
    { intros p Hp. rewrite Hval2 by now apply Hv1. now apply Hval1. }
    split.
    { intros p Hp. simpl in Hp. rewrite Hfr2 by tauto.
      apply Hfr1. intros ->. apply Hp. now left. }
    intros p Hp. apply Hkeep2, Hkeep1, Hp.
Qed.



End RunEffects.

(** ** Running again after a run *)

Section RerunFacts.
Import Daily.

(** The destination of a task is fixed by the two labels its result
    carries. *)
Lemma dest_of_labels output_dir d d' v :
  date_str d = date_str d' ->
  output_path_of output_dir d v = output_path_of output_dir d' v.
Proof. intros H. unfold output_path_of, filename_of. now rewrite H. Qed.

Lemma Forall2_In_r {A B} (P : A -> B -> Prop) l k y :
  Forall2 P l k -> In y k -> exists x, In x l /\ P x y.
Proof.
  induction 1 as [|x y' l k Hxy _ IH]; intros Hin; [destruct Hin|].
  destruct Hin as [->|Hin].
  - exists x. split; [now left|exact Hxy].
  - destruct (IH Hin) as (x' & Hx' & HP). exists x'. split; [now right|exact HP].
Qed.

(** A remote end whose bodies all pass the size test of [download_file]. *)
Definition serves_complete_files (net : string -> nat -> response) : Prop :=
  forall url k size, net url k = Body size -> (1000 < size)%Z.

Variable net : string -> nat -> response.
Variable output_dir : string.

Lemma task_labels d v w :
  r_date (fst (download_date_variable net output_dir d v w)) = date_str d /\
  r_variable (fst (download_date_variable net output_dir d v w)) = v.
Proof.
  pose proof (download_date_variable_outcome net output_dir d v w) as Hout.
  destruct (download_date_variable net output_dir d v w) as [r w'].
  inversion Hout; subst r w'; now split.
Qed.

Lemma task_success_complete d v w :
  serves_complete_files net ->
  success (fst (download_date_variable net output_dir d v w)) = true ->
  already_downloaded (fs (snd (download_date_variable net output_dir d v w)))
    (output_path_of output_dir d v) = true.
Proof.
  intros Hbig.
  pose proof (download_date_variable_outcome net output_dir d v w) as Hout.
  destruct (download_date_variable net output_dir d v w) as [r w'].
  inversion Hout as [Hv|k size Hnv Hk Hb|k msg Hnv Hk Hmsg H404
                    |k msg k' size Hnv Hk Hmsg H404 Hk' Hb
                    |k msg k' msg' Hnv Hk Hmsg H404 Hk' Hmsg'];
    subst r w'; cbn [fst snd fs success result_of]; try discriminate;
    intros _; try assumption;
    apply already_downloaded_spec; exists size;
    (split; [apply lookup_insert_eq|exact (Hbig _ _ _ Hb)]).
Qed.

(** Each result of a run against the task it belongs to. *)
Lemma run_tasks_results tasks : forall w,
  Forall2
    (fun t r =>
       r_date r = date_str (fst t) /\ r_variable r = snd t /\
       (already_downloaded (fs w) (dest output_dir t) = true ->
        is_skipped r = true /\ message r = "Already downloaded") /\
       (serves_complete_files net -> success r = true ->
        already_downloaded (fs (snd (run_tasks net output_dir tasks w)))
          (dest output_dir t) = true))
    tasks (fst (run_tasks net output_dir tasks w)).
Proof.
  induction tasks as [|[d v] rest IH]; intros w; [constructor|].
  cbn [run_tasks].
  pose proof (task_labels d v w) as [Hd Hvar].
  pose proof (task_success_complete d v w) as Hdone.
  pose proof (task_keeps_complete net output_dir d v w) as Hkeep.
  pose proof (download_already net output_dir d v w) as Halr.
  destruct (download_date_variable net output_dir d v w) as [r w1].
  cbn [fst snd] in *.
  specialize (IH w1).
  destruct (run_tasks_effect net output_dir rest w1)
    as (_ & _ & _ & _ & _ & _ & _ & Hval & _).
  destruct (run_tasks net output_dir rest w1) as [rs w2].
  cbn [fst snd] in *.
  constructor.
  - split; [exact Hd|]. split; [exact Hvar|]. split.
    + intros Hv. unfold dest in Hv. cbn [fst snd] in Hv.
      specialize (Halr Hv). injection Halr as -> _. now split.
    + intros Hbig Hs. unfold dest. cbn [fst snd].
      rewrite (already_downloaded_lookup (fs w1) (fs w2)); [now apply Hdone|].
      apply Hval. now apply Hdone.
  - eapply Forall2_impl; [exact IH|].
    intros t r' (Hd' & Hv' & Hskip & Hend).
    split; [exact Hd'|]. split; [exact Hv'|]. split; [|exact Hend].
    intros Hv. apply Hskip. rewrite <- Hv.
    apply already_downloaded_lookup. now apply Hkeep.
Qed.

End RerunFacts.

Section Rerun.
Import Daily.

(** X5.  Resuming: when the remote end serves only bodies of more than
    1000 bytes, every task a run reported as successful is skipped by any
    later run started from the tree the first one left -- whatever the
    remote end does then and whatever other dates or variables the later
    run covers. *)
Theorem rerun_skips_fetched net net' output_dir dates variables dates' variables'
  w r1 r2 :
  serves_complete_files net ->
  In r1 (fst (download_range net output_dir dates variables w)) ->
  In r2 (fst (download_range net' output_dir dates' variables'
                (snd (download_range net output_dir dates variables w)))) ->
  r_date r1 = r_date r2 -> r_variable r1 = r_variable r2 ->
  success r1 = true ->
  is_skipped r2 = true /\ message r2 = "Already downloaded".
Proof.
  intros Hbig Hin1 Hin2 Hdate Hvar Hs. unfold download_range in *.
  destruct (Forall2_In_r _ _ _ _
              (run_tasks_results net output_dir (tasks_of dates variables) w) Hin1)
    as ([d1 v1] & _ & Hd1 & Hv1 & _ & Hend).
  specialize (Hend Hbig Hs). unfold dest in Hend. cbn [fst snd] in *.
  set (w1 := snd (run_tasks net output_dir (tasks_of dates variables) w)) in *.
  pose proof (run_tasks_results net' output_dir (tasks_of dates' variables') w1)
    as H2.
  destruct (Forall2_In_r _ _ _ _ H2 Hin2)
    as ([d2 v2] & _ & Hd2 & Hv2 & Hskip & _).
  unfold dest in Hskip. cbn [fst snd] in *.
  apply Hskip.
  assert (v2 = v1) as -> by congruence.
  rewrite (dest_of_labels output_dir d2 d1 v1) by congruence.
  exact Hend.
Qed.

(** A remote end that serves every file, 2048 bytes each. *)
Definition net_2k (url : string) (attempt : nat) : response := Body 2048.

Definition tmin_jan1_path : string :=
  "out/tmin/PRISM_tmin_stable_4kmD2_20010101_bil.zip".

Lemma rerun_skips_fetched_witness :
  serves_complete_files net_2k /\
  In (FetchResult "20010101" "tmin" true "Success" (Some tmin_jan1_path))
    (fst (download_range net_2k "out" [jan1] ["tmin"] empty_world)) /\
  In (FetchResult "20010101" "tmin" true "Already downloaded"
        (Some tmin_jan1_path))
    (fst (download_range net_500 "out" [jan1] ["tmin"]
            (snd (download_range net_2k "out" [jan1] ["tmin"] empty_world)))) /\
  is_skipped (FetchResult "20010101" "tmin" true "Already downloaded"
                (Some tmin_jan1_path)) = true /\
  message (FetchResult "20010101" "tmin" true "Already downloaded"
             (Some tmin_jan1_path)) = "Already downloaded".
Proof.
  split; [intros url k size H; injection H as <-; lia|].
  split; [vm_compute; now left|].
  split; [vm_compute; now left|].
  apply (rerun_skips_fetched net_2k net_500 "out" [jan1] ["tmin"] [jan1] ["tmin"]
           empty_world
           (FetchResult "20010101" "tmin" true "Success" (Some tmin_jan1_path))
           (FetchResult "20010101" "tmin" true "Already downloaded"
              (Some tmin_jan1_path)));
    [intros url k size H; injection H as <-; lia
    |vm_compute; now left|vm_compute; now left
    |reflexivity|reflexivity|reflexivity].
Defined.

End Rerun.

(** ** [download_range] of [download_daily_all_2001_2024.py], from the
    two dates on *)

Module DailyAll.
Import Daily Calendar.

(** The keys of [self.variables], in insertion order. *)
Definition variables : list string :=
  ["tmin"; "tmax"; "tmean"; "ppt"; "tdmean"; "vpdmin"; "vpdmax"].

(** The call returns its results, or the banner's [self.variables[var]]
    raises a [KeyError] before any task is submitted. *)
Inductive outcome :=
| Returned (results : list fetch_result) (w : world)
| KeyError (variable : string).

Section DownloadRange.
Variable net : string -> nat -> response.
Variable output_dir : string.
(** The size of the log written at the end (its text holds the time of
    day). *)
Variable log_size : Z.

(** [variables if variables else list(self.variables.keys())]: [None]
    and the empty list both select every variable. *)
Definition vars_to_download (requested : list string) : list string :=
  match requested with [] => variables | _ => requested end.

Definition log_file : string := output_dir +:+ "/download_log.txt".

Definition download_range (start_date end_date : date)
  (requested : list string) (w : world) : outcome :=
  let vars := vars_to_download requested in
  let dates := generate_date_range start_date end_date in
  match List.find (fun var => negb (existsb (String.eqb var) variables)) vars with
  | Some var => KeyError var
  | None =>
      let '(results, w') := Daily.download_range net output_dir dates vars w in
      Returned results (write_file log_file log_size w')
  end.

End DownloadRange.
End DailyAll.

Section DownloadRangeFacts.
Import Daily Calendar DailyAll.

Lemma known_variable var :
  existsb (String.eqb var) variables = true <-> In var variables.
Proof.
  rewrite existsb_exists. split.
  - intros (x & Hx & Heq). apply String.eqb_eq in Heq. now subst.
  - intros H. exists var. split; [exact H|apply String.eqb_refl].
Qed.

Lemma find_unknown vars :
  match List.find (fun var => negb (existsb (String.eqb var) variables)) vars with
  | Some var => In var vars /\ ~ In var variables
  | None => Forall (fun var => In var variables) vars
  end.
Proof.
  induction vars as [|v vars IH]; cbn [List.find]; [constructor|].
  destruct (existsb (String.eqb v) variables) eqn:E; cbn [negb].
  - destruct (List.find _ vars) as [var|].
    + destruct IH as [Hin Hun]. split; [now right|exact Hun].
    + constructor; [now apply known_variable|exact IH].
  - split; [now left|]. intros Hin. apply known_variable in Hin. congruence.
Qed.

Lemma tasks_of_length (dates : list date) (vars : list string) :
  length (tasks_of dates vars) = length dates * length vars.
Proof.
  unfold tasks_of. induction dates as [|d dates IH]; [reflexivity|].
  simpl. rewrite length_app, length_map, IH. reflexivity.
Qed.

Lemma generate_date_range_length start_date end_date :
  valid start_date = true -> valid end_date = true ->
  (Z.of_nat (year end_date) < 9999)%Z ->
  length (generate_date_range start_date end_date)
  = Z.to_nat (ordinal end_date - ordinal start_date + 1).
Proof.
  intros Hs He Hy. unfold generate_date_range.
  destruct (date_loop_ordinals
              (Z.to_nat (ordinal end_date - ordinal start_date + 1))
              start_date end_date Hs He Hy ltac:(lia)) as [Hmap _].
  apply (f_equal (@length Z)) in Hmap.
  now rewrite !length_map, length_seq in Hmap.
Qed.

(** The three counts of the summary. *)
Lemma summary_counts (rs : list fetch_result) :
  length (List.filter is_new_download rs) + length (List.filter is_skipped rs)
  + length (List.filter is_failed rs) = length rs.
Proof.
  induction rs as [|r rs IH]; [reflexivity|].
  unfold is_new_download, is_skipped, is_failed in *. simpl.
  destruct (success r), (Py.str_in "Already" (message r)); simpl; lia.
Qed.

Lemma Forall2_labels {A B C} (f : B -> C) (g : A -> C) l k :
  Forall2 (fun t r => f r = g t) l k -> map f k = map g l.
Proof. induction 1; simpl; congruence. Qed.

(** X6.  [download_range] over valid dates: when every variable to
    download is one of the seven known ones (an empty request selects all
    seven) the call returns one result per day of the range and variable,
    each labelled with its day and variable, and the three counts of the
    summary -- newly downloaded, skipped, failed -- add up to that number;
    when some variable is not known the call raises a [KeyError] for an
    unknown variable instead, before any download. *)
Theorem download_range_results net output_dir log_size start_date end_date
  requested w :
  valid start_date = true -> valid end_date = true ->
  (Z.of_nat (year end_date) < 9999)%Z ->
  (requested = [] -> vars_to_download requested = variables) /\
  (Forall (fun var => In var variables) (vars_to_download requested) ->
   exists results w',
     download_range net output_dir log_size start_date end_date requested w
     = Returned results w' /\
     length results
     = Z.to_nat (ordinal end_date - ordinal start_date + 1)
       * length (vars_to_download requested) /\
     length (List.filter is_new_download results)
     + length (List.filter is_skipped results)
     + length (List.filter is_failed results) = length results /\
     map (fun r => (r_date r, r_variable r)) results
     ≡ₚ map (fun t => (date_str (fst t), snd t))
          (tasks_of (generate_date_range start_date end_date)
             (vars_to_download requested))) /\
  (~ Forall (fun var => In var variables) (vars_to_download requested) ->
   exists var,
     download_range net output_dir log_size start_date end_date requested w
     = KeyError var /\
     In var (vars_to_download requested) /\ ~ In var variables).
Proof.
  intros Hs He Hy. split; [now intros ->|].
  unfold download_range.
  pose proof (find_unknown (vars_to_download requested)) as Hfind.
  destruct (List.find _ (vars_to_download requested)) as [var|].
  - destruct Hfind as [Hin Hun]. split.
    + intros Hall. exfalso. apply Hun.
      exact (proj1 (List.Forall_forall _ _) Hall var Hin).
    + intros _. exists var. auto.
  - split; [|intros Hn; now destruct Hn].
    intros _. unfold Daily.download_range.
    set (tasks := tasks_of (generate_date_range start_date end_date)
                    (vars_to_download requested)).
    pose proof (run_tasks_results net output_dir tasks w) as Hres.
    destruct (run_tasks_effect net output_dir tasks w)
      as (_ & _ & Hlen & _).
    destruct (run_tasks net output_dir tasks w) as [rs w'].
    cbn [fst snd] in *.
    exists rs, (write_file (log_file output_dir) log_size w').
    split; [reflexivity|]. split.
    { rewrite Hlen. unfold tasks.
      now rewrite tasks_of_length, generate_date_range_length. }
    split; [apply summary_counts|].
    erewrite (Forall2_labels (fun r => (r_date r, r_variable r))
                (fun t => (date_str (fst t), snd t))); [reflexivity|].
    eapply Forall2_impl; [exact Hres|].
    intros t r (Hd & Hv & _). now rewrite Hd, Hv.
Qed.

Lemma download_range_results_witness :
  valid jan1 = true /\ valid jan3 = true /\
  (Z.of_nat (year jan3) < 9999)%Z /\
  (["tmin"] = [] -> vars_to_download ["tmin"] = variables) /\
  (Forall (fun var => In var variables) (vars_to_download ["tmin"]) ->
   exists results w',
     download_range net_404 "out" 512 jan1 jan3 ["tmin"] empty_world
     = Returned results w' /\
     length results
     = Z.to_nat (ordinal jan3 - ordinal jan1 + 1)
       * length (vars_to_download ["tmin"]) /\
     length (List.filter is_new_download results)
     + length (List.filter is_skipped results)
     + length (List.filter is_failed results) = length results /\
     map (fun r => (r_date r, r_variable r)) results
     ≡ₚ map (fun t => (date_str (fst t), snd t))
          (tasks_of (generate_date_range jan1 jan3)
             (vars_to_download ["tmin"]))) /\
  (~ Forall (fun var => In var variables) (vars_to_download ["tmin"]) ->
   exists var,
     download_range net_404 "out" 512 jan1 jan3 ["tmin"] empty_world
     = KeyError var /\
     In var (vars_to_download ["tmin"]) /\ ~ In var variables).
Proof.
  split; [reflexivity|]. split; [reflexivity|]. split; [simpl; lia|].
  apply (download_range_results net_404 "out" 512 jan1 jan3 ["tmin"] empty_world);
    [reflexivity|reflexivity|simpl; lia].
Defined.

End DownloadRangeFacts.

(** ** The retry loop for any number of attempts *)

Section AnyRetries.
Import Daily.

(** X7.  [download_file] with [max_retries] attempts allowed.  With
    none allowed it reports 'Max retries exceeded' without looking at the
    destination or asking the remote end.  With at least one, and a
    destination that is not complete yet, it makes [k + 1 <= max_retries]
    requests, the first [k] of them met by transient errors; it sleeps 1,
    2, 4, ... seconds between them, [2^k - 1] seconds in all; and it ends
    on a fetched body, written to the destination, or on the failure of
    request [k], with the tree as it was. *)
Theorem download_file_any_retries net url output_path w :
  download_file net url output_path 0 w = ((false, "Max retries exceeded"), w) /\
  forall max_retries,
    0 < max_retries ->
    already_downloaded (fs w) output_path = false ->
    exists k new,
      k < max_retries /\
      (forall i, i < k -> transient (net url i)) /\
      trace (snd (download_file net url output_path max_retries w))
      = trace w ++ new /\
      requests new = k + 1 /\
      sleeps new = map (fun i => (2 ^ Z.of_nat i)%Z) (seq 0 k) /\
      slept new = (2 ^ Z.of_nat k - 1)%Z /\
      ((exists size,
          net url k = Body size /\
          fst (download_file net url output_path max_retries w)
          = (true, "Success") /\
          fs (snd (download_file net url output_path max_retries w))
          = <[output_path := size]> (fs w) /\
          files_written new = 1)
       \/
       (exists msg,
          failure_at max_retries k (net url k) = Some msg /\
          fst (download_file net url output_path max_retries w) = (false, msg) /\
          fs (snd (download_file net url output_path max_retries w)) = fs w /\
          files_written new = 0)).
Proof.
  split; [reflexivity|]. intros mr Hmr Hnv.
  destruct (download_file_ending net url output_path mr w Hmr Hnv)
    as (k & Hk & Hretried & He).
  assert (Htrans : forall i, i < k -> transient (net url i)).
  { intros i Hi. eapply retried_transient. now apply Hretried. }
  assert (Hsl : forall tl, sleeps tl = [] ->
            sleeps (backoff url 0 k ++ tl)
            = map (fun i => (2 ^ Z.of_nat i)%Z) (seq 0 k)).
  { intros tl Htl. now rewrite sleeps_app, sleeps_backoff, Htl, app_nil_r. }
  assert (Hslept : forall tl, slept tl = 0%Z ->
            slept (backoff url 0 k ++ tl) = (2 ^ Z.of_nat k - 1)%Z).
  { intros tl Htl. rewrite slept_app, slept_backoff, Htl. simpl. lia. }
  destruct He as [Hkn _ _ _|msg _ Hmsg Hres Hfs Htr|size _ Hb Hres Hfs Htr];
    [lia| |]; simpl in Hmsg || simpl in Hb.
  - exists k, (backoff url 0 k ++ [Request url]).
    split; [exact Hk|]. split; [exact Htrans|]. split; [exact Htr|].
    split; [rewrite requests_app, requests_backoff; reflexivity|].
    split; [now apply Hsl|]. split; [now apply Hslept|].
    right. exists msg. split; [exact Hmsg|]. split; [exact Hres|].
    split; [exact Hfs|].
    now rewrite files_written_app, files_written_backoff.
  - exists k, (backoff url 0 k ++ [Request url; WriteFile output_path size]).
    split; [exact Hk|]. split; [exact Htrans|]. split; [exact Htr|].
    split; [rewrite requests_app, requests_backoff; reflexivity|].
    split; [now apply Hsl|]. split; [now apply Hslept|].
    left. exists size. split; [exact Hb|]. split; [exact Hres|].
    split; [exact Hfs|].
    now rewrite files_written_app, files_written_backoff.
Qed.

End AnyRetries.

(** ** The retry loop of the bulk downloader *)

Section BulkRetry.
Import Bulk.

Definition bulk_sleeps (tr : list event) : list Z :=
  omap (fun e => match e with Sleep s => Some s | _ => None end) tr.

(** [k] rounds of request and back-off, starting at attempt [a]. *)
Definition bulk_backoff (url : string) (a k : nat) : list event :=
  flat_map (fun i => [Request url; Sleep (2 ^ Z.of_nat i)]) (seq a k).

Lemma bulk_backoff_S url a k :
  bulk_backoff url a (S k)
  = Request url :: Sleep (2 ^ Z.of_nat a) :: bulk_backoff url (S a) k.
Proof. reflexivity. Qed.

Lemma bulk_requests_app l1 l2 :
  requests (l1 ++ l2) = requests l1 + requests l2.
Proof. unfold requests. now rewrite List.filter_app, length_app. Qed.

Lemma bulk_requests_backoff url k : forall a,
  requests (bulk_backoff url a k) = k.
Proof.
  induction k as [|k IH]; intros a; [reflexivity|].
  rewrite bulk_backoff_S. unfold requests in *. simpl. now rewrite IH.
Qed.

Lemma bulk_sleeps_app l1 l2 :
  bulk_sleeps (l1 ++ l2) = bulk_sleeps l1 ++ bulk_sleeps l2.
Proof. unfold bulk_sleeps. apply omap_app. Qed.

Lemma bulk_sleeps_backoff url k : forall a,
  bulk_sleeps (bulk_backoff url a k) = map (fun i => (2 ^ Z.of_nat i)%Z) (seq a k).
Proof.
  induction k as [|k IH]; intros a; [reflexivity|].
  rewrite bulk_backoff_S. unfold bulk_sleeps in *. simpl. now rewrite IH.
Qed.

Variable net : string -> nat -> response.
Variables (url output_path : string) (retries : nat).

(** How the loop ends after [k] rounds of back-off. *)
Inductive bulk_ending (a k : nat) (w : world) (r : bool * world) : Prop :=
| BulkRetrieved size :
    net url (a + k) = Retrieved size ->
    fst r = true ->
    fs (snd r) = <[output_path := size]> (fs w) ->
    trace (snd r)
    = trace w ++ bulk_backoff url a k ++ [Request url; WriteFile output_path size] ->
    bulk_ending a k w r
| BulkUnexpected :
    net url (a + k) = Unexpected ->
    fst r = false ->
    trace (snd r) = trace w ++ bulk_backoff url a k ++ [Request url] ->
    bulk_ending a k w r
| BulkGaveUp :
    net url (a + k) = URLError -> a + k = retries - 1 ->
    fst r = false ->
    trace (snd r) = trace w ++ bulk_backoff url a k ++ [Request url] ->
    bulk_ending a k w r.

Lemma bulk_ending_retry a k w w1 r :
  fs w1 = fs w ->
  trace w1 = trace w ++ [Request url; Sleep (2 ^ Z.of_nat a)] ->
  bulk_ending (S a) k w1 r -> bulk_ending a (S k) w r.
Proof.
  intros Hfs Htr He.
  assert (Happ : forall tl, trace w1 ++ bulk_backoff url (S a) k ++ tl
                            = trace w ++ bulk_backoff url a (S k) ++ tl).
  { intros tl. rewrite Htr, bulk_backoff_S, <- app_assoc. reflexivity. }
  assert (Hidx : S a + k = a + S k) by lia.
  destruct He as [size Hn Hr Hf Ht|Hn Hr Ht|Hn Hl Hr Ht]; rewrite Hidx in Hn.
  - apply (BulkRetrieved _ _ _ _ size); [exact Hn|exact Hr| |].
    + now rewrite Hf, Hfs.
    + rewrite Ht. apply Happ.
  - apply BulkUnexpected; [exact Hn|exact Hr|]. rewrite Ht. apply Happ.
  - apply BulkGaveUp; [exact Hn|lia|exact Hr|]. rewrite Ht. apply Happ.
Qed.

Lemma bulk_attempts_ending n : forall a w,
  0 < n -> a + n = retries ->
  exists k,
    k < n /\
    (forall i, a <= i < a + k -> net url i = URLError) /\
    bulk_ending a k w (attempts net url output_path retries (seq a n) w).
Proof.
  induction n as [|n IH]; intros a w Hn Hsum; [lia|].
  simpl. destruct (net url a) as [size| |] eqn:Hnet.
  - exists 0. split; [lia|]. split; [intros i Hi; lia|].
    apply (BulkRetrieved _ _ _ _ size); simpl; auto.
    + now rewrite Nat.add_0_r.
    + now rewrite <- app_assoc.
  - destruct (a <? retries - 1)%nat eqn:Hlast.
    + apply Nat.ltb_lt in Hlast.
      destruct (IH (S a) (emit (Sleep (2 ^ Z.of_nat a)) (emit (Request url) w)))
        as (k & Hk & Herr & He); [lia|lia|].
      exists (S k). split; [lia|]. split.
      * intros i Hi. destruct (decide (i = a)) as [->|]; [exact Hnet|].
        apply Herr. lia.
      * eapply bulk_ending_retry; [| |exact He]; simpl; [reflexivity|].
        now rewrite <- app_assoc.
    + apply Nat.ltb_ge in Hlast.
      exists 0. split; [lia|]. split; [intros i Hi; lia|].
      apply BulkGaveUp; simpl; auto; try lia.
      now rewrite Nat.add_0_r.
  - exists 0. split; [lia|]. split; [intros i Hi; lia|].
    apply BulkUnexpected; simpl; auto.
    now rewrite Nat.add_0_r.
Qed.

Lemma bulk_download_requests w :
  0 < retries ->
  exists new,
    trace (snd (download_file net url output_path retries w)) = trace w ++ new /\
    1 <= requests new <= retries.
Proof.
  intros Hr. unfold download_file.
  destruct (bulk_attempts_ending retries 0 w Hr eq_refl) as (k & Hk & _ & He).
  assert (Hrq : forall tl, requests tl = 1 ->
            1 <= requests (bulk_backoff url 0 k ++ tl) <= retries).
  { intros tl Htl. rewrite bulk_requests_app, bulk_requests_backoff, Htl. lia. }
  destruct He as [size _ _ _ Ht|_ _ Ht|_ _ _ Ht];
    eexists; (split; [exact Ht|]); now apply Hrq.
Qed.

(** X8.  [PRISMDownloader.download_file] never looks at the destination
    first.  With no attempt allowed it fails without a request.  Otherwise
    it makes [k + 1 <= retries] requests, the first [k] of them met by a
    [URLError] -- an HTTP 404 included -- and followed by sleeps of 1, 2,
    4, ... seconds; it ends on a retrieved file, on an unexpected
    exception (never retried), or on the [URLError] of the last attempt
    allowed. *)
Theorem bulk_retry_policy w :
  download_file net url output_path 0 w = (false, w) /\
  (0 < retries ->
   exists k new,
     k < retries /\
     (forall i, i < k -> net url i = URLError) /\
     trace (snd (download_file net url output_path retries w)) = trace w ++ new /\
     requests new = k + 1 /\
     bulk_sleeps new = map (fun i => (2 ^ Z.of_nat i)%Z) (seq 0 k) /\
     ((exists size,
         net url k = Retrieved size /\
         fst (download_file net url output_path retries w) = true /\
         fs (snd (download_file net url output_path retries w)) !! output_path
         = Some size)
      \/ (net url k = Unexpected /\
          fst (download_file net url output_path retries w) = false)
      \/ (net url k = URLError /\ k = retries - 1 /\
          fst (download_file net url output_path retries w) = false))).
Proof.
  split; [reflexivity|]. intros Hr. unfold download_file.
  destruct (bulk_attempts_ending retries 0 w Hr eq_refl) as (k & Hk & Herr & He).
  assert (Hsl : forall tl, bulk_sleeps tl = [] ->
            bulk_sleeps (bulk_backoff url 0 k ++ tl)
            = map (fun i => (2 ^ Z.of_nat i)%Z) (seq 0 k)).
  { intros tl Htl. now rewrite bulk_sleeps_app, bulk_sleeps_backoff, Htl, app_nil_r. }
  assert (Hrq : forall tl, requests tl = 1 ->
            requests (bulk_backoff url 0 k ++ tl) = k + 1).
  { intros tl Htl. now rewrite bulk_requests_app, bulk_requests_backoff, Htl. }
  assert (Herr' : forall i, i < k -> net url i = URLError)
    by (intros i Hi; apply Herr; lia).
  destruct He as [size Hn Hres Hf Ht|Hn Hres Ht|Hn Hl Hres Ht];
    simpl in Hn; eexists k, _;
    (split; [exact Hk|]); (split; [exact Herr'|]); (split; [exact Ht|]);
    (split; [now apply Hrq|]); (split; [now apply Hsl|]).
  - left. exists size. split; [exact Hn|]. split; [exact Hres|].
    rewrite Hf. apply lookup_insert_eq.
  - right. left. now split.
  - right. right. simpl in Hl. now split.
Qed.

End BulkRetry.

(** ** A batch of the bulk downloader *)

Section BulkBatch.
Import Bulk.

Lemma split_nonempty c s : Py.split c s <> [].
Proof.
  destruct s as [|x rest]; simpl; [discriminate|].
  destruct (Ascii.eqb x c); [discriminate|].
  destruct (Py.split c rest); discriminate.
Qed.

(** [s.split(c)[1]] exists exactly when [c] occurs in [s]. *)
Lemma split_second c s :
  lacks c s = false ->
  exists tok second toks, Py.split c s = tok :: second :: toks.
Proof.
  induction s as [|x rest IH]; simpl; [discriminate|].
  destruct (Ascii.eqb x c); simpl.
  - intros _. pose proof (split_nonempty c rest) as Hne.
    destruct (Py.split c rest) as [|t ts]; [congruence|]. now eexists _, _, _.
  - intros H. destruct (IH H) as (tok & second & toks & ->).
    now eexists _, _, _.
Qed.

Variable net : string -> nat -> response.
Variables (output_dir temporal : string).

(** Where [download_batch] puts a file, if its name has a second token. *)
Definition destination (filename : string) : option string :=
  match Py.split "_" filename with
  | _ :: variable :: _ => Some (output_path_of output_dir temporal variable filename)
  | _ => None
  end.

Lemma destination_none filename :
  destination filename = None <-> lacks "_" filename = true.
Proof.
  unfold destination. split.
  - destruct (lacks "_" filename) eqn:E; [reflexivity|].
    destruct (split_second _ _ E) as (tok & second & toks & ->). discriminate.
  - intros H. now rewrite (split_lacks _ _ H).
Qed.

Lemma submit_none urls files :
  submit output_dir temporal urls files = None
  <-> Exists (fun uf => lacks "_" (snd uf) = true) urls.
Proof.
  induction urls as [|[url filename] rest IH]; simpl.
  - split; [discriminate|]. intros H. inversion H.
  - rewrite Exists_cons. simpl. rewrite <- destination_none, <- IH.
    unfold destination.
    destruct (Py.split "_" filename) as [|tok [|variable toks]];
      [tauto|tauto|].
    destruct (submit output_dir temporal rest files) as [[downloaded futures]|];
      simpl.
    + destruct (files !! _); split; try discriminate; intros [H|H]; discriminate.
    + split; [now right|reflexivity].
Qed.

Lemma submit_some urls files : forall skipped futures,
  submit output_dir temporal urls files = Some (skipped, futures) ->
  length skipped + length futures = length urls /\
  (Forall (fun uf => exists p, destination (snd uf) = Some p /\
                               is_Some (files !! p)) urls ->
   skipped = map snd urls /\ futures = []).
Proof.
  induction urls as [|[url filename] rest IH]; simpl; intros skipped futures.
  - intros [= <- <-]. split; [reflexivity|]. now intros _.
  - destruct (Py.split "_" filename) as [|tok [|variable toks]] eqn:Hsplit;
      [discriminate|discriminate|].
    destruct (submit output_dir temporal rest files) as [[downloaded fut]|];
      simpl; [|discriminate].
    destruct (IH downloaded fut eq_refl) as [Hlen Hall].
    destruct (files !! output_path_of output_dir temporal variable filename)
      as [size|] eqn:Hp; intros [= <- <-]; simpl.
    + split; [lia|]. intros Hfa. inversion Hfa as [|x l _ Hrest]; subst.
      destruct (Hall Hrest) as [-> ->]. now split.
    + split; [lia|]. intros Hfa. inversion Hfa as [|x l Hhere _]; subst.
      destruct Hhere as (p & Hdest & [size Hsome]).
      unfold destination in Hdest. simpl in Hdest. rewrite Hsplit in Hdest.
      injection Hdest as <-. congruence.
Qed.

Lemma collect_spec futures : forall w,
  length (fst (fst (collect net futures w)))
  + length (snd (fst (collect net futures w))) = length futures /\
  exists new,
    trace (snd (collect net futures w)) = trace w ++ new /\
    length futures <= requests new <= 3 * length futures.
Proof.
  induction futures as [|[url output_path] rest IH]; intros w; simpl.
  - split; [reflexivity|]. exists []. rewrite app_nil_r. split; [reflexivity|].
    unfold requests. simpl. lia.
  - destruct (bulk_download_requests net url output_path 3 w)
      as (new1 & Htr1 & Hreq1); [lia|].
    destruct (download_file net url output_path 3 w) as [ok w1].
    cbn [fst snd] in *.
    set (w2 := if ok && String.eqb (Path.suffix output_path) ".zip"
               then emit (ExtractZip output_path) w1 else w1).
    assert (Htr2 : exists ex, trace w2 = trace w ++ new1 ++ ex /\ requests ex = 0).
    { unfold w2. destruct (ok && _); simpl.
      - exists [ExtractZip output_path]. rewrite Htr1, <- app_assoc. now split.
      - exists []. now rewrite app_nil_r. }
    destruct Htr2 as (ex & Htr2 & Hex).
    destruct (IH w2) as (Hlen & new3 & Htr3 & Hreq3).
    destruct (collect net rest w2) as [[downloaded failed] w3].
    cbn [fst snd] in *.
    split.
    + destruct ok; simpl; lia.
    + exists (new1 ++ ex ++ new3). split.
      * destruct ok; simpl; rewrite Htr3, Htr2; now rewrite <- !app_assoc.
      * rewrite !bulk_requests_app, Hex. lia.
Qed.

Lemma download_batch_none urls w :
  download_batch net output_dir temporal urls w = None
  <-> Exists (fun uf => lacks "_" (snd uf) = true) urls.
Proof.
  unfold download_batch. rewrite <- (submit_none urls (fs w)).
  destruct (submit output_dir temporal urls (fs w)) as [[skipped futures]|];
    simpl; [|tauto].
  destruct (collect net futures w) as [[d f] w1]. split; discriminate.
Qed.

Lemma download_batch_some urls w downloaded failed w' :
  download_batch net output_dir temporal urls w
  = Some ((downloaded, failed), w') ->
  length downloaded + length failed = length urls /\
  exists new,
    trace w' = trace w ++ new /\
    length failed <= requests new <= 3 * length urls.
Proof.
  unfold download_batch.
  destruct (submit output_dir temporal urls (fs w)) as [[skipped futures]|]
    eqn:Hsub; simpl; [|discriminate].
  destruct (submit_some urls (fs w) skipped futures Hsub) as [Hlen _].
  destruct (collect_spec futures w) as (Hlen2 & new & Htr & Hreq).
  destruct (collect net futures w) as [[d f] w1]. cbn [fst snd] in *.
  intros [= <- <- <-]. split; [rewrite length_app; lia|].
  exists new. split; [exact Htr|]. lia.
Qed.


End BulkBatch.

(** ** The bulk downloader from its arguments on
    ([generate_*_urls], [download_data]) *)

Module BulkData.
Import Daily Calendar.

Definition BASE_URL_WEB : string :=
  "https://services.nacse.org/prism/data/public/4km".

(** [start_date] and [end_date]: two datetimes, or two integers (the years
    of an annual download). *)
Inductive period :=
| Dates (start_date end_date : date)
| Years (start_year end_year : Z).

Inductive error := IndexError | AttributeError | TypeError.

Inductive outcome (A : Type) :=
| Done (a : A)
| Raised (e : error).
Arguments Done {A} a.
Arguments Raised {A} e.

Section Downloader.
Variable net : string -> nat -> Bulk.response.
Variables (output_dir temporal resolution : string).

(** [generate_daily_urls]: the loop, run for at most [fuel] iterations. *)
Fixpoint daily_loop (fuel : nat) (variable : string) (current end_date : date)
  : list (string * string) :=
  match fuel with
  | O => []
  | S fuel' =>
      if date_leb current end_date
      then
        let date_str := date_str current in
        let url := BASE_URL_WEB +:+ "/" +:+ variable +:+ "/" +:+ date_str in
        let filename :=
          "PRISM_" +:+ variable +:+ "_" +:+ resolution +:+ "_daily_"
            +:+ date_str +:+ ".zip" in
        (url, filename) :: daily_loop fuel' variable (next_day current) end_date
      else []
  end.

Definition generate_daily_urls (variable : string) (start_date end_date : date)
  : list (string * string) :=
  daily_loop (Z.to_nat (ordinal end_date - ordinal start_date + 1))
    variable start_date end_date.

(** [d.replace(day=1)] *)
Definition first_of_month (d : date) : date := Date (year d) (month d) 1.

(** The step of [generate_monthly_urls], for a year before 9999. *)
Definition next_month (d : date) : date :=
  if (month d =? 12)%nat then Date (S (year d)) 1 (day d)
  else Date (year d) (S (month d)) (day d).

(** Months since year 0. *)
Definition month_index (d : date) : Z :=
  (12 * Z.of_nat (year d) + Z.of_nat (month d))%Z.

Fixpoint monthly_loop (fuel : nat) (variable : string) (current end_ : date)
  : list (string * string) :=
  match fuel with
  | O => []
  | S fuel' =>
      if date_leb current end_
      then
        let date_str :=
          pad 4 (Py.str_nat (year current)) +:+ pad 2 (Py.str_nat (month current)) in
        let url :=
          BASE_URL_WEB +:+ "/monthly/" +:+ variable +:+ "/"
            +:+ Py.str_nat (year current) +:+ "/"
            +:+ pad 2 (Py.str_nat (month current)) in
        let filename :=
          "PRISM_" +:+ variable +:+ "_" +:+ resolution +:+ "_monthly_"
            +:+ date_str +:+ ".zip" in
        (url, filename) :: monthly_loop fuel' variable (next_month current) end_
      else []
  end.

Definition generate_monthly_urls (variable : string) (start_date end_date : date)
  : list (string * string) :=
  monthly_loop (Z.to_nat (month_index end_date - month_index start_date + 1))
    variable (first_of_month start_date) (first_of_month end_date).

(** [for year in range(start_year, end_year + 1)] *)
Definition generate_annual_urls (variable : string) (start_year end_year : Z)
  : list (string * string) :=
  map (fun k =>
         let year := (start_year + Z.of_nat k)%Z in
         (BASE_URL_WEB +:+ "/annual/" +:+ variable +:+ "/" +:+ Py.str_Z year,
          "PRISM_" +:+ variable +:+ "_" +:+ resolution +:+ "_annual_"
            +:+ Py.str_Z year +:+ ".zip"))
    (seq 0 (Z.to_nat (end_year + 1 - start_year))).

(** The dispatch of [download_data] for one variable.  Integers where
    datetimes are expected fail at the first datetime method
    ([strftime], [replace]), datetimes where integers are expected at
    [end_year + 1]; an unknown [temporal] is logged and the variable
    passed over. *)
Definition urls_for (variable : string) (p : period)
  : outcome (list (string * string)) :=
  if String.eqb temporal "daily" then
    match p with
    | Dates start_date end_date =>
        Done (generate_daily_urls variable start_date end_date)
    | Years start_year end_year =>
        if (start_year <=? end_year)%Z then Raised AttributeError else Done []
    end
  else if String.eqb temporal "monthly" then
    match p with
    | Dates start_date end_date =>
        Done (generate_monthly_urls variable start_date end_date)
    | Years _ _ => Raised AttributeError
    end
  else if String.eqb temporal "annual" then
    match p with
    | Years start_year end_year =>
        Done (generate_annual_urls variable start_year end_year)
    | Dates _ _ => Raised TypeError
    end
  else Done [].

Fixpoint all_urls (variables : list string) (p : period)
  : outcome (list (string * string)) :=
  match variables with
  | [] => Done []
  | variable :: rest =>
      match urls_for variable p with
      | Raised e => Raised e
      | Done urls =>
          match all_urls rest p with
          | Raised e => Raised e
          | Done more => Done (urls ++ more)
          end
      end
  end.

Definition download_data (variables : list string) (p : period) (w : Bulk.world)
  : outcome ((list string * list string) * Bulk.world) :=
  match all_urls variables p with
  | Raised e => Raised e
  | Done urls =>
      match Bulk.download_batch net output_dir temporal urls w with
      | Some r => Done r
      | None => Raised IndexError
      end
  end.

End Downloader.
End BulkData.

Section BulkDataFacts.
Import Daily Calendar BulkData.

Lemma daily_loop_dates resolution variable fuel : forall current end_date,
  daily_loop resolution fuel variable current end_date
  = map (fun d =>
           (BASE_URL_WEB +:+ "/" +:+ variable +:+ "/" +:+ date_str d,
            "PRISM_" +:+ variable +:+ "_" +:+ resolution +:+ "_daily_"
              +:+ date_str d +:+ ".zip"))
      (date_loop fuel current end_date).
Proof.
  induction fuel as [|fuel IH]; intros current end_date; [reflexivity|].
  simpl. destruct (date_leb current end_date); [|reflexivity].
  simpl. now rewrite IH.
Qed.

(** First-of-month dates compare as their month indices. *)
Lemma date_leb_months a b :
  day a = day b -> (1 <= month a <= 12)%nat -> (1 <= month b <= 12)%nat ->
  date_leb a b = true <-> (month_index a <= month_index b)%Z.
Proof.
  intros Hd Ha Hb. unfold date_leb, month_index.
  destruct (year a =? year b)%nat eqn:Hy.
  - apply Nat.eqb_eq in Hy. destruct (month a =? month b)%nat eqn:Hm.
    + apply Nat.eqb_eq in Hm. rewrite Hd, Nat.leb_refl. split; [lia|reflexivity].
    + apply Nat.eqb_neq in Hm. rewrite Nat.ltb_lt. lia.
  - apply Nat.eqb_neq in Hy. rewrite Nat.ltb_lt. lia.
Qed.

Lemma next_month_index d :
  (1 <= month d <= 12)%nat ->
  month_index (next_month d) = (month_index d + 1)%Z /\
  (1 <= month (next_month d) <= 12)%nat /\ day (next_month d) = day d.
Proof.
  intros Hm. unfold next_month, month_index.
  destruct (month d =? 12)%nat eqn:E; simpl.
  - apply Nat.eqb_eq in E. lia.
  - apply Nat.eqb_neq in E. lia.
Qed.

Lemma monthly_loop_length resolution variable fuel : forall current end_,
  (1 <= month current <= 12)%nat -> (1 <= month end_ <= 12)%nat ->
  day current = day end_ ->
  (month_index end_ - month_index current + 1 <= Z.of_nat fuel)%Z ->
  length (monthly_loop resolution fuel variable current end_)
  = Z.to_nat (month_index end_ - month_index current + 1).
Proof.
  induction fuel as [|fuel IH]; intros current end_ Hc He Hd Hfuel.
  - simpl. lia.
  - simpl. destruct (date_leb current end_) eqn:Hle.
    + apply date_leb_months in Hle; [|assumption..].
      destruct (next_month_index current Hc) as (Hidx & Hm & Hday).
      simpl. rewrite IH; [lia|assumption..|congruence|lia].
    + assert (~ (month_index current <= month_index end_)%Z).
      { intros H. apply date_leb_months in H; [congruence|assumption..]. }
      simpl. lia.
Qed.

Lemma prism_name_underscore rest : lacks "_" ("PRISM_" +:+ rest) = false.
Proof. reflexivity. Qed.

(** The directory [download_batch] derives from a generated name. *)
Lemma prism_name_destination output_dir temporal variable rest :
  lacks "_" variable = true ->
  destination output_dir temporal ("PRISM_" +:+ variable +:+ "_" +:+ rest)
  = Some (Bulk.output_path_of output_dir temporal variable
            ("PRISM_" +:+ variable +:+ "_" +:+ rest)).
Proof.
  intros Hv. unfold destination.
  change ("PRISM_" +:+ variable +:+ "_" +:+ rest)
    with ("PRISM" +:+ String "_" (variable +:+ String "_" rest)).
  rewrite (split_app_sep "_" "PRISM") by reflexivity.
  rewrite (split_app_sep "_" variable) by assumption.
  reflexivity.
Qed.


Lemma urls_for_underscore temporal resolution variable p urls :
  urls_for temporal resolution variable p = Done urls ->
  Forall (fun uf => lacks "_" (snd uf) = false) urls.
Proof.
  unfold urls_for.
  assert (Hdaily : forall fuel c e,
            Forall (fun uf => lacks "_" (snd uf) = false)
              (daily_loop resolution fuel variable c e)).
  { induction fuel as [|fuel IH]; intros c e; [constructor|].
    simpl. destruct (date_leb c e); constructor; [reflexivity|apply IH]. }
  assert (Hmonthly : forall fuel c e,
            Forall (fun uf => lacks "_" (snd uf) = false)
              (monthly_loop resolution fuel variable c e)).
  { induction fuel as [|fuel IH]; intros c e; [constructor|].
    simpl. destruct (date_leb c e); constructor; [reflexivity|apply IH]. }
  destruct (String.eqb temporal "daily").
  { destruct p as [s e|s e].
    - intros [= <-]. apply Hdaily.
    - destruct (s <=? e)%Z; [discriminate|]. intros [= <-]. constructor. }
  destruct (String.eqb temporal "monthly").
  { destruct p as [s e|s e]; [|discriminate]. intros [= <-]. apply Hmonthly. }
  destruct (String.eqb temporal "annual").
  { destruct p as [s e|s e]; [discriminate|]. intros [= <-].
    unfold generate_annual_urls. apply Forall_map. apply Forall_forall.
    intros k _. reflexivity. }
  intros [= <-]. constructor.
Qed.

Lemma all_urls_underscore temporal resolution variables p : forall urls,
  all_urls temporal resolution variables p = Done urls ->
  Forall (fun uf => lacks "_" (snd uf) = false) urls.
Proof.
  induction variables as [|v rest IH]; simpl; intros urls.
  - intros [= <-]. constructor.
  - destruct (urls_for temporal resolution v p) as [us|e] eqn:Hus; [|discriminate].
    destruct (all_urls temporal resolution rest p) as [more|e]; [|discriminate].
    intros [= <-]. apply Forall_app. split.
    + eapply urls_for_underscore, Hus.
    + now apply IH.
Qed.

Lemma all_urls_daily resolution variables s e :
  exists urls,
    all_urls "daily" resolution variables (Dates s e) = Done urls /\
    length urls
    = length variables * length (generate_daily_urls resolution "" s e).
Proof.
  induction variables as [|v rest IH]; simpl.
  - now exists [].
  - destruct IH as (more & -> & Hlen).
    eexists. split; [reflexivity|].
    rewrite length_app, Hlen. f_equal.
    unfold generate_daily_urls. now rewrite !daily_loop_dates, !length_map.
Qed.


End BulkDataFacts.

(** ** What the batches of a conversion write, and how *)

Section BatchShape.
Import Decoder Zarr.
Variable read_bil_header : list byte -> gmap string hval.
Variable res : Decoder.resolution.
Variable strategy : chunk_strategy.
Variable files : list (string * datetime).
Variable batch_days : nat.
Variable append_mode : bool.
Hypothesis batch_days_pos : 0 < batch_days.

(** One [to_zarr] call of the batch loop: a block of one to [batch_days]
    time steps, chunked along time by the configured length or the
    block's own when that is shorter; mode 'w' only for the batch at
    index 0 of a run that found no store. *)
Definition block_shape (first : nat) (e : zevent) : Prop :=
  match e with
  | ToZarr mode chunks ts =>
      0 < length ts <= batch_days /\
      chunks = (Z.min (fst (fst (chunk_config strategy))) (Z.of_nat (length ts)),
                snd (fst (chunk_config strategy)), snd (chunk_config strategy)) /\
      (mode = ModeW -> first = 0 /\ append_mode = false) /\
      (first = 0 -> append_mode = false -> mode = ModeW)
  | Consolidate => False
  end.

Definition appends (e : zevent) : Prop :=
  match e with ToZarr ModeA _ _ => True | _ => False end.

Lemma read_batch_singletons batch : forall disk,
  Forall (fun ds => length ds = 1)
    (fst (read_batch read_bil_header res batch disk)).
Proof.
  induction batch as [|[path t] rest IH]; intros disk; simpl; [constructor|].
  destruct (read_bil_file read_bil_header res disk path) as [r disk1].
  specialize (IH disk1).
  destruct (read_batch read_bil_header res rest disk1) as [datasets disk2].
  simpl in IH.
  destruct r as [[d md]|e]; simpl; [|exact IH].
  unfold create_xarray_dataset. destruct (_ && _)%bool; simpl; [|exact IH].
  now constructor.
Qed.

(** What one batch adds: nothing, or one block. *)
Lemma process_batch_shape a st :
  exists new,
    events (process_batch read_bil_header res strategy files batch_days
              append_mode st (a * batch_days)) = events st ++ new /\
    length new <= 1 /\
    Forall (block_shape a) new /\
    written_times new ⊆+ map snd (take batch_days (drop (a * batch_days) files)).
Proof.
  unfold process_batch.
  pose proof (read_batch_sublist read_bil_header res
                (take batch_days (drop (a * batch_days) files)) (disk st))
    as Hsub.
  pose proof (read_batch_singletons
                (take batch_days (drop (a * batch_days) files)) (disk st))
    as Hone.
  destruct (read_batch read_bil_header res _ (disk st)) as [datasets disk'].
  simpl in Hsub, Hone.
  destruct datasets as [|ds rest].
  - exists []. simpl. rewrite app_nil_r. repeat split; auto.
    apply submseteq_nil_l.
  - set (blk := concat (ds :: rest)) in *.
    assert (Hlen : 0 < length blk <= batch_days).
    { split.
      - unfold blk. simpl. rewrite length_app.
        apply Forall_cons in Hone as [Hds _]. lia.
      - apply sublist_length in Hsub. rewrite length_map, length_take in Hsub.
        lia. }
    destruct (chunk_config strategy) as [[ctime clat] clon] eqn:Hcfg.
    eexists [ToZarr _ _ (merge_sort Z.le blk)]. simpl.
    split; [reflexivity|]. split; [lia|]. split.
    + constructor; [|constructor]. unfold block_shape.
      rewrite Hcfg. cbn [fst snd].
      assert (Hperm : @length datetime (merge_sort Z.le blk) = length blk)
        by apply Permutation_length, merge_sort_Permutation.
      split; [rewrite Hperm; exact Hlen|]. split; [reflexivity|]. split.
      * destruct (a * batch_days =? 0)%nat eqn:Hi; simpl; [|discriminate].
        destruct append_mode; simpl; [discriminate|].
        intros _. apply Nat.eqb_eq in Hi. split; [nia|reflexivity].
      * intros -> ->. reflexivity.
    + unfold written_times. simpl. rewrite app_nil_r.
      rewrite merge_sort_Permutation. now apply sublist_submseteq.
Qed.

Lemma block_shape_later a e : 0 < a -> block_shape a e -> appends e.
Proof.
  intros Ha. destruct e as [[|] c ts|]; simpl; auto.
  intros (_ & _ & Hw & _). destruct (Hw eq_refl). lia.
Qed.

(** The loop over batches [first], [first + 1], ...: the block of batch
    [first], if it has one, then appended blocks. *)
Lemma batch_loop_shape count : forall first st,
  exists head tail,
    events (foldl (process_batch read_bil_header res strategy files batch_days
                     append_mode) st
              (map (fun k => k * batch_days) (seq first count)))
    = events st ++ head ++ tail /\
    length head <= 1 /\
    length (head ++ tail) <= count /\
    Forall (block_shape first) head /\
    Forall appends tail /\
    Forall (fun e => exists a, block_shape a e) (head ++ tail) /\
    written_times (head ++ tail) ⊆+ map snd (drop (first * batch_days) files).
Proof.
  induction count as [|count IH]; intros first st.
  - exists [], []. simpl. rewrite app_nil_r. repeat split; auto.
    apply submseteq_nil_l.
  - destruct (process_batch_shape first st) as (new1 & Hev1 & Hlen1 & Hsh1 & Hw1).
    simpl.
    destruct (IH (S first)
                (process_batch read_bil_header res strategy files batch_days
                   append_mode st (first * batch_days)))
      as (head & tail & Hev2 & Hlen2 & Hcnt2 & Hsh2 & Hap2 & Hall2 & Hw2).
    exists new1, (head ++ tail).
    split; [rewrite Hev2, Hev1; now rewrite <- !app_assoc|].
    split; [exact Hlen1|].
    split; [rewrite length_app; lia|].
    split; [exact Hsh1|].
    split.
    { apply Forall_app. split; [|exact Hap2].
      eapply Forall_impl; [exact Hsh2|]. intros e.
      apply block_shape_later. lia. }
    split.
    { apply Forall_app. split; [|exact Hall2].
      eapply Forall_impl; [exact Hsh1|]. intros e He. now exists first. }
    rewrite written_times_app.
    rewrite <- (take_drop batch_days (drop (first * batch_days) files)).
    rewrite map_app. apply submseteq_app; [exact Hw1|].
    rewrite drop_drop.
    replace (first * batch_days + batch_days) with (S first * batch_days)
      by lia.
    exact Hw2.
Qed.

End BatchShape.

Section RunShape.
Import Decoder Zarr.
Variable read_bil_header : list byte -> gmap string hval.
Variable res : Decoder.resolution.
Variable strategy : chunk_strategy.
Variables (input_dir : string) (all_files : list string).
Variables (start_date end_date : datetime) (batch_days : Z).

(** Every selected file carries a date of the range, read off the name of
    one of the files found. *)
Lemma select_files_range :
  Forall (fun pt =>
            (start_date <= snd pt <= end_date)%Z /\
            exists name,
              In name all_files /\ fst pt = Path.join input_dir name /\
              file_date start_date end_date name = Some (snd pt))
    (select_files input_dir start_date end_date all_files).
Proof.
  unfold select_files. induction all_files as [|name rest IH]; simpl;
    [constructor|].
  destruct (file_date start_date end_date name) as [t|] eqn:Hd; simpl.
  - constructor.
    + simpl. split.
      * unfold file_date in Hd.
        destruct (parse_filename name) as [md|]; [|discriminate].
        destruct (md_year md), (md_month md), (md_day md); try discriminate.
        destruct (mk_datetime _ _ _) as [t'|]; [|discriminate].
        destruct ((start_date <=? t') && (t' <=? end_date))%Z eqn:Hr;
          [|discriminate].
        injection Hd as <-. lia.
      * exists name. split; [now left|]. now split.
    + eapply Forall_impl; [exact IH|].
      intros pt (Hr & n & Hin & Hp & Hf). split; [exact Hr|].
      exists n. split; [now right|]. now split.
  - eapply Forall_impl; [exact IH|].
    intros pt (Hr & n & Hin & Hp & Hf). split; [exact Hr|].
    exists n. split; [now right|]. now split.
Qed.

Lemma select_files_length :
  length (select_files input_dir start_date end_date all_files)
  <= length all_files.
Proof.
  unfold select_files. induction all_files as [|name rest IH]; simpl; [lia|].
  unfold omap in IH.
  destruct (file_date start_date end_date name); simpl; lia.
Qed.

(** A call that returns: the blocks it wrote, the one of the first batch
    apart. *)
Lemma run_shape st st' :
  process_time_series read_bil_header res strategy input_dir all_files
    start_date end_date batch_days st = Ok st' ->
  exists head tail,
    events st'
    = events st ++ (head ++ tail)
        ++ (if (0 <? writes (head ++ tail))%nat then [Consolidate] else []) /\
    times (store st') = times (store st) ++ written_times (head ++ tail) /\
    length head <= 1 /\
    Forall (block_shape strategy (Z.to_nat batch_days)
              (bool_decide (is_Some (store st))) 0) head /\
    Forall appends tail /\
    Forall (fun e => exists a,
              block_shape strategy (Z.to_nat batch_days)
                (bool_decide (is_Some (store st))) a e) (head ++ tail) /\
    length (head ++ tail)
    <= (length (select_files input_dir start_date end_date all_files)
        + Z.to_nat batch_days - 1) / Z.to_nat batch_days /\
    written_times (head ++ tail)
      ⊆+ map snd (select_files input_dir start_date end_date all_files).
Proof.
  unfold process_time_series.
  assert (Hskip : forall st1, events st1 = events st -> store st1 = store st ->
            exists head tail,
              events st1
              = events st ++ (head ++ tail)
                  ++ (if (0 <? writes (head ++ tail))%nat
                      then [Consolidate] else []) /\
              times (store st1) = times (store st) ++ written_times (head ++ tail) /\
              length head <= 1 /\
              Forall (block_shape strategy (Z.to_nat batch_days)
                        (bool_decide (is_Some (store st))) 0) head /\
              Forall appends tail /\
              Forall (fun e => exists a,
                        block_shape strategy (Z.to_nat batch_days)
                          (bool_decide (is_Some (store st))) a e) (head ++ tail) /\
              length (head ++ tail)
              <= (length (select_files input_dir start_date end_date all_files)
                  + Z.to_nat batch_days - 1) / Z.to_nat batch_days /\
              written_times (head ++ tail)
                ⊆+ map snd (select_files input_dir start_date end_date all_files)).
  { intros st1 Hev Hst. exists [], []. simpl. rewrite Hev, Hst, !app_nil_r.
    repeat split; auto; try lia. apply submseteq_nil_l. }
  destruct all_files as [|f0 fs]; [intros [= <-]; now apply Hskip|].
  set (files := select_files input_dir start_date end_date (f0 :: fs)) in *.
  destruct files as [|p0 ps] eqn:Hfiles; [intros [= <-]; now apply Hskip|].
  rewrite <- Hfiles. clearbody files.
  destruct (batch_days =? 0)%Z eqn:Hb; [discriminate|].
  apply Z.eqb_neq in Hb.
  set (st0 := {| disk := disk st; store := store st; events := events st;
                 data_written := false |}).
  unfold Py.range_step.
  destruct (0 <? batch_days)%Z eqn:Hpos.
  2:{ simpl. intros [= <-]. rewrite Hfiles. now apply Hskip. }
  clear Hskip. apply Z.ltb_lt in Hpos.
  destruct (batch_loop_stretch read_bil_header res strategy files
              (Z.to_nat batch_days)
              (bool_decide (is_Some (store st))) ltac:(lia)
              ((length files + Z.to_nat batch_days - 1) / Z.to_nat batch_days)
              0 st0)
    as (ws & Hws).
  { intros _ Hfresh. apply bool_decide_eq_false in Hfresh.
    simpl. destruct (store st); [|reflexivity].
    exfalso. apply Hfresh. now eexists. }
  destruct (batch_loop_shape read_bil_header res strategy files
              (Z.to_nat batch_days)
              (bool_decide (is_Some (store st))) ltac:(lia)
              ((length files + Z.to_nat batch_days - 1) / Z.to_nat batch_days)
              0 st0)
    as (head & tail & Hev' & Hl1 & Hcnt & Hsh & Hap & Hall & Hsub).
  set (st1 := foldl _ st0 _) in *.
  destruct Hws as [Hev Hnc Hw Ht _ _ _]. simpl in Hev, Hw, Ht, Hev'.
  rewrite drop_0 in Hsub.
  assert (ws = head ++ tail) as ->.
  { rewrite Hev in Hev'. now apply app_inv_head in Hev'. }
  intros Hrun. exists head, tail. rewrite Hw in Hrun.
  destruct (0 <? writes (head ++ tail))%nat; injection Hrun as <-; simpl.
  - rewrite Hev, <- app_assoc. repeat split; assumption.
  - rewrite Hev, app_nil_r. repeat split; assumption.
Qed.



End RunShape.

Section RunShapeExamples.
Import Decoder Zarr.



End RunShapeExamples.
